(** * Row construction rules of [lib/resultfile.py]

    A shallow embedding of the result-table row builders
    ([BaseResultRow], [HeatingResultRow], [GvsSingleResultRow],
    [GvsMultipleResultFirstRow], [GvsMultipleResultSecondRow],
    [GvsReaccuralResultRow]) and the properties of the rows they build,
    and of the part of [ResultFile] that names the file and the sheet and
    appends the rows.

    Python values are embedded as follows.
    - a field of a row holds [None], an [int], a [float] or a [str]: [pyval];
    - a [float] is an IEEE 754 binary64 number: Rocq's primitive [float],
      whose operations are the machine's;
    - a raised exception ends the computation with [Raise e];
    - the metering facts are objects that the builders mutate in place and
      the install dates are a module-level dictionary: both live in an
      explicit [world] that every GVS builder reads and writes. *)

From stdpp Require Import gmap strings list fin_maps pretty.
From Stdlib Require Import Ascii Floats.

Local Open Scope string_scope.

(** ** Python values, exceptions and builtins *)

Module Py.

Inductive pyval : Type :=
| VNone
| VInt (n : Z)
| VFloat (x : float)
| VStr (s : string).

(** The exceptions the module raises or lets through.  [InvalidReference]
    has no Python counterpart: it is the result of reading an object that
    is not in the store of the model. *)
Inductive exn : Type :=
| NoServiceRow
| ValueError
| ZeroDivisionError
| AttributeError
| InvalidReference.

Inductive result (A : Type) : Type :=
| Ok (a : A)
| Raise (e : exn).

Arguments Ok {A} a.
Arguments Raise {A} e.

Definition rbind {A B : Type} (r : result A) (k : A → result B) : result B :=
  match r with
  | Ok a => k a
  | Raise e => Raise e
  end.

(** An optional string or integer attribute as a field value. *)
Definition of_str (o : option string) : pyval :=
  match o with Some s => VStr s | None => VNone end.

Definition of_int (o : option Z) : pyval :=
  match o with Some n => VInt n | None => VNone end.

Definition of_float (o : option float) : pyval :=
  match o with Some x => VFloat x | None => VNone end.

(** Truth value of an optional string: [None] and [""] are false. *)
Definition truthy_str (o : option string) : bool :=
  match o with
  | Some s => negb (String.eqb s "")
  | None => false
  end.

(** Truth value of a float: [x != 0.0], so a NaN is true. *)
Definition truthy_float (x : float) : bool := negb (x =? 0)%float.

Definition truthy_opt_float (o : option float) : bool :=
  match o with
  | Some x => truthy_float x
  | None => false
  end.

(** [a / b] on floats: division by a zero raises. *)
Definition truediv (a b : float) : result float :=
  if (b =? 0)%float then Raise ZeroDivisionError else Ok (a / b)%float.

(** [str(n)] for an [int]. *)
Definition str_int (n : Z) : string := pretty n.

(** [f"{n:02d}"]: at least two characters, padded with a zero. *)
Definition format_02d (n : Z) : string :=
  if bool_decide (0 ≤ n ≤ 9)%Z then "0" +:+ pretty n else pretty n.

(** [f"{seed}"] for an optional string: [None] prints as its name. *)
Definition format_str (o : option string) : string :=
  match o with Some s => s | None => "None" end.

(** *** [f"{x:.4f}"]

    A finite float is the exact dyadic number [m * 2^e]; the format prints
    the decimal with four fractional digits that is nearest to it, ties
    going to the even last digit.  Infinities and NaN print as their
    names. *)

(** Nearest integer, ties to even, of [m * 2^e * 10^4]. *)
Definition scaled_half_even (m : positive) (e : Z) : N :=
  let n := (Z.pos m * 10000)%Z in
  if bool_decide (0 ≤ e)%Z then Z.to_N (n * 2 ^ e)
  else
    let d := (2 ^ (- e))%Z in
    let q := (n `div` d)%Z in
    let r := (n `mod` d)%Z in
    Z.to_N (match (2 * r ?= d)%Z with
            | Lt => q
            | Gt => q + 1
            | Eq => if Z.even q then q else q + 1
            end)%Z.

Definition digit (n : N) : ascii := pretty_N_char (n `mod` 10)%N.

(** The four fractional digits of a number of ten-thousandths. *)
Definition fraction4 (n : N) : string :=
  String (digit (n `div` 1000))
    (String (digit (n `div` 100))
      (String (digit (n `div` 10))
        (String (digit n) ""))).

Definition fixed4 (n : N) : string :=
  pretty (n `div` 10000)%N +:+ "." +:+ fraction4 n.

Definition sign_str (s : bool) : string := if s then "-" else "".

Definition format_4f (x : float) : string :=
  match Prim2SF x with
  | S754_nan => "nan"
  | S754_infinity s => sign_str s +:+ "inf"
  | S754_zero s => sign_str s +:+ fixed4 0
  | S754_finite s m e => sign_str s +:+ fixed4 (scaled_half_even m e)
  end.

(** The magnitude of a float that is a number, as a fraction. *)
Definition magnitude (x : float) : option (Z * Z) :=
  match Prim2SF x with
  | S754_zero _ => Some (0, 1)%Z
  | S754_finite _ m e => Some (Z.pos m * 2 ^ Z.max e 0, 2 ^ Z.max (- e) 0)%Z
  | _ => None
  end.

Definition sign_of (x : float) : bool :=
  match Prim2SF x with
  | S754_zero s | S754_infinity s | S754_finite s _ _ => s
  | S754_nan => false
  end.

(** [n] is the integer nearest to [num / den], the even one of the two
    when the fraction is half-way between them. *)
Definition nearest_even (num den n : Z) : Prop :=
  (2 * Z.abs (n * den - num) ≤ den)%Z
  ∧ ((2 * Z.abs (n * den - num) = den)%Z → Z.even n = true).

(** A float that is a number: neither an infinity nor a NaN. *)
Definition is_number (x : float) : bool :=
  match Prim2SF x with
  | S754_zero _ | S754_finite _ _ _ => true
  | _ => false
  end.

Definition is_digit (c : ascii) : bool :=
  bool_decide (c ∈ ["0"; "1"; "2"; "3"; "4"; "5"; "6"; "7"; "8"; "9"]%char).

Fixpoint all_digits (s : string) : bool :=
  match s with
  | "" => true
  | String c s' => is_digit c && all_digits s'
  end.

(** What follows the first decimal point of a string, if it has one. *)
Fixpoint fraction_part (s : string) : option string :=
  match s with
  | "" => None
  | String c s' => if Ascii.eqb c "." then Some s' else fraction_part s'
  end.

(** The string is a decimal with exactly four fractional digits. *)
Definition four_fraction_digits (s : string) : bool :=
  match fraction_part s with
  | Some f => (String.length f =? 4)%nat && all_digits f
  | None => false
  end.

End Py.

Import Py.

(** ** The records the builders consume *)

(** Modelled from the spec: [lib/datatypes.py] is not among the sources.
    A period is a month and a year (§3, Period). *)
Module MonthYear.
Record t : Type := mk { month : Z; year : Z }.
End MonthYear.

(** Modelled from the spec: [lib/osvfile.py] is not among the sources.
    §3, AddressFact. *)
Module OsvAddressRecord.
Record t : Type := mk { account : string; address : string; population : Z }.
End OsvAddressRecord.

(** Modelled from the spec: [lib/osvfile.py] is not among the sources.
    §3, AccrualFact: the amounts accrued for the period, per service. *)
Module OsvAccuralRecord.
Record t : Type := mk { heating : float; gvs : float }.
End OsvAccuralRecord.

(** Modelled from the spec: [lib/detailsfile.py] is not among the sources.
    §3, MeteringFact; [counter_number] is the attribute the builders
    assign. *)
Module GvsDetailsRecord.
Record t : Type := mk {
  account : string;
  counter_id : option string;
  counter_number : option string;
  metric_current : option float;
  metric_date_current : option string;
  consumption_ipu : option float;
  consumption_average : option float;
  consumption_normative : option float;
  people_registered : option Z
}.

Definition set_counter_number (v : option string) (g : t) : t :=
  mk (account g) (counter_id g) v (metric_current g)
     (metric_date_current g) (consumption_ipu g) (consumption_average g)
     (consumption_normative g) (people_registered g).
End GvsDetailsRecord.

(** Modelled from the spec: [lib/reaccural.py] is not among the sources.
    The three kinds the builder recognises, and [UNRECOGNIZED] for any
    other value passed as the kind. *)
Inductive ReaccuralType : Type :=
| IPU
| AVERAGE
| NORMATIVE
| UNRECOGNIZED (tag : string).

(** Modelled from the spec: [lib/detailsfile.py] is not among the sources.
    The account ledger (§6): each lookup gives a sum or raises, in
    particular [NoServiceRow] when the ledger has no row for the service. *)
Module AccountDetailsFileSingleton.
Record t : Type := mk {
  get_service_month_payment : MonthYear.t → string → result float;
  get_service_month_closing_balance : MonthYear.t → string → result float
}.
End AccountDetailsFileSingleton.

(** Modelled from the spec: [lib/addressfile.py] is not among the sources.
    A roster file gives the rows of the sheet named after a year. *)
Module AddressFile.
Record t (sheet : Type) : Type := mk {
  get_sheet_data_formatted : string → sheet
}.
Arguments mk {sheet} _.
Arguments get_sheet_data_formatted {sheet} _ _.
End AddressFile.

(** The enumeration [ResultRecordType]: its members, their names and their
    values. *)
Module ResultRecordType.
Inductive t : Type :=
| HEATING_ACCURAL
| HEATING_REACCURAL
| GVS_ACCURAL
| GVS_REACCURAL.

Definition name (x : t) : string :=
  match x with
  | HEATING_ACCURAL => "HEATING_ACCURAL"
  | HEATING_REACCURAL => "HEATING_REACCURAL"
  | GVS_ACCURAL => "GVS_ACCURAL"
  | GVS_REACCURAL => "GVS_REACCURAL"
  end.

Definition value (x : t) : Z :=
  match x with
  | HEATING_ACCURAL => 1
  | HEATING_REACCURAL => 2
  | GVS_ACCURAL => 3
  | GVS_REACCURAL => 4
  end.
End ResultRecordType.

(** ** The world: metering-fact objects and the install-date dictionary *)

(** A reference to a [GvsDetailsRecord] object. *)
Definition ref : Type := nat.

(** [objects] holds the metering facts by reference, so that two builders
    given the same reference see each other's assignments;
    [GvsIpuInstallDates] is the module-level dictionary, whose values may
    be [None]. *)
Record world : Type := mkWorld {
  objects : gmap ref GvsDetailsRecord.t;
  GvsIpuInstallDates : gmap string (option string)
}.

(** Computations that read and write the world and may raise; what was
    written before an exception stays written. *)
Definition M (A : Type) : Type := world → result A * world.

Definition ret {A : Type} (a : A) : M A := λ w, (Ok a, w).

Definition raise {A : Type} (e : exn) : M A := λ w, (Raise e, w).

Definition bind {A B : Type} (k : A → M B) (m : M A) : M B :=
  λ w, match m w with
       | (Ok a, w') => k a w'
       | (Raise e, w') => (Raise e, w')
       end.

Definition lift {A : Type} (r : result A) : M A := λ w, (r, w).

#[global] Instance M_ret : MRet M := @ret.
#[global] Instance M_bind : MBind M := @bind.
#[global] Instance result_ret : MRet result := @Ok.
#[global] Instance result_bind : MBind result := λ A B k r, rbind r k.

(** Reading the object behind a reference. *)
Definition deref (r : ref) : M GvsDetailsRecord.t :=
  λ w, match objects w !! r with
       | Some g => (Ok g, w)
       | None => (Raise InvalidReference, w)
       end.

(** [gvs.counter_number = v] *)
Definition assign_counter_number (r : ref) (v : option string) : M unit :=
  λ w, match objects w !! r with
       | Some g =>
           (Ok tt, mkWorld (<[r := GvsDetailsRecord.set_counter_number v g]> (objects w))
                           (GvsIpuInstallDates w))
       | None => (Raise InvalidReference, w)
       end.

(** [GvsIpuInstallDates.get(key, default)] *)
Definition install_date_of (key : string) (default : string) (w : world) : pyval :=
  match GvsIpuInstallDates w !! key with
  | Some v => of_str v
  | None => VStr default
  end.

Definition install_date_get (key : string) (default : string) : M pyval :=
  λ w, (Ok (install_date_of key default w), w).

(** [GvsIpuInstallDates[key] = v] *)
Definition install_date_set (key : string) (v : option string) : M unit :=
  λ w, (Ok tt, mkWorld (objects w) (<[key := v]> (GvsIpuInstallDates w))).

(** [try: m except NoServiceRow: fallback] for a ledger lookup. *)
Definition except_NoServiceRow (r : result float) (fallback : pyval) : result pyval :=
  match r with
  | Ok x => Ok (VFloat x)
  | Raise NoServiceRow => Ok fallback
  | Raise e => Raise e
  end.

(** [v != 0] for a number. *)
Definition ne_zero (v : pyval) : bool :=
  match v with
  | VFloat x => negb (x =? 0)%float
  | VInt n => negb (n =? 0)%Z
  | _ => true
  end.

(** The truth value of a field value. *)
Definition truthy (v : pyval) : bool :=
  match v with
  | VNone => false
  | VInt n => negb (n =? 0)%Z
  | VFloat x => truthy_float x
  | VStr s => negb (String.eqb s "")
  end.

(** ** Rows *)

(** A row object: its positional attributes [f00] ... [f46], keyed by their
    number (the attribute name [f"f{ind:02d}"] is determined by it), and
    its [price] attribute, absent until it is assigned. *)
Record BaseResultRow : Type := mkRow {
  fields : gmap nat pyval;
  price : option float
}.

Definition MAX_FIELDS : nat := 47.

Definition set_field (ind : nat) (value : pyval) (self : BaseResultRow) : BaseResultRow :=
  mkRow (<[ind := value]> (fields self)) (price self).

Definition get_field (ind : nat) (self : BaseResultRow) : result pyval :=
  match fields self !! ind with
  | Some v => Ok v
  | None => Raise AttributeError
  end.

Definition set_price (p : float) (self : BaseResultRow) : BaseResultRow :=
  mkRow (fields self) (Some p).

Definition get_price (self : BaseResultRow) : result float :=
  match price self with
  | Some p => Ok p
  | None => Raise AttributeError
  end.

(** [for ind in inds: self.set_field(ind, None)] *)
Definition clear_fields (inds : list nat) (self : BaseResultRow) : BaseResultRow :=
  foldl (λ self ind, set_field ind VNone self) self inds.

Definition as_list (self : BaseResultRow) : result (list pyval) :=
  foldl (λ (acc : result (list pyval)) ind,
           items ← acc; v ← get_field ind self; mret (items ++ [v])%list)
        (Ok []) (seq 0 MAX_FIELDS).

(** [f"20.{date.month:02d}.{date.year}"] *)
Definition payment_date (date : MonthYear.t) : string :=
  "20." +:+ format_02d (MonthYear.month date) +:+ "." +:+ str_int (MonthYear.year date).

(** The payment chapter, written the same way in [HeatingResultRow] (chapter
    6) and in [GvsSingleResultRow] (chapter 9):
    [if payment_sum != 0: ...]. *)
Definition chapter_payment (date : MonthYear.t) (payment_sum : pyval)
    (self : BaseResultRow) : BaseResultRow :=
  if ne_zero payment_sum then
    let self := set_field 40 (VStr (payment_date date)) self in
    let self := set_field 41 (VStr (payment_date date)) self in
    let self := set_field 42 payment_sum self in
    set_field 43 (VStr (if truthy payment_sum then "Оплата" else "Возврат оплаты")) self
  else self.

(** [GvsSingleResultRow._get_new_counter_number] *)
Definition _get_new_counter_number (seed : option string) : string :=
  format_str seed +:+ "_2".

Section Builders.

(** The collaborators the module calls and that are not among the sources:
    [HeatingTariff.get_tariff] of [lib/tariffs.py] and
    [ExcelHelpers.address_in_list] of [lib/helpers.py]. *)
Variable get_tariff : MonthYear.t → float.
Context {sheet : Type}.
Variable address_in_list : string → sheet → bool.

Definition BaseResultRow_init (date : MonthYear.t) (data : OsvAddressRecord.t)
    : BaseResultRow :=
  let self := clear_fields (seq 0 MAX_FIELDS) (mkRow ∅ None) in
  let self := set_field 0 (VInt (MonthYear.month date)) self in
  let self := set_field 1 (VInt (MonthYear.year date)) self in
  let self := set_field 2 (VStr (OsvAddressRecord.account data)) self in
  let self := set_field 3 (VStr (OsvAddressRecord.address data)) self in
  let self := set_field 6 (VInt (MonthYear.month date)) self in
  let self := set_field 7 (VInt (MonthYear.year date)) self in
  let self := set_price (get_tariff date) self in
  set_field 8 (of_float (price self)) self.

Definition HeatingResultRow_init (date : MonthYear.t) (data : OsvAddressRecord.t)
    (accural : OsvAccuralRecord.t) (odpu_file heating_average_file : AddressFile.t sheet)
    (account_details : AccountDetailsFileSingleton.t) : result BaseResultRow :=
  let self := BaseResultRow_init date data in
  let self := set_field 4 (VStr (ResultRecordType.name ResultRecordType.HEATING_ACCURAL)) self in
  let self := set_field 5 (VStr "Отопление") self in
  (* chapter 2 *)
  let odpus :=
    AddressFile.get_sheet_data_formatted odpu_file (str_int (MonthYear.year date)) in
  let has_odpu := address_in_list (OsvAddressRecord.address data) odpus in
  let self :=
    if has_odpu then
      let self := set_field 9 (VStr "Общедомовый") self in
      let self := set_field 10 (VStr "01.01.2018") self in
      let self := set_field 11 (VStr "Подвал") self in
      let self := set_field 12 (VInt 1) self in
      let self := set_field 13 (VStr "ВКТ-5") self in
      let self := set_field 14 (VInt 1) self in
      let self := set_field 15 (VInt 6) self in
      set_field 16 (VInt 3) self
    else self in
  (* chapter 3 *)
  let heating_averages :=
    AddressFile.get_sheet_data_formatted heating_average_file
      (str_int (MonthYear.year date)) in
  let has_heating_average :=
    address_in_list (OsvAddressRecord.address data) heating_averages in
  price ← get_price self;
  '(quantity, self) ←
    (if has_odpu && has_heating_average then
       (* float(accural.heating) / self.price: the amount is a float already *)
       q ← truediv (OsvAccuralRecord.heating accural) price;
       let quantity := format_4f q in
       let sum_average := OsvAccuralRecord.heating accural in
       let self := set_field 26 (VStr quantity) self in
       let self := set_field 27 (VFloat sum_average) self in
       let self := set_field 28 (VFloat sum_average) self in
       mret (quantity, self)
     else
       (* chapter 4 *)
       let self := set_field 30 (VInt (OsvAddressRecord.population data)) self in
       q ← truediv (OsvAccuralRecord.heating accural) price;
       let quantity := format_4f q in
       let sum_normative := OsvAccuralRecord.heating accural in
       let self := set_field 31 (VStr quantity) self in
       let self := set_field 32 (VFloat sum_normative) self in
       let self := set_field 33 (VFloat sum_normative) self in
       mret (quantity, self));
  (* chapter 5 *)
  let self := set_field 35 (VStr quantity) self in
  let self := set_field 36 (VFloat (OsvAccuralRecord.heating accural)) self in
  let self := set_field 37 (VFloat (OsvAccuralRecord.heating accural)) self in
  (* chapter 6 *)
  payment_sum ←
    AccountDetailsFileSingleton.get_service_month_payment account_details date "Отопление";
  let self := chapter_payment date (VFloat payment_sum) self in
  (* chapter 7 *)
  closing_balance ←
    AccountDetailsFileSingleton.get_service_month_closing_balance account_details date
      "Отопление";
  mret (set_field 45 (VFloat closing_balance) self).

Definition GvsSingleResultRow_init (date : MonthYear.t) (data : OsvAddressRecord.t)
    (accural : OsvAccuralRecord.t) (account_details : AccountDetailsFileSingleton.t)
    (gvs_details_row : ref) : M BaseResultRow :=
  let self := BaseResultRow_init date data in
  let self := set_field 4 (VStr (ResultRecordType.name ResultRecordType.GVS_ACCURAL)) self in
  let self := set_field 5 (VStr "Тепловая энергия ГВС") self in
  (* chapter 3 *)
  gvs ← deref gvs_details_row;
  self ←
    (if truthy_str (GvsDetailsRecord.counter_id gvs)
        || truthy_str (GvsDetailsRecord.counter_number gvs) then
       let self := set_field 9 (VStr "Индивидуальный") self in
       install_date ← install_date_get (OsvAddressRecord.account data) "01.01.2019";
       let self := set_field 10 install_date self in
       let self := set_field 13 (VStr "СГВ-15") self in
       (if negb (truthy_str (GvsDetailsRecord.counter_number gvs)) then
          assign_counter_number gvs_details_row
            (Some (_get_new_counter_number (GvsDetailsRecord.counter_id gvs)))
        else mret tt);;
       gvs ← deref gvs_details_row;
       let self := set_field 14 (of_str (GvsDetailsRecord.counter_number gvs)) self in
       let self := set_field 15 (VInt 6) self in
       let self := set_field 16 (VInt 3) self in
       (* chapter 4 *)
       let self :=
         if GvsDetailsRecord.metric_current gvs is Some metric_current then
           let self :=
             set_field 19 (of_str (GvsDetailsRecord.metric_date_current gvs)) self in
           let self := set_field 20 (VStr "От абонента (прочие)") self in
           set_field 21 (VFloat metric_current) self
         else self in
       mret (set_field 22 (of_float (GvsDetailsRecord.consumption_ipu gvs)) self)
     else mret self);
  gvs ← deref gvs_details_row;
  (* chapter 5 *)
  price ← lift (get_price self);
  q ← lift (truediv (OsvAccuralRecord.gvs accural) price);
  let quantity := format_4f q in
  let self :=
    if truthy_opt_float (GvsDetailsRecord.consumption_ipu gvs) then
      let self := set_field 23 (VStr quantity) self in
      let self := set_field 24 (VFloat (OsvAccuralRecord.gvs accural)) self in
      set_field 25 (VFloat (OsvAccuralRecord.gvs accural)) self
    else self in
  (* chapter 6 *)
  let self :=
    if truthy_opt_float (GvsDetailsRecord.consumption_average gvs) then
      let self := set_field 26 (VStr quantity) self in
      let self := set_field 27 (VFloat (OsvAccuralRecord.gvs accural)) self in
      set_field 28 (VFloat (OsvAccuralRecord.gvs accural)) self
    else self in
  (* chapter 7 *)
  let self :=
    if truthy_opt_float (GvsDetailsRecord.consumption_normative gvs) then
      let self := set_field 30 (of_int (GvsDetailsRecord.people_registered gvs)) self in
      let self := set_field 31 (VStr quantity) self in
      let self := set_field 32 (VFloat (OsvAccuralRecord.gvs accural)) self in
      set_field 33 (VFloat (OsvAccuralRecord.gvs accural)) self
    else self in
  (* chapter 8 *)
  let self := set_field 35 (VStr quantity) self in
  let self := set_field 36 (VFloat (OsvAccuralRecord.gvs accural)) self in
  let self := set_field 37 (VFloat (OsvAccuralRecord.gvs accural)) self in
  (* chapter 9 *)
  payment_sum ←
    lift (except_NoServiceRow
            (AccountDetailsFileSingleton.get_service_month_payment account_details date
               "Тепловая энергия для подогрева воды")
            (VInt 0));
  let self := chapter_payment date payment_sum self in
  (* chapter 10 *)
  closing_balance ←
    lift (except_NoServiceRow
            (AccountDetailsFileSingleton.get_service_month_closing_balance
               account_details date "Тепловая энергия для подогрева воды")
            (VInt 0));
  mret (set_field 45 closing_balance self).

Definition GvsMultipleResultFirstRow_init (date : MonthYear.t)
    (data : OsvAddressRecord.t) (accural : OsvAccuralRecord.t)
    (account_details : AccountDetailsFileSingleton.t) (gvs_details_row : ref)
    : M BaseResultRow :=
  self ← GvsSingleResultRow_init date data accural account_details gvs_details_row;
  gvs ← deref gvs_details_row;
  if GvsDetailsRecord.metric_current gvs is Some _ then
    mret (set_field 20 (VStr "При снятии прибора") self)
  else mret self.

Definition GvsMultipleResultSecondRow_init (date : MonthYear.t)
    (data : OsvAddressRecord.t) (accural : OsvAccuralRecord.t)
    (account_details : AccountDetailsFileSingleton.t) (gvs_details_row : ref)
    : M BaseResultRow :=
  self ← GvsSingleResultRow_init date data accural account_details gvs_details_row;
  gvs ← deref gvs_details_row;
  let self := set_field 10 (of_str (GvsDetailsRecord.metric_date_current gvs)) self in
  install_date_set (GvsDetailsRecord.account gvs)
    (GvsDetailsRecord.metric_date_current gvs);;
  let self :=
    if GvsDetailsRecord.metric_current gvs is Some _ then
      set_field 20 (VStr "При установке") self
    else self in
  (* for i in range(23, 46) *)
  mret (clear_fields (seq 23 23) self).

Definition GvsReaccuralResultRow_init (date : MonthYear.t) (data : OsvAddressRecord.t)
    (gvs_details_row : ref) (reaccural_date : MonthYear.t) (reaccural_sum : float)
    (reaccural_type : ReaccuralType) : M BaseResultRow :=
  let self := BaseResultRow_init date data in
  let self := set_field 4 (VStr (ResultRecordType.name ResultRecordType.GVS_REACCURAL)) self in
  let self := set_field 5 (VStr "Тепловая энергия ГВС") self in
  (* chapter 2 *)
  let self := set_field 6 (VInt (MonthYear.month reaccural_date)) self in
  let self := set_field 7 (VInt (MonthYear.year reaccural_date)) self in
  let self := set_field 8 (of_float (price self)) self in
  (* chapter 3 *)
  gvs ← deref gvs_details_row;
  self ←
    (if truthy_str (GvsDetailsRecord.counter_id gvs)
        || truthy_str (GvsDetailsRecord.counter_number gvs) then
       let self := set_field 9 (VStr "Индивидуальный") self in
       install_date ← install_date_get (OsvAddressRecord.account data) "01.01.2019";
       let self := set_field 10 install_date self in
       let self := set_field 13 (VStr "СГВ-15") self in
       (if negb (truthy_str (GvsDetailsRecord.counter_number gvs)) then
          assign_counter_number gvs_details_row
            (Some (_get_new_counter_number (GvsDetailsRecord.counter_id gvs)))
        else mret tt);;
       gvs ← deref gvs_details_row;
       let self := set_field 14 (of_str (GvsDetailsRecord.counter_number gvs)) self in
       let self := set_field 15 (VInt 6) self in
       mret (set_field 16 (VInt 3) self)
     else mret self);
  price ← lift (get_price self);
  q ← lift (truediv reaccural_sum price);
  let quantity := format_4f q in
  (* chapter 5 *)
  self ←
    match reaccural_type with
    | IPU =>
        let self := set_field 23 (VStr quantity) self in
        let self := set_field 24 (VFloat reaccural_sum) self in
        mret (set_field 25 (VFloat reaccural_sum) self)
    | AVERAGE =>
        let self := set_field 26 (VStr quantity) self in
        let self := set_field 27 (VFloat reaccural_sum) self in
        mret (set_field 28 (VFloat reaccural_sum) self)
    | NORMATIVE =>
        let self := set_field 31 (VStr quantity) self in
        let self := set_field 32 (VFloat reaccural_sum) self in
        mret (set_field 33 (VFloat reaccural_sum) self)
    | UNRECOGNIZED _ => raise ValueError
    end;
  (* chapter 6 *)
  let self := set_field 35 (VStr quantity) self in
  let self := set_field 36 (VFloat reaccural_sum) self in
  mret (set_field 37 (VFloat reaccural_sum) self).

(** A call of one of the five row constructors. *)
Inductive RowCall : Type :=
| NewHeatingResultRow (date : MonthYear.t) (data : OsvAddressRecord.t)
    (accural : OsvAccuralRecord.t) (odpu_file heating_average_file : AddressFile.t sheet)
    (account_details : AccountDetailsFileSingleton.t)
| NewGvsSingleResultRow (date : MonthYear.t) (data : OsvAddressRecord.t)
    (accural : OsvAccuralRecord.t) (account_details : AccountDetailsFileSingleton.t)
    (gvs_details_row : ref)
| NewGvsMultipleResultFirstRow (date : MonthYear.t) (data : OsvAddressRecord.t)
    (accural : OsvAccuralRecord.t) (account_details : AccountDetailsFileSingleton.t)
    (gvs_details_row : ref)
| NewGvsMultipleResultSecondRow (date : MonthYear.t) (data : OsvAddressRecord.t)
    (accural : OsvAccuralRecord.t) (account_details : AccountDetailsFileSingleton.t)
    (gvs_details_row : ref)
| NewGvsReaccuralResultRow (date : MonthYear.t) (data : OsvAddressRecord.t)
    (gvs_details_row : ref) (reaccural_date : MonthYear.t) (reaccural_sum : float)
    (reaccural_type : ReaccuralType).

Definition construct (c : RowCall) : M BaseResultRow :=
  match c with
  | NewHeatingResultRow date data accural odpu_file heating_average_file account_details =>
      lift (HeatingResultRow_init date data accural odpu_file heating_average_file
              account_details)
  | NewGvsSingleResultRow date data accural account_details gvs_details_row =>
      GvsSingleResultRow_init date data accural account_details gvs_details_row
  | NewGvsMultipleResultFirstRow date data accural account_details gvs_details_row =>
      GvsMultipleResultFirstRow_init date data accural account_details gvs_details_row
  | NewGvsMultipleResultSecondRow date data accural account_details gvs_details_row =>
      GvsMultipleResultSecondRow_init date data accural account_details gvs_details_row
  | NewGvsReaccuralResultRow date data gvs_details_row reaccural_date reaccural_sum
      reaccural_type =>
      GvsReaccuralResultRow_init date data gvs_details_row reaccural_date reaccural_sum
        reaccural_type
  end.

(** *** The rows in closed form

    What each GVS constructor does to the world and which row it returns,
    as functions of the metering fact [g] behind the reference; the
    constructors are proved equal to them below. *)

Definition has_counter (g : GvsDetailsRecord.t) : bool :=
  truthy_str (GvsDetailsRecord.counter_id g)
  || truthy_str (GvsDetailsRecord.counter_number g).

(** The constructor assigns [counter_number]. *)
Definition synthesizes (g : GvsDetailsRecord.t) : bool :=
  has_counter g && negb (truthy_str (GvsDetailsRecord.counter_number g)).

Definition normalized (g : GvsDetailsRecord.t) : GvsDetailsRecord.t :=
  if synthesizes g then
    GvsDetailsRecord.set_counter_number
      (Some (_get_new_counter_number (GvsDetailsRecord.counter_id g))) g
  else g.

Definition store_normalized (l : ref) (g : GvsDetailsRecord.t) (w : world) : world :=
  if synthesizes g then
    mkWorld (<[l := normalized g]> (objects w)) (GvsIpuInstallDates w)
  else w.

Definition single_meter_chapter (data : OsvAddressRecord.t) (w : world)
    (g : GvsDetailsRecord.t) (self : BaseResultRow) : BaseResultRow :=
  if has_counter g then
    let self := set_field 9 (VStr "Индивидуальный") self in
    let self :=
      set_field 10 (install_date_of (OsvAddressRecord.account data) "01.01.2019" w) self in
    let self := set_field 13 (VStr "СГВ-15") self in
    let self :=
      set_field 14 (of_str (GvsDetailsRecord.counter_number (normalized g))) self in
    let self := set_field 15 (VInt 6) self in
    let self := set_field 16 (VInt 3) self in
    let self :=
      if GvsDetailsRecord.metric_current g is Some metric_current then
        let self := set_field 19 (of_str (GvsDetailsRecord.metric_date_current g)) self in
        let self := set_field 20 (VStr "От абонента (прочие)") self in
        set_field 21 (VFloat metric_current) self
      else self in
    set_field 22 (of_float (GvsDetailsRecord.consumption_ipu g)) self
  else self.

Definition reaccural_meter_chapter (data : OsvAddressRecord.t) (w : world)
    (g : GvsDetailsRecord.t) (self : BaseResultRow) : BaseResultRow :=
  if has_counter g then
    let self := set_field 9 (VStr "Индивидуальный") self in
    let self :=
      set_field 10 (install_date_of (OsvAddressRecord.account data) "01.01.2019" w) self in
    let self := set_field 13 (VStr "СГВ-15") self in
    let self :=
      set_field 14 (of_str (GvsDetailsRecord.counter_number (normalized g))) self in
    let self := set_field 15 (VInt 6) self in
    set_field 16 (VInt 3) self
  else self.

(** A consumption chapter: quantity, sum, sum. *)
Definition chapter (ind : nat) (quantity : string) (amount : float)
    (self : BaseResultRow) : BaseResultRow :=
  let self := set_field ind (VStr quantity) self in
  let self := set_field (ind + 1) (VFloat amount) self in
  set_field (ind + 2) (VFloat amount) self.

(** Chapters 5 to 7 of [GvsSingleResultRow]: one chapter for each
    consumption that the metering fact has. *)
Definition consumption_chapters (g : GvsDetailsRecord.t) (quantity : string)
    (amount : float) (self : BaseResultRow) : BaseResultRow :=
  let self :=
    if truthy_opt_float (GvsDetailsRecord.consumption_ipu g) then
      chapter 23 quantity amount self
    else self in
  let self :=
    if truthy_opt_float (GvsDetailsRecord.consumption_average g) then
      chapter 26 quantity amount self
    else self in
  if truthy_opt_float (GvsDetailsRecord.consumption_normative g) then
    chapter 31 quantity amount
      (set_field 30 (of_int (GvsDetailsRecord.people_registered g)) self)
  else self.

Definition single_row (date : MonthYear.t) (data : OsvAddressRecord.t)
    (accural : OsvAccuralRecord.t) (w : world) (g : GvsDetailsRecord.t)
    (q : float) (payment_sum closing_balance : pyval) : BaseResultRow :=
  let amount := OsvAccuralRecord.gvs accural in
  let self := BaseResultRow_init date data in
  let self := set_field 4 (VStr (ResultRecordType.name ResultRecordType.GVS_ACCURAL)) self in
  let self := set_field 5 (VStr "Тепловая энергия ГВС") self in
  let self := single_meter_chapter data w g self in
  let self := consumption_chapters g (format_4f q) amount self in
  let self := chapter 35 (format_4f q) amount self in
  let self := chapter_payment date payment_sum self in
  set_field 45 closing_balance self.

Definition single_result (date : MonthYear.t) (data : OsvAddressRecord.t)
    (accural : OsvAccuralRecord.t) (account_details : AccountDetailsFileSingleton.t)
    (w : world) (g : GvsDetailsRecord.t) : result BaseResultRow :=
  q ← truediv (OsvAccuralRecord.gvs accural) (get_tariff date);
  payment_sum ←
    except_NoServiceRow
      (AccountDetailsFileSingleton.get_service_month_payment account_details date
         "Тепловая энергия для подогрева воды")
      (VInt 0);
  closing_balance ←
    except_NoServiceRow
      (AccountDetailsFileSingleton.get_service_month_closing_balance account_details date
         "Тепловая энергия для подогрева воды")
      (VInt 0);
  mret (single_row date data accural w g q payment_sum closing_balance).

Definition first_patch (g : GvsDetailsRecord.t) (self : BaseResultRow) : BaseResultRow :=
  if GvsDetailsRecord.metric_current g is Some _ then
    set_field 20 (VStr "При снятии прибора") self
  else self.

Definition second_patch (g : GvsDetailsRecord.t) (self : BaseResultRow) : BaseResultRow :=
  let self := set_field 10 (of_str (GvsDetailsRecord.metric_date_current g)) self in
  let self :=
    if GvsDetailsRecord.metric_current g is Some _ then
      set_field 20 (VStr "При установке") self
    else self in
  clear_fields (seq 23 23) self.

Definition reaccural_row (date : MonthYear.t) (data : OsvAddressRecord.t)
    (w : world) (g : GvsDetailsRecord.t) (reaccural_date : MonthYear.t)
    (reaccural_sum : float) (ind : nat) (q : float) : BaseResultRow :=
  let self := BaseResultRow_init date data in
  let self := set_field 4 (VStr (ResultRecordType.name ResultRecordType.GVS_REACCURAL)) self in
  let self := set_field 5 (VStr "Тепловая энергия ГВС") self in
  let self := set_field 6 (VInt (MonthYear.month reaccural_date)) self in
  let self := set_field 7 (VInt (MonthYear.year reaccural_date)) self in
  let self := set_field 8 (VFloat (get_tariff date)) self in
  let self := reaccural_meter_chapter data w g self in
  let self := chapter ind (format_4f q) reaccural_sum self in
  chapter 35 (format_4f q) reaccural_sum self.

(** The chapter a recognised kind fills. *)
Definition chapter_of_kind (reaccural_type : ReaccuralType) : option nat :=
  match reaccural_type with
  | IPU => Some 23
  | AVERAGE => Some 26
  | NORMATIVE => Some 31
  | UNRECOGNIZED _ => None
  end.

Definition reaccural_result (date : MonthYear.t) (data : OsvAddressRecord.t)
    (w : world) (g : GvsDetailsRecord.t) (reaccural_date : MonthYear.t)
    (reaccural_sum : float) (reaccural_type : ReaccuralType) : result BaseResultRow :=
  q ← truediv reaccural_sum (get_tariff date);
  match chapter_of_kind reaccural_type with
  | Some ind => Ok (reaccural_row date data w g reaccural_date reaccural_sum ind q)
  | None => Raise ValueError
  end.

(** Chapter 2 of [HeatingResultRow]: the area meter of the building. *)
Definition odpu_chapter (has_odpu : bool) (self : BaseResultRow) : BaseResultRow :=
  if has_odpu then
    let self := set_field 9 (VStr "Общедомовый") self in
    let self := set_field 10 (VStr "01.01.2018") self in
    let self := set_field 11 (VStr "Подвал") self in
    let self := set_field 12 (VInt 1) self in
    let self := set_field 13 (VStr "ВКТ-5") self in
    let self := set_field 14 (VInt 1) self in
    let self := set_field 15 (VInt 6) self in
    set_field 16 (VInt 3) self
  else self.

Definition heating_row (date : MonthYear.t) (data : OsvAddressRecord.t)
    (accural : OsvAccuralRecord.t) (has_odpu has_heating_average : bool)
    (q : float) (payment_sum closing_balance : float) : BaseResultRow :=
  let amount := OsvAccuralRecord.heating accural in
  let self := BaseResultRow_init date data in
  let self := set_field 4 (VStr (ResultRecordType.name ResultRecordType.HEATING_ACCURAL)) self in
  let self := set_field 5 (VStr "Отопление") self in
  let self := odpu_chapter has_odpu self in
  let self :=
    if has_odpu && has_heating_average then chapter 26 (format_4f q) amount self
    else
      chapter 31 (format_4f q) amount
        (set_field 30 (VInt (OsvAddressRecord.population data)) self) in
  let self := chapter 35 (format_4f q) amount self in
  let self := chapter_payment date (VFloat payment_sum) self in
  set_field 45 (VFloat closing_balance) self.

(** The amount a constructor call divides by the price. *)
Definition amount_of (c : RowCall) : float :=
  match c with
  | NewHeatingResultRow _ _ accural _ _ _ => OsvAccuralRecord.heating accural
  | NewGvsSingleResultRow _ _ accural _ _
  | NewGvsMultipleResultFirstRow _ _ accural _ _
  | NewGvsMultipleResultSecondRow _ _ accural _ _ => OsvAccuralRecord.gvs accural
  | NewGvsReaccuralResultRow _ _ _ _ reaccural_sum _ => reaccural_sum
  end.

(** The period of the report a call is made for. *)
Definition date_of (c : RowCall) : MonthYear.t :=
  match c with
  | NewHeatingResultRow date _ _ _ _ _
  | NewGvsSingleResultRow date _ _ _ _
  | NewGvsMultipleResultFirstRow date _ _ _ _
  | NewGvsMultipleResultSecondRow date _ _ _ _
  | NewGvsReaccuralResultRow date _ _ _ _ _ => date
  end.

(** The address fact of a call. *)
Definition data_of (c : RowCall) : OsvAddressRecord.t :=
  match c with
  | NewHeatingResultRow _ data _ _ _ _
  | NewGvsSingleResultRow _ data _ _ _
  | NewGvsMultipleResultFirstRow _ data _ _ _
  | NewGvsMultipleResultSecondRow _ data _ _ _
  | NewGvsReaccuralResultRow _ data _ _ _ _ => data
  end.

(** The metering fact a GVS call is given. *)
Definition gvs_details_row_of (c : RowCall) : option ref :=
  match c with
  | NewHeatingResultRow _ _ _ _ _ _ => None
  | NewGvsSingleResultRow _ _ _ _ l
  | NewGvsMultipleResultFirstRow _ _ _ _ l
  | NewGvsMultipleResultSecondRow _ _ _ _ l
  | NewGvsReaccuralResultRow _ _ l _ _ _ => Some l
  end.

Definition is_second_row (c : RowCall) : bool :=
  match c with
  | NewGvsMultipleResultSecondRow _ _ _ _ _ => true
  | _ => false
  end.

End Builders.

(** A row object that has exactly the attributes [f00] ... [f46]. *)
Definition full (self : BaseResultRow) : Prop :=
  dom (fields self) = set_seq 0 MAX_FIELDS.

(** The positions no constructor assigns. *)
Definition never_assigned : list nat := [17; 18; 29; 34; 38; 39; 44; 46].

(** A chapter (quantity, sum, sum) that is filled, and one that is empty. *)
Definition chapter_filled (ind : nat) (quantity : string) (amount : float)
    (self : BaseResultRow) : Prop :=
  get_field ind self = Ok (VStr quantity)
  ∧ get_field (ind + 1) self = Ok (VFloat amount)
  ∧ get_field (ind + 2) self = Ok (VFloat amount).

Definition chapter_empty (ind : nat) (self : BaseResultRow) : Prop :=
  get_field ind self = Ok VNone
  ∧ get_field (ind + 1) self = Ok VNone
  ∧ get_field (ind + 2) self = Ok VNone.

(** The row and the world a constructor call ends with. *)
Definition row_of (x : result BaseResultRow * world) : BaseResultRow :=
  match x.1 with
  | Ok self => self
  | Raise _ => mkRow ∅ None
  end.

Definition world_of (x : result BaseResultRow * world) : world := x.2.

(** ** What a call asks for *)

Section Calls.

Context {sheet : Type}.

Implicit Types c : RowCall (sheet := sheet).

(** The member of [ResultRecordType] whose name the constructor writes. *)
Definition record_type_of c : ResultRecordType.t :=
  match c with
  | NewHeatingResultRow _ _ _ _ _ _ => ResultRecordType.HEATING_ACCURAL
  | NewGvsSingleResultRow _ _ _ _ _
  | NewGvsMultipleResultFirstRow _ _ _ _ _
  | NewGvsMultipleResultSecondRow _ _ _ _ _ => ResultRecordType.GVS_ACCURAL
  | NewGvsReaccuralResultRow _ _ _ _ _ _ => ResultRecordType.GVS_REACCURAL
  end.

(** The label of the service the constructor writes. *)
Definition service_label_of c : string :=
  match c with
  | NewHeatingResultRow _ _ _ _ _ _ => "Отопление"
  | _ => "Тепловая энергия ГВС"
  end.

(** The period of the second chapter: the period reaccrued for in a
    reaccrual call, the period of the report in the others. *)
Definition period_of c : MonthYear.t :=
  match c with
  | NewGvsReaccuralResultRow _ _ _ reaccural_date _ _ => reaccural_date
  | _ => date_of c
  end.

Definition is_reaccural_row c : bool :=
  match c with
  | NewGvsReaccuralResultRow _ _ _ _ _ _ => true
  | _ => false
  end.

(** The rows of a split. *)
Definition is_split_row c : bool :=
  match c with
  | NewGvsMultipleResultFirstRow _ _ _ _ _
  | NewGvsMultipleResultSecondRow _ _ _ _ _ => true
  | _ => false
  end.

(** The label of the source of a reading, by GVS accrual constructor. *)
Definition reading_source_of c : string :=
  match c with
  | NewGvsMultipleResultFirstRow _ _ _ _ _ => "При снятии прибора"
  | NewGvsMultipleResultSecondRow _ _ _ _ _ => "При установке"
  | _ => "От абонента (прочие)"
  end.

(** The ledger a call is given. *)
Definition account_details_of c : option AccountDetailsFileSingleton.t :=
  match c with
  | NewHeatingResultRow _ _ _ _ _ account_details
  | NewGvsSingleResultRow _ _ _ account_details _
  | NewGvsMultipleResultFirstRow _ _ _ account_details _
  | NewGvsMultipleResultSecondRow _ _ _ account_details _ => Some account_details
  | NewGvsReaccuralResultRow _ _ _ _ _ _ => None
  end.

End Calls.

(** The name of the attribute of a position: [f"f{ind:02d}"] in [set_field]
    and [get_field]. *)
Definition attr_name (ind : Z) : string := "f" +:+ format_02d ind.

(** The date of a payment has the form [DD.MM.YYYY]. *)
Definition is_dd_mm_yyyy (s : string) : bool :=
  match s with
  | String d1 (String d2 (String p1 (String m1 (String m2 (String p2
      (String y1 (String y2 (String y3 (String y4 ""))))))))) =>
      is_digit d1 && is_digit d2 && Ascii.eqb p1 "." && is_digit m1 && is_digit m2
      && Ascii.eqb p2 "." && is_digit y1 && is_digit y2 && is_digit y3 && is_digit y4
  | _ => false
  end.

(** ** The table of results *)

Module ResultFile.

(** What [__init__] raises before it touches a file. *)
Inductive error : Type :=
| KeyError (key : string)
| ValueError.

Inductive outcome (A : Type) : Type :=
| Done (a : A)
| Fail (e : error).

Arguments Done {A} a.
Arguments Fail {A} e.

(** The part of a string before the first [sep] and the part after it. *)
Fixpoint cut (sep : ascii) (s : string) : option (string * string) :=
  match s with
  | "" => None
  | String c s' =>
      if Ascii.eqb c sep then Some ("", s')
      else
        match cut sep s' with
        | Some (a, b) => Some (String c a, b)
        | None => None
        end
  end.

(** [s.split(sep, maxsplit)] for a separator of one character: at most
    [maxsplit] cuts, from the left. *)
Fixpoint split (sep : ascii) (maxsplit : nat) (s : string) : list string :=
  match maxsplit with
  | 0 => [s]
  | S n =>
      match cut sep s with
      | Some (a, b) => a :: split sep n b
      | None => [s]
      end
  end.

Fixpoint count (sep : ascii) (s : string) : nat :=
  match s with
  | "" => 0
  | String c s' => (if Ascii.eqb c sep then 1 else 0) + count sep s'
  end.

(** [file_name, self.sheet_name = conf["result_file"].split("@", 2)]:
    the lookup raises [KeyError] for a missing key, the assignment to two
    names raises [ValueError] unless the list has two elements. *)
Definition names (conf : gmap string string) : outcome (string * string) :=
  match conf !! "result_file" with
  | None => Fail (KeyError "result_file")
  | Some s =>
      match split "@" 2 s with
      | [file_name; sheet_name] => Done (file_name, sheet_name)
      | _ => Fail ValueError
      end
  end.



End ResultFile.

(** ** A report period worked out *)

Module Worked.

Definition tariff : MonthYear.t → float := λ _, 50%float.

(** A tariff under which a huge amount overflows the quotient. *)
Definition half_tariff : MonthYear.t → float := λ _, 0.5%float.

Definition in_roster (address : string) (rows : list string) : bool :=
  bool_decide (address ∈ rows).

Definition may : MonthYear.t := MonthYear.mk 5 2023.
Definition march : MonthYear.t := MonthYear.mk 3 2023.

Definition data : OsvAddressRecord.t := OsvAddressRecord.mk "100" "Lenina 1" 3.

Definition accural : OsvAccuralRecord.t := OsvAccuralRecord.mk 200 150.

Definition huge_accural : OsvAccuralRecord.t := OsvAccuralRecord.mk 200 0x1p1023.

(** A metering fact with an id and no number, billed by the norm for three
    registered people; no date of the current reading. *)
Definition fact_a1 : GvsDetailsRecord.t :=
  GvsDetailsRecord.mk "100" (Some "A1") None (Some 12.5%float) None
    None None (Some 2%float) (Some 3%Z).

(** The metering fact of a newly installed meter. *)
Definition fact_new : GvsDetailsRecord.t :=
  GvsDetailsRecord.mk "100" (Some "B2") (Some "777") (Some 0%float)
    (Some "15.06.2023") (Some 3%float) None None None.

(** A metering fact with an id, no number and a metered consumption. *)
Definition fact_x9 : GvsDetailsRecord.t :=
  GvsDetailsRecord.mk "100" (Some "X9") None None None (Some 3%float) None None None.

Definition world0 : world := mkWorld {[ 0 := fact_a1; 1 := fact_new; 2 := fact_x9 ]} ∅.

(** A ledger without a row for the service, and one with a refund. *)
Definition ledger_empty : AccountDetailsFileSingleton.t :=
  AccountDetailsFileSingleton.mk (λ _ _, Raise NoServiceRow) (λ _ _, Raise NoServiceRow).

Definition ledger_refund : AccountDetailsFileSingleton.t :=
  AccountDetailsFileSingleton.mk (λ _ _, Ok (-100)%float) (λ _ _, Ok 12.5%float).

Definition odpu_file : AddressFile.t (list string) := AddressFile.mk (λ _, ["Lenina 1"]).
Definition heating_average_file : AddressFile.t (list string) := AddressFile.mk (λ _, []).

Definition heating_call : RowCall :=
  NewHeatingResultRow may data accural odpu_file heating_average_file ledger_refund.

Definition single_call : RowCall (sheet := list string) :=
  NewGvsSingleResultRow may data accural ledger_empty 0.

Definition huge_single_call : RowCall (sheet := list string) :=
  NewGvsSingleResultRow may data huge_accural ledger_empty 0.

Definition second_call_without_date : RowCall (sheet := list string) :=
  NewGvsMultipleResultSecondRow may data accural ledger_empty 0.

Definition second_call : RowCall (sheet := list string) :=
  NewGvsMultipleResultSecondRow may data accural ledger_empty 1.

Definition single_refund_call : RowCall (sheet := list string) :=
  NewGvsSingleResultRow may data accural ledger_refund 0.

Definition reaccural_call : RowCall (sheet := list string) :=
  NewGvsReaccuralResultRow may data 0 march 75 NORMATIVE.

Definition metered_call : RowCall (sheet := list string) :=
  NewGvsSingleResultRow may data accural ledger_empty 2.

Definition single_new_call : RowCall (sheet := list string) :=
  NewGvsSingleResultRow may data accural ledger_empty 1.

Definition first_call : RowCall (sheet := list string) :=
  NewGvsMultipleResultFirstRow may data accural ledger_empty 1.

(** A tariff of zero, and a ledger whose lookups fail. *)
Definition zero_tariff : MonthYear.t → float := λ _, 0%float.

Definition ledger_broken : AccountDetailsFileSingleton.t :=
  AccountDetailsFileSingleton.mk (λ _ _, Raise ValueError) (λ _ _, Raise ValueError).

Definition single_broken_call : RowCall (sheet := list string) :=
  NewGvsSingleResultRow may data accural ledger_broken 0.

(** What the constructors return in [world0]. *)
Definition run (c : RowCall) (w : world) : result BaseResultRow * world :=
  construct tariff in_roster c w.

End Worked.

(** ** Fields of a row: reading after writing *)

Section Fields.

Implicit Types (self : BaseResultRow) (ind i j : nat) (v : pyval).

Lemma get_field_set_field_eq self i v : get_field i (set_field i v self) = Ok v.
Proof. unfold get_field, set_field; simpl. by rewrite lookup_insert_eq. Qed.

Lemma get_field_set_field_ne self i j v :
  i ≠ j → get_field j (set_field i v self) = get_field j self.
Proof. intros Hne. unfold get_field, set_field; simpl. by rewrite lookup_insert_ne. Qed.

Lemma price_set_field self i v : price (set_field i v self) = price self.
Proof. reflexivity. Qed.

Lemma clear_fields_cons i inds self :
  clear_fields (i :: inds) self = clear_fields inds (set_field i VNone self).
Proof. reflexivity. Qed.

Lemma price_clear_fields inds self : price (clear_fields inds self) = price self.
Proof.
  revert self. induction inds as [|i inds IH]; intros self; [done|].
  by rewrite clear_fields_cons, IH.
Qed.

Lemma get_field_clear_fields_notin inds self j :
  j ∉ inds → get_field j (clear_fields inds self) = get_field j self.
Proof.
  revert self. induction inds as [|i inds IH]; intros self Hj; [done|].
  apply not_elem_of_cons in Hj as [Hne Hj].
  rewrite clear_fields_cons, IH by done.
  by apply get_field_set_field_ne.
Qed.

Lemma get_field_clear_fields_in inds self j :
  j ∈ inds → get_field j (clear_fields inds self) = Ok VNone.
Proof.
  revert self. induction inds as [|i inds IH]; intros self Hj.
  - by apply elem_of_nil in Hj.
  - rewrite clear_fields_cons. destruct (decide (j ∈ inds)) as [Hin|Hnotin].
    + by apply IH.
    + apply elem_of_cons in Hj as [->|Hin]; [|done].
      rewrite get_field_clear_fields_notin by done. apply get_field_set_field_eq.
Qed.

Lemma get_field_Ok_lookup self i v : get_field i self = Ok v ↔ fields self !! i = Some v.
Proof. unfold get_field. destruct (fields self !! i); split; congruence. Qed.

(** Writing a position that exists adds no attribute. *)
Lemma full_set_field self i v : i < MAX_FIELDS → full self → full (set_field i v self).
Proof.
  unfold full, set_field; cbn [fields]. intros Hi Hfull.
  rewrite dom_insert_L, Hfull.
  apply set_eq. intros k. rewrite elem_of_union, elem_of_singleton, !elem_of_set_seq.
  unfold MAX_FIELDS in *. lia.
Qed.

Lemma full_clear_fields inds self :
  Forall (λ i, i < MAX_FIELDS) inds → full self → full (clear_fields inds self).
Proof.
  revert self. induction inds as [|i inds IH]; intros self Hall Hfull; [done|].
  apply Forall_cons in Hall as [Hi Hall]. rewrite clear_fields_cons.
  apply IH; [done|]. by apply full_set_field.
Qed.

(** The loop of the base constructor creates the 47 attributes. *)
Lemma full_blank p : full (clear_fields (seq 0 MAX_FIELDS) (mkRow ∅ p)).
Proof. unfold full. vm_compute. reflexivity. Qed.

Lemma full_lookup self i : full self → i < MAX_FIELDS → is_Some (fields self !! i).
Proof.
  unfold full. intros Hfull Hi. apply elem_of_dom. rewrite Hfull.
  apply elem_of_set_seq. lia.
Qed.

Lemma full_lookup_None self i : full self → (MAX_FIELDS ≤ i)%nat → fields self !! i = None.
Proof.
  unfold full. intros Hfull Hi. apply not_elem_of_dom. rewrite Hfull.
  rewrite elem_of_set_seq. lia.
Qed.

End Fields.

Ltac get_field_simpl :=
  repeat first
    [ rewrite get_field_set_field_eq
    | rewrite get_field_set_field_ne by lia ].

Create HintDb full discriminated.

#[global] Hint Resolve full_set_field full_blank : full.
#[global] Hint Extern 1 (_ < MAX_FIELDS) => (unfold MAX_FIELDS in *; lia) : full.

(** ** What each chapter writes *)

Section Chapters.

Variable get_tariff : MonthYear.t → float.

Implicit Types (self : BaseResultRow) (i j : nat) (g : GvsDetailsRecord.t).

Lemma get_field_chapter_ne self i j quantity amount :
  j < i ∨ i + 2 < j →
  get_field j (chapter i quantity amount self) = get_field j self.
Proof. intros Hj. unfold chapter. by get_field_simpl. Qed.

Lemma get_field_chapter_quantity self i quantity amount :
  get_field i (chapter i quantity amount self) = Ok (VStr quantity).
Proof. unfold chapter. by get_field_simpl. Qed.

Lemma get_field_chapter_sum self i j quantity amount :
  j = i + 1 ∨ j = i + 2 →
  get_field j (chapter i quantity amount self) = Ok (VFloat amount).
Proof. intros [-> | ->]; unfold chapter; by get_field_simpl. Qed.

Lemma chapter_filled_chapter self i quantity amount :
  chapter_filled i quantity amount (chapter i quantity amount self).
Proof.
  repeat split; [apply get_field_chapter_quantity|..];
    apply get_field_chapter_sum; lia.
Qed.

Lemma full_chapter self i quantity amount :
  i + 2 < MAX_FIELDS → full self → full (chapter i quantity amount self).
Proof. intros Hi Hfull. unfold chapter. auto 6 with full. Qed.

Lemma get_field_chapter_payment_ne self date payment_sum j :
  j < 40 ∨ 43 < j →
  get_field j (chapter_payment date payment_sum self) = get_field j self.
Proof.
  intros Hj. unfold chapter_payment.
  destruct (ne_zero payment_sum); [|done]. by get_field_simpl.
Qed.

Lemma full_chapter_payment self date payment_sum :
  full self → full (chapter_payment date payment_sum self).
Proof.
  intros Hfull. unfold chapter_payment.
  destruct (ne_zero payment_sum); auto 8 with full.
Qed.

Lemma get_field_single_meter_chapter_ne self data w g j :
  j < 9 ∨ 22 < j →
  get_field j (single_meter_chapter data w g self) = get_field j self.
Proof.
  intros Hj. unfold single_meter_chapter.
  destruct (has_counter g); [|done].
  destruct (GvsDetailsRecord.metric_current g); by get_field_simpl.
Qed.

Lemma full_single_meter_chapter self data w g :
  full self → full (single_meter_chapter data w g self).
Proof.
  intros Hfull. unfold single_meter_chapter.
  destruct (has_counter g); [|done].
  destruct (GvsDetailsRecord.metric_current g); auto 20 with full.
Qed.

Lemma get_field_reaccural_meter_chapter_ne self data w g j :
  j < 9 ∨ 16 < j →
  get_field j (reaccural_meter_chapter data w g self) = get_field j self.
Proof.
  intros Hj. unfold reaccural_meter_chapter.
  destruct (has_counter g); [|done]. by get_field_simpl.
Qed.

Lemma full_reaccural_meter_chapter self data w g :
  full self → full (reaccural_meter_chapter data w g self).
Proof.
  intros Hfull. unfold reaccural_meter_chapter.
  destruct (has_counter g); auto 20 with full.
Qed.

Lemma get_field_single_meter_chapter_17_18 self data w g j :
  j = 17 ∨ j = 18 →
  get_field j (single_meter_chapter data w g self) = get_field j self.
Proof.
  intros Hj. unfold single_meter_chapter.
  destruct (has_counter g); [|done].
  destruct (GvsDetailsRecord.metric_current g); by get_field_simpl.
Qed.

Lemma get_field_odpu_chapter_ne self has_odpu j :
  j < 9 ∨ 16 < j → get_field j (odpu_chapter has_odpu self) = get_field j self.
Proof. intros Hj. unfold odpu_chapter. destruct has_odpu; [|done]. by get_field_simpl. Qed.

Lemma full_odpu_chapter self has_odpu : full self → full (odpu_chapter has_odpu self).
Proof. intros Hfull. unfold odpu_chapter. destruct has_odpu; auto 20 with full. Qed.

Lemma get_field_consumption_chapters_ne self g quantity amount j :
  j < 23 ∨ 33 < j ∨ j = 29 →
  get_field j (consumption_chapters g quantity amount self) = get_field j self.
Proof.
  intros Hj. unfold consumption_chapters.
  destruct (truthy_opt_float (GvsDetailsRecord.consumption_ipu g)),
    (truthy_opt_float (GvsDetailsRecord.consumption_average g)),
    (truthy_opt_float (GvsDetailsRecord.consumption_normative g));
    by repeat first
         [ rewrite get_field_chapter_ne by lia
         | rewrite get_field_set_field_ne by lia ].
Qed.

(** The quantity of each chapter is the one computed quantity, or the
    chapter is not written. *)
Lemma get_field_consumption_chapters_quantity self g quantity amount :
  get_field 23 (consumption_chapters g quantity amount self)
    = (if truthy_opt_float (GvsDetailsRecord.consumption_ipu g)
       then Ok (VStr quantity) else get_field 23 self)
  ∧ get_field 26 (consumption_chapters g quantity amount self)
    = (if truthy_opt_float (GvsDetailsRecord.consumption_average g)
       then Ok (VStr quantity) else get_field 26 self)
  ∧ get_field 31 (consumption_chapters g quantity amount self)
    = (if truthy_opt_float (GvsDetailsRecord.consumption_normative g)
       then Ok (VStr quantity) else get_field 31 self).
Proof.
  unfold consumption_chapters.
  destruct (truthy_opt_float (GvsDetailsRecord.consumption_ipu g)),
    (truthy_opt_float (GvsDetailsRecord.consumption_average g)),
    (truthy_opt_float (GvsDetailsRecord.consumption_normative g));
    repeat split;
    by repeat first
         [ rewrite get_field_chapter_quantity
         | rewrite get_field_chapter_ne by lia
         | rewrite get_field_set_field_ne by lia ].
Qed.

Lemma full_consumption_chapters self g quantity amount :
  full self → full (consumption_chapters g quantity amount self).
Proof.
  intros Hfull. unfold consumption_chapters.
  destruct (truthy_opt_float (GvsDetailsRecord.consumption_ipu g)),
    (truthy_opt_float (GvsDetailsRecord.consumption_average g)),
    (truthy_opt_float (GvsDetailsRecord.consumption_normative g));
    repeat first
      [ apply full_chapter; [unfold MAX_FIELDS; lia|]
      | apply full_set_field; [unfold MAX_FIELDS; lia|] ];
    done.
Qed.

(** The base constructor: 47 attributes, all [None] but the seven it
    assigns. *)
Lemma full_BaseResultRow_init date data : full (BaseResultRow_init get_tariff date data).
Proof.
  unfold BaseResultRow_init.
  apply full_set_field; [unfold MAX_FIELDS; lia|].
  change (full (set_price ?p ?self)) with (full self).
  do 6 (apply full_set_field; [unfold MAX_FIELDS; lia|]).
  apply full_blank.
Qed.

Lemma price_BaseResultRow_init date data :
  price (BaseResultRow_init get_tariff date data) = Some (get_tariff date).
Proof. reflexivity. Qed.

Lemma get_field_BaseResultRow_init_None date data j :
  j < MAX_FIELDS → j ∉ [0; 1; 2; 3; 6; 7; 8] →
  get_field j (BaseResultRow_init get_tariff date data) = Ok VNone.
Proof.
  intros Hj Hnot. unfold BaseResultRow_init.
  rewrite get_field_set_field_ne by (intros ?; subst; apply Hnot; set_solver).
  change (get_field j (set_price ?p ?self)) with (get_field j self).
  repeat (rewrite get_field_set_field_ne by (intros ?; subst; apply Hnot; set_solver)).
  apply get_field_clear_fields_in, elem_of_seq. lia.
Qed.

Lemma get_field_BaseResultRow_init_8 date data :
  get_field 8 (BaseResultRow_init get_tariff date data) = Ok (VFloat (get_tariff date)).
Proof. unfold BaseResultRow_init. by rewrite get_field_set_field_eq. Qed.

End Chapters.

#[global] Hint Resolve full_chapter full_chapter_payment full_single_meter_chapter
  full_reaccural_meter_chapter full_odpu_chapter full_consumption_chapters
  full_BaseResultRow_init full_clear_fields : full.

(** ** The constructors in closed form *)

Ltac unfold_monad :=
  unfold mbind, M_bind, bind, mret, M_ret, ret, raise, result_bind, rbind, result_ret,
    deref, lift, install_date_get, install_date_set, assign_counter_number.

Ltac reduce_world Hl :=
  repeat (progress (cbn [orb andb negb objects GvsIpuInstallDates fst snd
                         GvsDetailsRecord.set_counter_number
                         GvsDetailsRecord.account
                         GvsDetailsRecord.counter_id
                         GvsDetailsRecord.counter_number
                         GvsDetailsRecord.metric_current
                         GvsDetailsRecord.metric_date_current
                         GvsDetailsRecord.consumption_ipu
                         GvsDetailsRecord.consumption_average
                         GvsDetailsRecord.consumption_normative
                         GvsDetailsRecord.people_registered];
                    rewrite ?lookup_insert_eq, ?Hl)).

Section Runs.

Variable get_tariff : MonthYear.t → float.
Context {sheet : Type}.
Variable address_in_list : string → sheet → bool.

Implicit Types (w : world) (g : GvsDetailsRecord.t) (l : ref).

Lemma objects_store_normalized l g w :
  objects w !! l = Some g → objects (store_normalized l g w) !! l = Some (normalized g).
Proof.
  intros Hl. unfold store_normalized, normalized.
  destruct (synthesizes g); [|done]. cbn [objects]. by rewrite lookup_insert_eq.
Qed.

Lemma objects_store_normalized_ne l l' g w :
  l ≠ l' → objects (store_normalized l g w) !! l' = objects w !! l'.
Proof.
  intros Hne. unfold store_normalized.
  destruct (synthesizes g); [|done]. cbn [objects]. by rewrite lookup_insert_ne.
Qed.

Lemma install_dates_store_normalized l g w :
  GvsIpuInstallDates (store_normalized l g w) = GvsIpuInstallDates w.
Proof. unfold store_normalized. by destruct (synthesizes g). Qed.

Lemma normalized_frame g :
  GvsDetailsRecord.account (normalized g) = GvsDetailsRecord.account g
  ∧ GvsDetailsRecord.counter_id (normalized g) = GvsDetailsRecord.counter_id g
  ∧ GvsDetailsRecord.metric_current (normalized g) = GvsDetailsRecord.metric_current g
  ∧ GvsDetailsRecord.metric_date_current (normalized g)
    = GvsDetailsRecord.metric_date_current g
  ∧ GvsDetailsRecord.consumption_ipu (normalized g) = GvsDetailsRecord.consumption_ipu g
  ∧ GvsDetailsRecord.consumption_average (normalized g)
    = GvsDetailsRecord.consumption_average g
  ∧ GvsDetailsRecord.consumption_normative (normalized g)
    = GvsDetailsRecord.consumption_normative g
  ∧ GvsDetailsRecord.people_registered (normalized g)
    = GvsDetailsRecord.people_registered g.
Proof. unfold normalized. by destruct (synthesizes g). Qed.

Lemma GvsSingleResultRow_init_run date data accural account_details l w g :
  objects w !! l = Some g →
  GvsSingleResultRow_init get_tariff date data accural account_details l w
  = (single_result get_tariff date data accural account_details w g,
     store_normalized l g w).
Proof.
  intros Hl.
  unfold GvsSingleResultRow_init, single_result, single_row, store_normalized,
    single_meter_chapter, consumption_chapters, chapter, normalized, synthesizes,
    has_counter.
  unfold_monad. rewrite Hl.
  destruct (truthy_str (GvsDetailsRecord.counter_id g)),
    (truthy_str (GvsDetailsRecord.counter_number g)); reduce_world Hl.
  all: destruct (GvsDetailsRecord.metric_current g).
  all: unfold truediv; cbn [get_price price set_field BaseResultRow_init set_price].
  all: destruct (get_tariff date =? 0)%float; [reflexivity|].
  all: destruct (except_NoServiceRow
                   (AccountDetailsFileSingleton.get_service_month_payment _ _ _) _);
    [|reflexivity].
  all: destruct (except_NoServiceRow
                   (AccountDetailsFileSingleton.get_service_month_closing_balance _ _ _) _);
    reflexivity.
Qed.

Lemma GvsMultipleResultFirstRow_init_run date data accural account_details l w g :
  objects w !! l = Some g →
  GvsMultipleResultFirstRow_init get_tariff date data accural account_details l w
  = (self ← single_result get_tariff date data accural account_details w g;
     mret (first_patch g self),
     store_normalized l g w).
Proof.
  intros Hl. unfold GvsMultipleResultFirstRow_init.
  unfold mbind at 1, M_bind, bind.
  rewrite (GvsSingleResultRow_init_run _ _ _ _ _ _ g Hl).
  destruct (single_result _ _ _ _ _ _ _) as [self|e]; [|done].
  unfold_monad. rewrite (objects_store_normalized _ _ _ Hl).
  unfold first_patch. destruct (normalized_frame g) as (_ & _ & -> & _).
  by destruct (GvsDetailsRecord.metric_current g).
Qed.

Lemma GvsMultipleResultSecondRow_init_run date data accural account_details l w g :
  objects w !! l = Some g →
  GvsMultipleResultSecondRow_init get_tariff date data accural account_details l w
  = match single_result get_tariff date data accural account_details w g with
    | Ok self =>
        (Ok (second_patch g self),
         mkWorld (objects (store_normalized l g w))
           (<[GvsDetailsRecord.account g := GvsDetailsRecord.metric_date_current g]>
              (GvsIpuInstallDates w)))
    | Raise e => (Raise e, store_normalized l g w)
    end.
Proof.
  intros Hl. unfold GvsMultipleResultSecondRow_init.
  unfold mbind at 1, M_bind, bind.
  rewrite (GvsSingleResultRow_init_run _ _ _ _ _ _ g Hl).
  destruct (single_result _ _ _ _ _ _ _) as [self|e]; [|done].
  unfold_monad. rewrite (objects_store_normalized _ _ _ Hl).
  unfold second_patch. rewrite install_dates_store_normalized.
  destruct (normalized_frame g) as (-> & _ & -> & -> & _).
  by destruct (GvsDetailsRecord.metric_current g).
Qed.

Lemma GvsReaccuralResultRow_init_run date data l reaccural_date reaccural_sum
    reaccural_type w g :
  objects w !! l = Some g →
  GvsReaccuralResultRow_init get_tariff date data l reaccural_date reaccural_sum
    reaccural_type w
  = (reaccural_result get_tariff date data w g reaccural_date reaccural_sum reaccural_type,
     store_normalized l g w).
Proof.
  intros Hl.
  unfold GvsReaccuralResultRow_init, reaccural_result, reaccural_row, store_normalized,
    reaccural_meter_chapter, normalized, synthesizes, has_counter.
  unfold_monad. rewrite Hl.
  destruct (truthy_str (GvsDetailsRecord.counter_id g)),
    (truthy_str (GvsDetailsRecord.counter_number g)); reduce_world Hl.
  all: unfold truediv; cbn [get_price price set_field BaseResultRow_init set_price].
  all: destruct (get_tariff date =? 0)%float; [reflexivity|].
  all: destruct reaccural_type; reflexivity.
Qed.

Lemma HeatingResultRow_init_run date data accural odpu_file heating_average_file
    account_details :
  HeatingResultRow_init get_tariff address_in_list date data accural odpu_file
    heating_average_file account_details
  = (q ← truediv (OsvAccuralRecord.heating accural) (get_tariff date);
     payment_sum ←
       AccountDetailsFileSingleton.get_service_month_payment account_details date
         "Отопление";
     closing_balance ←
       AccountDetailsFileSingleton.get_service_month_closing_balance account_details date
         "Отопление";
     mret (heating_row get_tariff date data accural
             (address_in_list (OsvAddressRecord.address data)
                (AddressFile.get_sheet_data_formatted odpu_file
                   (str_int (MonthYear.year date))))
             (address_in_list (OsvAddressRecord.address data)
                (AddressFile.get_sheet_data_formatted heating_average_file
                   (str_int (MonthYear.year date))))
             q payment_sum closing_balance)).
Proof.
  unfold HeatingResultRow_init, heating_row, odpu_chapter. unfold_monad.
  destruct (address_in_list _ (AddressFile.get_sheet_data_formatted odpu_file _)),
    (address_in_list _ (AddressFile.get_sheet_data_formatted heating_average_file _));
    cbn [andb get_price price set_field BaseResultRow_init set_price];
    unfold truediv; destruct (get_tariff date =? 0)%float; try reflexivity.
  all: destruct (AccountDetailsFileSingleton.get_service_month_payment _ _ _);
    [|reflexivity].
  all: destruct (AccountDetailsFileSingleton.get_service_month_closing_balance _ _ _);
    reflexivity.
Qed.

End Runs.

(** ** Successful constructions *)

Section Inversion.

Variable get_tariff : MonthYear.t → float.
Context {sheet : Type}.
Variable address_in_list : string → sheet → bool.

Implicit Types (w : world) (g : GvsDetailsRecord.t) (l : ref) (self r : BaseResultRow).

Lemma truediv_Ok a b q : truediv a b = Ok q ↔ (b =? 0)%float = false ∧ q = (a / b)%float.
Proof.
  unfold truediv. destruct (b =? 0)%float; split.
  - done.
  - by intros [? _].
  - by intros [= <-].
  - by intros [_ ->].
Qed.

Lemma deref_None {A} l w (k : GvsDetailsRecord.t → M A) :
  objects w !! l = None → (deref l ≫= k) w = (Raise InvalidReference, w).
Proof. intros Hl. unfold mbind, M_bind, bind, deref. by rewrite Hl. Qed.

Lemma single_result_Ok date data accural account_details w g r :
  single_result get_tariff date data accural account_details w g = Ok r →
  ∃ payment_sum closing_balance,
    (get_tariff date =? 0)%float = false
    ∧ except_NoServiceRow
        (AccountDetailsFileSingleton.get_service_month_payment account_details date
           "Тепловая энергия для подогрева воды") (VInt 0) = Ok payment_sum
    ∧ except_NoServiceRow
        (AccountDetailsFileSingleton.get_service_month_closing_balance account_details date
           "Тепловая энергия для подогрева воды") (VInt 0) = Ok closing_balance
    ∧ r = single_row get_tariff date data accural w g
            (OsvAccuralRecord.gvs accural / get_tariff date)%float
            payment_sum closing_balance.
Proof.
  unfold single_result, mbind, result_bind, rbind, mret, result_ret.
  destruct (truediv _ _) as [q|] eqn:Hq; [|done].
  apply truediv_Ok in Hq as [Hprice ->].
  destruct (except_NoServiceRow
              (AccountDetailsFileSingleton.get_service_month_payment _ _ _) _)
    as [payment_sum|]; [|done].
  destruct (except_NoServiceRow
              (AccountDetailsFileSingleton.get_service_month_closing_balance _ _ _) _)
    as [closing_balance|]; [|done].
  intros [= <-]. by exists payment_sum, closing_balance.
Qed.

Lemma GvsSingleResultRow_init_Ok date data accural account_details l w r w' :
  GvsSingleResultRow_init get_tariff date data accural account_details l w = (Ok r, w') →
  ∃ g, objects w !! l = Some g
    ∧ single_result get_tariff date data accural account_details w g = Ok r
    ∧ w' = store_normalized l g w.
Proof.
  destruct (objects w !! l) as [g|] eqn:Hl.
  - rewrite (GvsSingleResultRow_init_run _ _ _ _ _ _ _ g Hl). intros [= Hr <-]. by exists g.
  - unfold GvsSingleResultRow_init. cbv zeta. rewrite deref_None by done. intros [=].
Qed.

Lemma GvsMultipleResultFirstRow_init_Ok date data accural account_details l w r w' :
  GvsMultipleResultFirstRow_init get_tariff date data accural account_details l w
  = (Ok r, w') →
  ∃ g self, objects w !! l = Some g
    ∧ single_result get_tariff date data accural account_details w g = Ok self
    ∧ r = first_patch g self
    ∧ w' = store_normalized l g w.
Proof.
  destruct (objects w !! l) as [g|] eqn:Hl.
  - rewrite (GvsMultipleResultFirstRow_init_run _ _ _ _ _ _ _ g Hl).
    destruct (single_result _ _ _ _ _ _ _) as [self|] eqn:Hres; [|done].
    unfold mbind, result_bind, rbind, mret, result_ret.
    intros [= <- <-]. by exists g, self.
  - unfold GvsMultipleResultFirstRow_init, GvsSingleResultRow_init.
    unfold mbind at 1, M_bind, bind. cbv zeta. rewrite deref_None by done. intros [=].
Qed.

Lemma GvsMultipleResultSecondRow_init_Ok date data accural account_details l w r w' :
  GvsMultipleResultSecondRow_init get_tariff date data accural account_details l w
  = (Ok r, w') →
  ∃ g self, objects w !! l = Some g
    ∧ single_result get_tariff date data accural account_details w g = Ok self
    ∧ r = second_patch g self
    ∧ w' = mkWorld (objects (store_normalized l g w))
             (<[GvsDetailsRecord.account g := GvsDetailsRecord.metric_date_current g]>
                (GvsIpuInstallDates w)).
Proof.
  destruct (objects w !! l) as [g|] eqn:Hl.
  - rewrite (GvsMultipleResultSecondRow_init_run _ _ _ _ _ _ _ g Hl).
    destruct (single_result _ _ _ _ _ _ _) as [self|] eqn:Hres; [|done].
    intros [= <- <-]. by exists g, self.
  - unfold GvsMultipleResultSecondRow_init, GvsSingleResultRow_init.
    unfold mbind at 1, M_bind, bind. cbv zeta. rewrite deref_None by done. intros [=].
Qed.

Lemma GvsReaccuralResultRow_init_Ok date data l reaccural_date reaccural_sum
    reaccural_type w r w' :
  GvsReaccuralResultRow_init get_tariff date data l reaccural_date reaccural_sum
    reaccural_type w = (Ok r, w') →
  ∃ g ind, objects w !! l = Some g
    ∧ (get_tariff date =? 0)%float = false
    ∧ chapter_of_kind reaccural_type = Some ind
    ∧ r = reaccural_row get_tariff date data w g reaccural_date reaccural_sum ind
            (reaccural_sum / get_tariff date)%float
    ∧ w' = store_normalized l g w.
Proof.
  destruct (objects w !! l) as [g|] eqn:Hl.
  - rewrite (GvsReaccuralResultRow_init_run _ _ _ _ _ _ _ _ g Hl).
    unfold reaccural_result, mbind, result_bind, rbind.
    destruct (truediv _ _) as [q|] eqn:Hq; [|done].
    apply truediv_Ok in Hq as [Hprice ->].
    destruct (chapter_of_kind reaccural_type) as [ind|]; [|done].
    intros [= <- <-]. by exists g, ind.
  - unfold GvsReaccuralResultRow_init. cbv zeta. rewrite deref_None by done. intros [=].
Qed.

Lemma HeatingResultRow_init_Ok date data accural odpu_file heating_average_file
    account_details r :
  HeatingResultRow_init get_tariff address_in_list date data accural odpu_file
    heating_average_file account_details = Ok r →
  ∃ payment_sum closing_balance,
    (get_tariff date =? 0)%float = false
    ∧ AccountDetailsFileSingleton.get_service_month_payment account_details date
        "Отопление" = Ok payment_sum
    ∧ AccountDetailsFileSingleton.get_service_month_closing_balance account_details date
        "Отопление" = Ok closing_balance
    ∧ r = heating_row get_tariff date data accural
            (address_in_list (OsvAddressRecord.address data)
               (AddressFile.get_sheet_data_formatted odpu_file
                  (str_int (MonthYear.year date))))
            (address_in_list (OsvAddressRecord.address data)
               (AddressFile.get_sheet_data_formatted heating_average_file
                  (str_int (MonthYear.year date))))
            (OsvAccuralRecord.heating accural / get_tariff date)%float
            payment_sum closing_balance.
Proof.
  rewrite HeatingResultRow_init_run.
  unfold mbind, result_bind, rbind, mret, result_ret.
  destruct (truediv _ _) as [q|] eqn:Hq; [|done].
  apply truediv_Ok in Hq as [Hprice ->].
  destruct (AccountDetailsFileSingleton.get_service_month_payment _ _ _)
    as [payment_sum|]; [|done].
  destruct (AccountDetailsFileSingleton.get_service_month_closing_balance _ _ _)
    as [closing_balance|]; [|done].
  intros [= <-]. by exists payment_sum, closing_balance.
Qed.

End Inversion.

(** ** The format [.4f] *)

Section Format.

Lemma is_digit_pretty_N_char n : is_digit (pretty_N_char n) = true.
Proof. unfold pretty_N_char. by repeat case_match. Qed.

Lemma all_digits_pretty_N_go n s :
  all_digits s = true → all_digits (pretty_N_go n s) = true.
Proof.
  revert s. induction (N.lt_wf_0 n) as [n _ IH]; intros s Hs.
  destruct (decide (n = 0)%N) as [->|Hn]; [by rewrite pretty_N_go_0|].
  rewrite pretty_N_go_step by lia. apply IH.
  - apply N.div_lt; lia.
  - simpl. by rewrite is_digit_pretty_N_char, Hs.
Qed.

Lemma all_digits_pretty_N (n : N) : all_digits (pretty n) = true.
Proof.
  unfold pretty, pretty_N. case_decide; [done|]. by apply all_digits_pretty_N_go.
Qed.

Lemma fraction_part_digits s f :
  all_digits s = true → fraction_part (s +:+ "." +:+ f) = Some f.
Proof.
  induction s as [|c s IH]; intros Hs; [done|].
  simpl in Hs. apply andb_true_iff in Hs as [Hc Hs]. simpl.
  destruct (Ascii.eqb c ".") eqn:Hdot; [|by apply IH].
  apply Ascii.eqb_eq in Hdot as ->. done.
Qed.

Lemma fraction_part_sign sg s f :
  all_digits s = true → fraction_part (sign_str sg +:+ s +:+ "." +:+ f) = Some f.
Proof. intros Hs. destruct sg; simpl; by apply fraction_part_digits. Qed.

Lemma four_fraction_digits_fixed4 sg n :
  four_fraction_digits (sign_str sg +:+ fixed4 n) = true.
Proof.
  unfold four_fraction_digits, fixed4.
  rewrite fraction_part_sign by apply all_digits_pretty_N.
  unfold fraction4, digit; simpl. by rewrite !is_digit_pretty_N_char.
Qed.

(** A number is printed with exactly four fractional digits. *)
Lemma four_fraction_digits_format_4f x :
  is_number x = true → four_fraction_digits (format_4f x) = true.
Proof.
  unfold is_number, format_4f.
  destruct (Prim2SF x); try done; intros _; apply four_fraction_digits_fixed4.
Qed.

(** An infinity or a NaN is not. *)
Lemma four_fraction_digits_format_4f_not_number x :
  is_number x = false → four_fraction_digits (format_4f x) = false.
Proof.
  unfold is_number, format_4f.
  destruct (Prim2SF x) as [|[]| |]; done.
Qed.

Lemma scaled_half_even_nearest m e :
  nearest_even (Z.pos m * 2 ^ Z.max e 0 * 10000) (2 ^ Z.max (- e) 0)
    (Z.of_N (scaled_half_even m e)).
Proof.
  unfold scaled_half_even, nearest_even. cbv zeta. case_bool_decide as He.
  - rewrite (Z.max_l e 0), (Z.max_r (- e) 0) by lia. change (2 ^ 0)%Z with 1%Z.
    assert (0 < 2 ^ e)%Z as Hp by (apply Z.pow_pos_nonneg; lia).
    rewrite Z2N.id by nia.
    replace (Z.pos m * 10000 * 2 ^ e * 1 - Z.pos m * 2 ^ e * 10000)%Z with 0%Z by ring.
    split; [simpl; lia|]. simpl. intros; lia.
  - rewrite (Z.max_r e 0), (Z.max_l (- e) 0) by lia. change (2 ^ 0)%Z with 1%Z.
    set (d := (2 ^ (- e))%Z). set (n := (Z.pos m * 10000)%Z).
    assert (0 < d)%Z as Hd by (apply Z.pow_pos_nonneg; lia).
    assert (0 ≤ n)%Z as Hn by lia.
    pose proof (Z.div_mod n d ltac:(lia)) as Hdm.
    pose proof (Z.mod_pos_bound n d Hd) as Hr.
    assert (0 ≤ n `div` d)%Z as Hq by (apply Z.div_pos; lia).
    replace (Z.pos m * 1 * 10000)%Z with n by lia.
    set (q := (n `div` d)%Z) in *. set (r := (n `mod` d)%Z) in *.
    clearbody q r d n.
    subst n.
    destruct (2 * r ?= d)%Z eqn:Hcmp.
    + apply Z.compare_eq in Hcmp.
      destruct (Z.even q) eqn:Hev; rewrite Z2N.id by lia.
      * replace (q * d - (d * q + r))%Z with (- r)%Z by ring.
        split; [lia|done].
      * replace ((q + 1) * d - (d * q + r))%Z with (d - r)%Z by ring.
        split; [lia|]. intros _. by rewrite Z.even_add, Hev.
    + rewrite Z.compare_lt_iff in Hcmp. rewrite Z2N.id by lia.
      replace (q * d - (d * q + r))%Z with (- r)%Z by ring.
      split; [lia|]. intros ?; exfalso; lia.
    + rewrite Z.compare_gt_iff in Hcmp. rewrite Z2N.id by lia.
      replace ((q + 1) * d - (d * q + r))%Z with (d - r)%Z by ring.
      split; [lia|]. intros ?; exfalso; lia.
Qed.

(** The digits printed for a number are those of the nearest multiple of
    [0.0001], ties to even. *)
Lemma format_4f_rounds x num den :
  magnitude x = Some (num, den) →
  ∃ n : N,
    format_4f x = sign_str (sign_of x) +:+ fixed4 n
    ∧ nearest_even (num * 10000) den (Z.of_N n).
Proof.
  unfold magnitude, format_4f, sign_of.
  destruct (Prim2SF x) as [s| | |s m e]; try done; intros [= <- <-].
  - exists 0%N. split; [done|]. split; [simpl; lia|done].
  - exists (scaled_half_even m e). split; [done|]. apply scaled_half_even_nearest.
Qed.

(** A positive price is not a zero: dividing by it does not raise. *)
Lemma positive_ne_zero (b : float) : (0 <? b)%float = true → (b =? 0)%float = false.
Proof.
  rewrite ltb_spec, eqb_spec. unfold SFltb, SFeqb.
  change (Prim2SF 0) with (S754_zero false).
  destruct (Prim2SF b) as [s|s| |s m e]; simpl; try done; by destruct s.
Qed.

Lemma truediv_positive a b : (0 <? b)%float = true → truediv a b = Ok (a / b)%float.
Proof. intros Hb. unfold truediv. by rewrite positive_ne_zero. Qed.

End Format.

(** ** The rows as a whole *)

Ltac not_in_list :=
  let H := fresh in
  intros H; repeat (apply elem_of_cons in H as [H|H]; [lia|]); by apply elem_of_nil in H.

Ltac row_field :=
  repeat first
    [ rewrite get_field_set_field_eq
    | rewrite get_field_set_field_ne by lia
    | rewrite get_field_chapter_quantity
    | rewrite get_field_chapter_sum by lia
    | rewrite get_field_chapter_ne by lia
    | rewrite get_field_chapter_payment_ne by lia
    | rewrite get_field_single_meter_chapter_ne by lia
    | rewrite get_field_single_meter_chapter_17_18 by lia
    | rewrite get_field_reaccural_meter_chapter_ne by lia
    | rewrite get_field_odpu_chapter_ne by lia
    | rewrite get_field_consumption_chapters_ne by lia
    | rewrite get_field_clear_fields_in by (apply elem_of_seq; lia)
    | rewrite get_field_clear_fields_notin by (rewrite elem_of_seq; lia)
    | rewrite get_field_BaseResultRow_init_None
        by first [unfold MAX_FIELDS; lia | not_in_list]
    | match goal with
      | |- context [get_field _ (if ?b then _ else _)] => destruct b eqn:?
      | |- context [get_field _ (match ?o with Some _ => _ | None => _ end)] =>
          destruct o eqn:?
      end
    | progress unfold single_meter_chapter, reaccural_meter_chapter, odpu_chapter,
        consumption_chapters ].

Section Rows.

Variable get_tariff : MonthYear.t → float.

Implicit Types (self r : BaseResultRow) (g : GvsDetailsRecord.t) (w : world).

Lemma as_list_prefix self n :
  full self → (n ≤ MAX_FIELDS)%nat →
  ∃ items,
    foldl (λ (acc : result (list pyval)) ind,
             items ← acc; v ← get_field ind self; mret (items ++ [v])%list)
          (Ok []) (seq 0 n) = Ok items
    ∧ length items = n
    ∧ ∀ i, i < n → items !! i = fields self !! i.
Proof.
  intros Hfull. induction n as [|n IH]; intros Hn.
  - exists []. split; [done|]. split; [done|]. intros i Hi. lia.
  - destruct IH as (items & Hitems & Hlen & Hlook); [lia|].
    destruct (full_lookup self n Hfull ltac:(lia)) as [v Hv].
    exists (items ++ [v])%list. rewrite seq_S, foldl_app, Hitems. simpl.
    unfold get_field. rewrite Hv. simpl. split; [done|].
    split; [rewrite length_app; simpl; lia|].
    intros i Hi. destruct (decide (i = n)) as [->|Hne].
    + rewrite lookup_app_r by lia. rewrite Hlen, Nat.sub_diag. by rewrite Hv.
    + rewrite lookup_app_l by lia. apply Hlook. lia.
Qed.

(** Serialising a row that has its 47 attributes gives them in order. *)
Lemma as_list_full self :
  full self →
  ∃ items, as_list self = Ok items ∧ length items = MAX_FIELDS
           ∧ ∀ i, items !! i = fields self !! i.
Proof.
  intros Hfull.
  destruct (as_list_prefix self MAX_FIELDS Hfull ltac:(done)) as (items & Hitems & Hlen & Hlook).
  exists items. split; [done|]. split; [done|]. intros i.
  destruct (decide (i < MAX_FIELDS)) as [Hi|Hi]; [by apply Hlook|].
  rewrite full_lookup_None by (done || lia). apply lookup_ge_None. lia.
Qed.

Lemma full_single_row date data accural w g q payment_sum closing_balance :
  full (single_row get_tariff date data accural w g q payment_sum closing_balance).
Proof. unfold single_row. auto 12 with full. Qed.

Lemma full_first_patch g self : full self → full (first_patch g self).
Proof.
  intros Hfull. unfold first_patch.
  destruct (GvsDetailsRecord.metric_current g); auto with full.
Qed.

Lemma full_second_patch g self : full self → full (second_patch g self).
Proof.
  intros Hfull. unfold second_patch. apply full_clear_fields.
  - apply Forall_forall. intros i Hi. apply elem_of_seq in Hi. unfold MAX_FIELDS. lia.
  - destruct (GvsDetailsRecord.metric_current g); auto with full.
Qed.

Lemma full_reaccural_row date data w g reaccural_date reaccural_sum ind q :
  ind + 2 < MAX_FIELDS →
  full (reaccural_row get_tariff date data w g reaccural_date reaccural_sum ind q).
Proof. intros Hind. unfold reaccural_row. auto 12 with full. Qed.

Lemma full_heating_row date data accural has_odpu has_heating_average q payment_sum
    closing_balance :
  full (heating_row get_tariff date data accural has_odpu has_heating_average q
          payment_sum closing_balance).
Proof.
  unfold heating_row. destruct (has_odpu && has_heating_average); auto 12 with full.
Qed.

Lemma chapter_of_kind_bound reaccural_type ind :
  chapter_of_kind reaccural_type = Some ind → ind = 23 ∨ ind = 26 ∨ ind = 31.
Proof. destruct reaccural_type; intros [= <-]; auto. Qed.

End Rows.

(** ** Properties of the constructed rows *)

Ltac in_list H :=
  repeat (apply elem_of_cons in H as [->|H]); [..|by apply elem_of_nil in H].

Section Constructed_rows.

Variable get_tariff : MonthYear.t → float.
Context {sheet : Type}.
Variable address_in_list : string → sheet → bool.

Implicit Types (self r : BaseResultRow) (g : GvsDetailsRecord.t) (w : world) (l : ref).
Implicit Types (c : RowCall (sheet := sheet)) (i j : nat).

Lemma get_field_consumption_chapters_cases self g quantity amount j :
  j ∈ [23; 26; 31] →
  get_field j (consumption_chapters g quantity amount self) = Ok (VStr quantity)
  ∨ get_field j (consumption_chapters g quantity amount self) = get_field j self.
Proof.
  intros Hj.
  destruct (get_field_consumption_chapters_quantity self g quantity amount)
    as (H23 & H26 & H31).
  in_list Hj.
  - rewrite H23. clear. destruct (truthy_opt_float _); [by left|by right].
  - rewrite H26. clear. destruct (truthy_opt_float _); [by left|by right].
  - rewrite H31. clear. destruct (truthy_opt_float _); [by left|by right].
Qed.

Lemma get_field_first_patch_ne g self j :
  j ≠ 20 → get_field j (first_patch g self) = get_field j self.
Proof.
  intros Hj. unfold first_patch.
  destruct (GvsDetailsRecord.metric_current g); by get_field_simpl.
Qed.

Lemma get_field_second_patch_cleared g self j :
  (23 ≤ j ≤ 45)%nat → get_field j (second_patch g self) = Ok VNone.
Proof.
  intros Hj. unfold second_patch. apply get_field_clear_fields_in, elem_of_seq. lia.
Qed.

Lemma get_field_second_patch_ne g self j :
  j < 23 ∨ 45 < j → j ≠ 10 → j ≠ 20 →
  get_field j (second_patch g self) = get_field j self.
Proof.
  intros Hj H10 H20. unfold second_patch.
  rewrite get_field_clear_fields_notin by (rewrite elem_of_seq; lia).
  destruct (GvsDetailsRecord.metric_current g); by get_field_simpl.
Qed.

Lemma get_field_second_patch_10 g self :
  get_field 10 (second_patch g self)
  = Ok (of_str (GvsDetailsRecord.metric_date_current g)).
Proof.
  unfold second_patch.
  rewrite get_field_clear_fields_notin by (rewrite elem_of_seq; lia).
  destruct (GvsDetailsRecord.metric_current g); by get_field_simpl.
Qed.

(** The quantity positions of a single-fact row. *)
Lemma get_field_single_row_quantity date data accural w g q payment_sum closing_balance j :
  j ∈ [23; 26; 31; 35] →
  get_field j (single_row get_tariff date data accural w g q payment_sum closing_balance)
    = Ok VNone
  ∨ get_field j (single_row get_tariff date data accural w g q payment_sum closing_balance)
    = Ok (VStr (format_4f q)).
Proof.
  intros Hj. unfold single_row.
  destruct (decide (j = 35)) as [->|Hne].
  - right. by row_field.
  - assert (j ∈ [23; 26; 31]) as Hj' by (in_list Hj; set_solver).
    assert (j < 35) as Hlt by (in_list Hj'; lia).
    rewrite get_field_set_field_ne, get_field_chapter_payment_ne, get_field_chapter_ne
      by lia.
    destruct (get_field_consumption_chapters_cases
                (single_meter_chapter data w g
                   (set_field 5 (VStr "Тепловая энергия ГВС")
                      (set_field 4
                         (VStr (ResultRecordType.name ResultRecordType.GVS_ACCURAL))
                         (BaseResultRow_init get_tariff date data))))
                g (format_4f q) (OsvAccuralRecord.gvs accural) j Hj') as [->| ->];
      [by right|left].
    in_list Hj'; by row_field.
Qed.

(** A constructor call that returns a row returns the row in closed form. *)
Lemma construct_Ok c w r w' :
  construct get_tariff address_in_list c w = (Ok r, w') →
  (get_tariff (date_of c) =? 0)%float = false
  ∧ match c with
    | NewHeatingResultRow date data accural odpu_file heating_average_file _ =>
        ∃ payment_sum closing_balance,
          r = heating_row get_tariff date data accural
                (address_in_list (OsvAddressRecord.address data)
                   (AddressFile.get_sheet_data_formatted odpu_file
                      (str_int (MonthYear.year date))))
                (address_in_list (OsvAddressRecord.address data)
                   (AddressFile.get_sheet_data_formatted heating_average_file
                      (str_int (MonthYear.year date))))
                (OsvAccuralRecord.heating accural / get_tariff date)%float
                payment_sum closing_balance
          ∧ w' = w
    | NewGvsSingleResultRow date data accural _ l =>
        ∃ g payment_sum closing_balance,
          objects w !! l = Some g
          ∧ r = single_row get_tariff date data accural w g
                  (OsvAccuralRecord.gvs accural / get_tariff date)%float
                  payment_sum closing_balance
          ∧ w' = store_normalized l g w
    | NewGvsMultipleResultFirstRow date data accural _ l =>
        ∃ g payment_sum closing_balance,
          objects w !! l = Some g
          ∧ r = first_patch g
                  (single_row get_tariff date data accural w g
                     (OsvAccuralRecord.gvs accural / get_tariff date)%float
                     payment_sum closing_balance)
          ∧ w' = store_normalized l g w
    | NewGvsMultipleResultSecondRow date data accural _ l =>
        ∃ g payment_sum closing_balance,
          objects w !! l = Some g
          ∧ r = second_patch g
                  (single_row get_tariff date data accural w g
                     (OsvAccuralRecord.gvs accural / get_tariff date)%float
                     payment_sum closing_balance)
          ∧ w' = mkWorld (objects (store_normalized l g w))
                   (<[GvsDetailsRecord.account g
                      := GvsDetailsRecord.metric_date_current g]>
                      (GvsIpuInstallDates w))
    | NewGvsReaccuralResultRow date data l reaccural_date reaccural_sum reaccural_type =>
        ∃ g ind,
          objects w !! l = Some g
          ∧ chapter_of_kind reaccural_type = Some ind
          ∧ r = reaccural_row get_tariff date data w g reaccural_date reaccural_sum ind
                  (reaccural_sum / get_tariff date)%float
          ∧ w' = store_normalized l g w
    end.
Proof.
  destruct c as [date data accural odpu_file heating_average_file account_details
                |date data accural account_details l
                |date data accural account_details l
                |date data accural account_details l
                |date data l reaccural_date reaccural_sum reaccural_type]; simpl.
  - unfold lift. intros [= Hr <-].
    apply HeatingResultRow_init_Ok in Hr as (p & cb & Hprice & _ & _ & ->). eauto.
  - intros H. apply GvsSingleResultRow_init_Ok in H as (g & Hl & Hres & ->).
    apply single_result_Ok in Hres as (p & cb & Hprice & _ & _ & ->). eauto 10.
  - intros H.
    apply GvsMultipleResultFirstRow_init_Ok in H as (g & self & Hl & Hres & -> & ->).
    apply single_result_Ok in Hres as (p & cb & Hprice & _ & _ & ->). eauto 10.
  - intros H.
    apply GvsMultipleResultSecondRow_init_Ok in H as (g & self & Hl & Hres & -> & ->).
    apply single_result_Ok in Hres as (p & cb & Hprice & _ & _ & ->). eauto 10.
  - intros H.
    apply GvsReaccuralResultRow_init_Ok in H as (g & ind & Hl & Hprice & Hind & -> & ->).
    eauto 10.
Qed.

Lemma full_construct c w r w' :
  construct get_tariff address_in_list c w = (Ok r, w') → full r.
Proof.
  intros H. apply construct_Ok in H as [_ H]. destruct c.
  - destruct H as (p & cb & -> & _). apply full_heating_row.
  - destruct H as (g & p & cb & _ & -> & _). apply full_single_row.
  - destruct H as (g & p & cb & _ & -> & _). apply full_first_patch, full_single_row.
  - destruct H as (g & p & cb & _ & -> & _). apply full_second_patch, full_single_row.
  - destruct H as (g & ind & _ & Hind & -> & _).
    apply full_reaccural_row. apply chapter_of_kind_bound in Hind. unfold MAX_FIELDS. lia.
Qed.

Lemma never_assigned_construct c w r w' i :
  construct get_tariff address_in_list c w = (Ok r, w') →
  i ∈ never_assigned → get_field i r = Ok VNone.
Proof.
  intros H Hi. apply construct_Ok in H as [_ H]. unfold never_assigned in Hi.
  destruct c.
  - destruct H as (p & cb & -> & _). unfold heating_row.
    in_list Hi; by row_field.
  - destruct H as (g & p & cb & _ & -> & _). unfold single_row.
    in_list Hi; by row_field.
  - destruct H as (g & p & cb & _ & -> & _). unfold first_patch, single_row.
    in_list Hi; by row_field.
  - destruct H as (g & p & cb & _ & -> & _). unfold second_patch, single_row.
    in_list Hi; by row_field.
  - destruct H as (g & ind & _ & Hind & -> & _). unfold reaccural_row.
    apply chapter_of_kind_bound in Hind.
    in_list Hi; destruct Hind as [->|[->| ->]]; by row_field.
Qed.

(** C9: a constructed row has exactly the 47 positional attributes
    [f00] ... [f46].  The loop of the base constructor creates them all
    with the value [None], and the base constructor leaves [None] in all
    but the seven positions it assigns; the constructors only write
    positions that exist, so none is added or lost and the positions that
    no constructor writes still hold [None]; and [as_list] returns the 47
    values in the order of their positions. *)
Theorem row_has_47_fields c w r w' :
  construct get_tariff address_in_list c w = (Ok r, w') →
  (∀ i, i < MAX_FIELDS →
        get_field i (clear_fields (seq 0 MAX_FIELDS) (mkRow ∅ None)) = Ok VNone)
  ∧ (∀ date data i, i < MAX_FIELDS → i ∉ [0; 1; 2; 3; 6; 7; 8] →
        get_field i (BaseResultRow_init get_tariff date data) = Ok VNone)
  ∧ dom (fields r) = set_seq 0 47
  ∧ size (fields r) = 47
  ∧ (∀ i, i ∈ never_assigned → get_field i r = Ok VNone)
  ∧ ∃ items, as_list r = Ok items ∧ length items = 47
             ∧ ∀ i, items !! i = fields r !! i.
Proof.
  intros H. pose proof (full_construct _ _ _ _ H) as Hfull.
  split; [|split; [|split; [|split; [|split]]]].
  - intros i Hi. apply get_field_clear_fields_in, elem_of_seq. lia.
  - intros date data i Hi Hnot. by apply get_field_BaseResultRow_init_None.
  - exact Hfull.
  - rewrite <-size_dom, Hfull. apply size_set_seq.
  - intros i Hi. by eapply never_assigned_construct.
  - by apply as_list_full.
Qed.

(** C5, as amended: in a heating row, a single-fact GVS row, the first row
    of a split and a reaccrual row the consolidated chapter (35-37) holds
    the quantity and, twice, the amount the quantity was computed from; in
    the second row of a split the chapter is empty, the constructor having
    cleared the positions 23 to 45. *)
Theorem consolidated_chapter_by_kind c w r w' :
  construct get_tariff address_in_list c w = (Ok r, w') →
  if is_second_row c then chapter_empty 35 r
  else
    chapter_filled 35 (format_4f (amount_of c / get_tariff (date_of c))) (amount_of c) r.
Proof.
  intros H. apply construct_Ok in H as [_ H]. destruct c; cbn [is_second_row amount_of date_of].
  - destruct H as (p & cb & -> & _). unfold heating_row, chapter_filled; cbn [Nat.add].
    repeat split; by row_field.
  - destruct H as (g & p & cb & _ & -> & _). unfold single_row, chapter_filled; cbn [Nat.add].
    repeat split; by row_field.
  - destruct H as (g & p & cb & _ & -> & _).
    unfold first_patch, single_row, chapter_filled; cbn [Nat.add].
    repeat split; by row_field.
  - destruct H as (g & p & cb & _ & -> & _).
    unfold second_patch, chapter_empty; cbn [Nat.add].
    repeat split; by row_field.
  - destruct H as (g & ind & _ & Hind & -> & _).
    apply chapter_of_kind_bound in Hind.
    unfold reaccural_row, chapter_filled; cbn [Nat.add].
    repeat split; destruct Hind as [->|[->| ->]]; by row_field.
Qed.

(** C6, as amended: each of the quantity positions 23, 26, 31 and 35 of a
    constructed row is empty or holds one and the same string, the float
    quotient of the amount by the price printed by the format [.4f]; when
    the quotient is a number, that string has exactly four fractional digits
    and they are those of the multiple of 0.0001 nearest to the quotient
    (ties to even); when it is an infinity or a NaN, it has none. *)
Theorem quantity_fields_share_formatted_quotient c w r w' :
  construct get_tariff address_in_list c w = (Ok r, w') →
  let q := (amount_of c / get_tariff (date_of c))%float in
  (∀ ind, ind ∈ [23; 26; 31; 35] →
     get_field ind r = Ok VNone ∨ get_field ind r = Ok (VStr (format_4f q)))
  ∧ (is_number q = true →
     four_fraction_digits (format_4f q) = true
     ∧ ∀ num den, magnitude q = Some (num, den) →
         ∃ n : N, format_4f q = sign_str (sign_of q) +:+ fixed4 n
                  ∧ nearest_even (num * 10000) den (Z.of_N n))
  ∧ (is_number q = false → four_fraction_digits (format_4f q) = false).
Proof.
  intros H q. split; [|split].
  - intros ind Hind. subst q. apply construct_Ok in H as [_ H].
    destruct c; cbn [amount_of date_of].
    + destruct H as (p & cb & -> & _). unfold heating_row.
      in_list Hind; row_field; auto.
    + destruct H as (g & p & cb & _ & -> & _).
      by apply get_field_single_row_quantity.
    + destruct H as (g & p & cb & _ & -> & _).
      rewrite get_field_first_patch_ne by (in_list Hind; lia).
      by apply get_field_single_row_quantity.
    + destruct H as (g & p & cb & _ & -> & _).
      left. apply get_field_second_patch_cleared. in_list Hind; lia.
    + destruct H as (g & ind' & _ & Hind' & -> & _). unfold reaccural_row.
      apply chapter_of_kind_bound in Hind'.
      in_list Hind; destruct Hind' as [->|[->| ->]]; row_field; auto.
  - intros Hq. split; [by apply four_fraction_digits_format_4f|].
    intros num den. apply format_4f_rounds.
  - apply four_fraction_digits_format_4f_not_number.
Qed.

(** C3: in a heating row the average chapter (26-28) is filled exactly when
    the address is in the area-meter roster and in the averages roster of
    the year of the period, the normative chapter (31-33) and the registered
    population (30) being empty then; otherwise the normative chapter and
    the population are filled and the average chapter is empty. *)
Theorem heating_average_xor_normative date data accural odpu_file heating_average_file
    account_details r :
  HeatingResultRow_init get_tariff address_in_list date data accural odpu_file
    heating_average_file account_details = Ok r →
  let has_odpu :=
    address_in_list (OsvAddressRecord.address data)
      (AddressFile.get_sheet_data_formatted odpu_file (str_int (MonthYear.year date))) in
  let has_heating_average :=
    address_in_list (OsvAddressRecord.address data)
      (AddressFile.get_sheet_data_formatted heating_average_file
         (str_int (MonthYear.year date))) in
  let quantity := format_4f (OsvAccuralRecord.heating accural / get_tariff date) in
  let amount := OsvAccuralRecord.heating accural in
  (chapter_filled 26 quantity amount r
   ↔ has_odpu = true ∧ has_heating_average = true)
  ∧ (has_odpu = true ∧ has_heating_average = true →
     chapter_empty 31 r ∧ get_field 30 r = Ok VNone)
  ∧ (¬ (has_odpu = true ∧ has_heating_average = true) →
     chapter_empty 26 r
     ∧ chapter_filled 31 quantity amount r
     ∧ get_field 30 r = Ok (VInt (OsvAddressRecord.population data))).
Proof.
  intros H has_odpu has_heating_average quantity amount.
  apply HeatingResultRow_init_Ok in H as (p & cb & _ & _ & _ & ->).
  fold has_odpu has_heating_average quantity amount.
  unfold heating_row, chapter_filled, chapter_empty. cbn [Nat.add].
  assert (∀ b1 b2 : bool, b1 && b2 = false → ¬ (b1 = true ∧ b2 = true)) as Hfalse
    by (by intros [] [] ? [? ?]).
  destruct (has_odpu && has_heating_average) eqn:Hboth.
  - apply andb_true_iff in Hboth. split; [|split].
    + split; [done|]. intros _. repeat split; by row_field.
    + intros _. repeat split; by row_field.
    + intros Hnot. by destruct Hnot.
  - apply Hfalse in Hboth. split; [|split].
    + split; [|done]. intros [Hq _]. revert Hq. row_field. done.
    + done.
    + intros _. repeat split; by row_field.
Qed.

(** C2: after the construction of the second row of a split, position 10
    holds the date of the current reading of the metering fact, the
    install-date dictionary maps the account of the fact to that same date,
    so that a later lookup for the account returns it, and the positions 23
    to 45 are all empty. *)
Theorem second_row_install_date_and_cleared_chapters date data accural account_details
    l w g r w' :
  objects w !! l = Some g →
  GvsMultipleResultSecondRow_init get_tariff date data accural account_details l w
  = (Ok r, w') →
  get_field 10 r = Ok (of_str (GvsDetailsRecord.metric_date_current g))
  ∧ GvsIpuInstallDates w' !! GvsDetailsRecord.account g
    = Some (GvsDetailsRecord.metric_date_current g)
  ∧ install_date_get (GvsDetailsRecord.account g) "01.01.2019" w'
    = (Ok (of_str (GvsDetailsRecord.metric_date_current g)), w')
  ∧ ∀ i, (23 ≤ i ≤ 45)%nat → get_field i r = Ok VNone.
Proof.
  intros Hl H.
  apply GvsMultipleResultSecondRow_init_Ok in H as (g' & self & Hl' & _ & -> & ->).
  rewrite Hl in Hl'. injection Hl' as <-.
  split; [apply get_field_second_patch_10|].
  split; [cbn [GvsIpuInstallDates]; apply lookup_insert_eq|].
  split.
  - unfold install_date_get, install_date_of. cbn [GvsIpuInstallDates].
    by rewrite lookup_insert_eq.
  - intros i Hi. by apply get_field_second_patch_cleared.
Qed.

(** C4: when the ledger has no row of the service for the period, that is
    when both lookups raise [NoServiceRow], the construction of a
    single-fact GVS row for a positive price returns a row: the payment
    chapter (40-43) is empty and the closing balance (45) is the integer
    zero. *)
Theorem single_row_tolerates_NoServiceRow date data accural account_details l w g :
  (0 <? get_tariff date)%float = true →
  objects w !! l = Some g →
  AccountDetailsFileSingleton.get_service_month_payment account_details date
    "Тепловая энергия для подогрева воды" = Raise NoServiceRow →
  AccountDetailsFileSingleton.get_service_month_closing_balance account_details date
    "Тепловая энергия для подогрева воды" = Raise NoServiceRow →
  ∃ r w',
    GvsSingleResultRow_init get_tariff date data accural account_details l w = (Ok r, w')
    ∧ get_field 40 r = Ok VNone ∧ get_field 41 r = Ok VNone
    ∧ get_field 42 r = Ok VNone ∧ get_field 43 r = Ok VNone
    ∧ get_field 45 r = Ok (VInt 0).
Proof.
  intros Hprice Hl Hpay Hclose.
  rewrite (GvsSingleResultRow_init_run _ _ _ _ _ _ _ g Hl).
  unfold single_result. rewrite truediv_positive, Hpay, Hclose by done.
  cbn [except_NoServiceRow mbind result_bind rbind mret result_ret].
  eexists _, _. split; [reflexivity|].
  unfold single_row, chapter_payment. cbn [ne_zero Z.eqb negb].
  repeat split; by row_field.
Qed.

Lemma get_field_single_row_14 date data accural w g q payment_sum closing_balance :
  has_counter g = true →
  get_field 14 (single_row get_tariff date data accural w g q payment_sum closing_balance)
  = Ok (of_str (GvsDetailsRecord.counter_number (normalized g))).
Proof.
  intros Hc. unfold single_row.
  rewrite get_field_set_field_ne, get_field_chapter_payment_ne, get_field_chapter_ne,
    get_field_consumption_chapters_ne by lia.
  unfold single_meter_chapter. rewrite Hc.
  destruct (GvsDetailsRecord.metric_current g); by get_field_simpl.
Qed.

Lemma get_field_reaccural_row_14 date data w g reaccural_date reaccural_sum ind q :
  ind = 23 ∨ ind = 26 ∨ ind = 31 → has_counter g = true →
  get_field 14 (reaccural_row get_tariff date data w g reaccural_date reaccural_sum ind q)
  = Ok (of_str (GvsDetailsRecord.counter_number (normalized g))).
Proof.
  intros Hind Hc. unfold reaccural_row.
  rewrite !get_field_chapter_ne by lia.
  unfold reaccural_meter_chapter. rewrite Hc. by get_field_simpl.
Qed.

Lemma get_field_single_row_10 date data accural w g q payment_sum closing_balance :
  get_field 10 (single_row get_tariff date data accural w g q payment_sum closing_balance)
  = Ok (if has_counter g
        then install_date_of (OsvAddressRecord.account data) "01.01.2019" w
        else VNone).
Proof.
  unfold single_row.
  rewrite get_field_set_field_ne, get_field_chapter_payment_ne, get_field_chapter_ne,
    get_field_consumption_chapters_ne by lia.
  unfold single_meter_chapter. destruct (has_counter g); [|by row_field].
  destruct (GvsDetailsRecord.metric_current g); by get_field_simpl.
Qed.

Lemma get_field_reaccural_row_10 date data w g reaccural_date reaccural_sum ind q :
  ind = 23 ∨ ind = 26 ∨ ind = 31 →
  get_field 10 (reaccural_row get_tariff date data w g reaccural_date reaccural_sum ind q)
  = Ok (if has_counter g
        then install_date_of (OsvAddressRecord.account data) "01.01.2019" w
        else VNone).
Proof.
  intros Hind. unfold reaccural_row.
  rewrite !get_field_chapter_ne by lia.
  unfold reaccural_meter_chapter. destruct (has_counter g); by row_field.
Qed.

(** The number a constructor writes for a fact that has an id and no
    number. *)
Lemma normalized_synthesized g id :
  GvsDetailsRecord.counter_id g = Some id → id ≠ "" →
  truthy_str (GvsDetailsRecord.counter_number g) = false →
  has_counter g = true
  ∧ normalized g = GvsDetailsRecord.set_counter_number (Some (id +:+ "_2")) g.
Proof.
  intros Hid Hne Hnum. unfold normalized, synthesizes, has_counter.
  rewrite Hid, Hnum. cbn [truthy_str].
  destruct (String.eqb id "") eqn:Heq; [by apply String.eqb_eq in Heq|done].
Qed.

(** A fact that has a number is left as it is. *)
Lemma normalized_unchanged g :
  truthy_str (GvsDetailsRecord.counter_number g) = true →
  has_counter g = true ∧ normalized g = g ∧ ∀ l w, store_normalized l g w = w.
Proof.
  intros Hnum. unfold store_normalized, normalized, synthesizes, has_counter.
  rewrite Hnum. by rewrite orb_true_r.
Qed.

Lemma construct_field_14 c w r w' l g :
  construct get_tariff address_in_list c w = (Ok r, w') →
  gvs_details_row_of c = Some l →
  objects w !! l = Some g →
  has_counter g = true →
  get_field 14 r = Ok (of_str (GvsDetailsRecord.counter_number (normalized g)))
  ∧ objects w' !! l = Some (normalized g).
Proof.
  intros H Hc Hl Hcounter. apply construct_Ok in H as [_ H].
  destruct c; cbn [gvs_details_row_of] in Hc; [done|..]; injection Hc as ->.
  - destruct H as (g' & p & cb & Hl' & -> & ->).
    rewrite Hl in Hl'; injection Hl' as <-.
    split; [by apply get_field_single_row_14|by apply objects_store_normalized].
  - destruct H as (g' & p & cb & Hl' & -> & ->).
    rewrite Hl in Hl'; injection Hl' as <-.
    rewrite get_field_first_patch_ne by lia.
    split; [by apply get_field_single_row_14|by apply objects_store_normalized].
  - destruct H as (g' & p & cb & Hl' & -> & ->).
    rewrite Hl in Hl'; injection Hl' as <-.
    rewrite get_field_second_patch_ne by lia.
    split; [by apply get_field_single_row_14|by apply objects_store_normalized].
  - destruct H as (g' & ind & Hl' & Hind & -> & ->).
    rewrite Hl in Hl'; injection Hl' as <-.
    apply chapter_of_kind_bound in Hind.
    split; [by apply get_field_reaccural_row_14|by apply objects_store_normalized].
Qed.

(** C7: a GVS constructor given a metering fact that has a counter id and no
    counter number writes the id followed by [_2] in position 14 and assigns
    it to [counter_number] of the fact itself: the object behind the
    reference holds it afterwards, and any later GVS constructor given the
    same reference writes the same number and leaves the object as it
    is. *)
Theorem counter_number_synthesized_in_place c w r w' l g id :
  gvs_details_row_of c = Some l →
  objects w !! l = Some g →
  GvsDetailsRecord.counter_id g = Some id → id ≠ "" →
  truthy_str (GvsDetailsRecord.counter_number g) = false →
  construct get_tariff address_in_list c w = (Ok r, w') →
  get_field 14 r = Ok (VStr (id +:+ "_2"))
  ∧ objects w' !! l
    = Some (GvsDetailsRecord.set_counter_number (Some (id +:+ "_2")) g)
  ∧ ∀ c2 r2 w2,
      gvs_details_row_of c2 = Some l →
      construct get_tariff address_in_list c2 w' = (Ok r2, w2) →
      get_field 14 r2 = Ok (VStr (id +:+ "_2"))
      ∧ objects w2 !! l = objects w' !! l.
Proof.
  intros Hc Hl Hid Hne Hnum H.
  destruct (normalized_synthesized g id Hid Hne Hnum) as [Hcounter Hnorm].
  destruct (construct_field_14 _ _ _ _ _ _ H Hc Hl Hcounter) as [H14 Hl'].
  rewrite Hnorm in H14, Hl'. split; [done|]. split; [done|].
  intros c2 r2 w2 Hc2 H2.
  assert (truthy_str (GvsDetailsRecord.counter_number
            (GvsDetailsRecord.set_counter_number (Some (id +:+ "_2")) g)) = true)
    as Hnum'.
  { cbn [GvsDetailsRecord.counter_number GvsDetailsRecord.set_counter_number truthy_str].
    by destruct id. }
  destruct (normalized_unchanged _ Hnum') as (Hcounter' & Hnorm' & _).
  destruct (construct_field_14 _ _ _ _ _ _ H2 Hc2 Hl' Hcounter') as [H14' Hl''].
  rewrite Hnorm' in H14', Hl''. by rewrite Hl', Hl''.
Qed.

Lemma construct_field_10 c w r w' :
  construct get_tariff address_in_list c w = (Ok r, w') →
  is_second_row c = false →
  is_Some (gvs_details_row_of c) →
  get_field 10 r = Ok VNone
  ∨ get_field 10 r
    = Ok (install_date_of (OsvAddressRecord.account (data_of c)) "01.01.2019" w).
Proof.
  intros H Hsecond [l Hc]. apply construct_Ok in H as [_ H].
  destruct c; cbn [gvs_details_row_of is_second_row data_of] in *; try done.
  - destruct H as (g & p & cb & _ & -> & _).
    rewrite get_field_single_row_10. destruct (has_counter g); auto.
  - destruct H as (g & p & cb & _ & -> & _).
    rewrite get_field_first_patch_ne, get_field_single_row_10 by lia.
    destruct (has_counter g); auto.
  - destruct H as (g & ind & _ & Hind & -> & _).
    apply chapter_of_kind_bound in Hind.
    rewrite get_field_reaccural_row_10 by done. destruct (has_counter g); auto.
Qed.

(** C10, as amended: the second row of a split built from a metering fact
    without a date of the current reading still writes the entry of the
    account in the install-date dictionary, with the value [None]; as long
    as that entry stands, every single-fact row, first row of a split and
    reaccrual row built for the account has an empty position 10, never the
    default date.  (A later second row of a split takes position 10 from its
    own metering fact.) *)
Theorem absent_install_date_reaches_later_rows date data accural account_details
    l w g r w' :
  objects w !! l = Some g →
  GvsDetailsRecord.metric_date_current g = None →
  GvsMultipleResultSecondRow_init get_tariff date data accural account_details l w
  = (Ok r, w') →
  GvsIpuInstallDates w' !! GvsDetailsRecord.account g = Some None
  ∧ ∀ c2 w2 r2 w2',
      is_second_row c2 = false →
      is_Some (gvs_details_row_of c2) →
      OsvAddressRecord.account (data_of c2) = GvsDetailsRecord.account g →
      GvsIpuInstallDates w2 !! GvsDetailsRecord.account g = Some None →
      construct get_tariff address_in_list c2 w2 = (Ok r2, w2') →
      get_field 10 r2 = Ok VNone.
Proof.
  intros Hl Hdate H.
  apply GvsMultipleResultSecondRow_init_Ok in H as (g' & self & Hl' & _ & _ & ->).
  rewrite Hl in Hl'. injection Hl' as <-.
  split; [cbn [GvsIpuInstallDates]; by rewrite lookup_insert_eq, Hdate|].
  intros c2 w2 r2 w2' Hsecond Hgvs Hacc Hentry H2.
  destruct (construct_field_10 _ _ _ _ H2 Hsecond Hgvs) as [->| ->]; [done|].
  unfold install_date_of. by rewrite Hacc, Hentry.
Qed.

End Constructed_rows.

(** ** The reaccrual row and the payment label *)

Section Reaccrual_and_payment.

Variable get_tariff : MonthYear.t → float.

Implicit Types (self r : BaseResultRow) (g : GvsDetailsRecord.t) (w : world) (l : ref).

(** A recognised kind fills its chapter and leaves the other two empty. *)
Lemma reaccural_row_chapters date data w g reaccural_date reaccural_sum ind q :
  ind = 23 ∨ ind = 26 ∨ ind = 31 →
  let r := reaccural_row get_tariff date data w g reaccural_date reaccural_sum ind q in
  chapter_filled ind (format_4f q) reaccural_sum r
  ∧ ∀ other, other ∈ [23; 26; 31] → other ≠ ind → chapter_empty other r.
Proof.
  intros Hind r. subst r. unfold reaccural_row. split.
  - unfold chapter_filled. repeat split; destruct Hind as [->|[->| ->]]; by row_field.
  - intros other Hother Hne. unfold chapter_empty.
    in_list Hother; destruct Hind as [->|[->| ->]]; try done; cbn [Nat.add];
      repeat split; by row_field.
Qed.

(** No kind makes the reaccrual constructor write the registered population. *)
Lemma reaccural_row_registered_count date data w g reaccural_date reaccural_sum ind q :
  ind = 23 ∨ ind = 26 ∨ ind = 31 →
  get_field 30 (reaccural_row get_tariff date data w g reaccural_date reaccural_sum ind q)
  = Ok VNone.
Proof. intros Hind. unfold reaccural_row. destruct Hind as [->|[->| ->]]; by row_field. Qed.

(** An unrecognised kind raises [ValueError]: no row is returned. *)
Lemma GvsReaccuralResultRow_init_unrecognized date data l reaccural_date reaccural_sum
    tag w g :
  objects w !! l = Some g →
  (get_tariff date =? 0)%float = false →
  GvsReaccuralResultRow_init get_tariff date data l reaccural_date reaccural_sum
    (UNRECOGNIZED tag) w
  = (Raise ValueError, store_normalized l g w).
Proof.
  intros Hl Hprice. rewrite (GvsReaccuralResultRow_init_run _ _ _ _ _ _ _ _ g Hl).
  unfold reaccural_result, truediv. by rewrite Hprice.
Qed.

(** The single-fact constructor writes the registered population with the
    normative chapter. *)
Lemma single_row_registered_count date data accural w g q payment_sum closing_balance :
  truthy_opt_float (GvsDetailsRecord.consumption_normative g) = true →
  get_field 30 (single_row get_tariff date data accural w g q payment_sum closing_balance)
  = Ok (of_int (GvsDetailsRecord.people_registered g)).
Proof.
  intros Hnorm. unfold single_row.
  rewrite get_field_set_field_ne, get_field_chapter_payment_ne, get_field_chapter_ne by lia.
  unfold consumption_chapters. rewrite Hnorm.
  rewrite get_field_chapter_ne by lia. by get_field_simpl.
Qed.

(** Whenever the payment chapter is written for a sum, the label is the one
    of a payment: the label of a refund is never written. *)
Lemma payment_label date (payment_sum : float) self :
  ne_zero (VFloat payment_sum) = true →
  get_field 43 (chapter_payment date (VFloat payment_sum) self) = Ok (VStr "Оплата").
Proof.
  intros Hne. unfold chapter_payment. rewrite Hne.
  cbn [ne_zero] in Hne. cbn [truthy]. unfold truthy_float. rewrite Hne.
  by get_field_simpl.
Qed.

Lemma payment_chapter_empty date payment_sum self :
  ne_zero payment_sum = false →
  chapter_payment date payment_sum self = self.
Proof. intros Hz. unfold chapter_payment. by rewrite Hz. Qed.

End Reaccrual_and_payment.

(** ** The chapters a reaccrual row and a heating row end with *)

Section Chapters_by_kind.

Variable get_tariff : MonthYear.t → float.
Context {sheet : Type}.
Variable address_in_list : string → sheet → bool.

Implicit Types (self r : BaseResultRow) (g : GvsDetailsRecord.t) (w : world) (l : ref).

(** X1: a reaccrual row is built for a recognised kind only, and it has the
    chapter of that kind filled with the quantity and, twice, the reaccrued
    amount (meter 23-25, average 26-28, normative 31-33), the other two of
    these chapters empty and no registered population in position 30. *)
Theorem reaccural_row_fills_the_chapter_of_its_kind date data l reaccural_date
    reaccural_sum reaccural_type w r w' :
  GvsReaccuralResultRow_init get_tariff date data l reaccural_date reaccural_sum
    reaccural_type w = (Ok r, w') →
  ∃ ind,
    chapter_of_kind reaccural_type = Some ind
    ∧ chapter_filled ind (format_4f (reaccural_sum / get_tariff date)) reaccural_sum r
    ∧ (∀ other, other ∈ [23; 26; 31] → other ≠ ind → chapter_empty other r)
    ∧ get_field 30 r = Ok VNone.
Proof.
  intros H.
  apply GvsReaccuralResultRow_init_Ok in H as (g & ind & _ & _ & Hind & -> & _).
  exists ind. split; [done|].
  pose proof (chapter_of_kind_bound _ _ Hind) as Hbound.
  destruct (reaccural_row_chapters get_tariff date data w g reaccural_date reaccural_sum
              ind (reaccural_sum / get_tariff date) Hbound) as [Hfilled Hempty].
  split; [done|]. split; [done|]. by apply reaccural_row_registered_count.
Qed.

(** X2: for a kind that is not one of the three, the reaccrual constructor
    returns no row, whatever its other arguments; given a metering fact and
    a positive price it raises [ValueError]. *)
Theorem reaccural_unrecognized_kind_raises date data l reaccural_date reaccural_sum
    tag w g :
  objects w !! l = Some g →
  (0 <? get_tariff date)%float = true →
  GvsReaccuralResultRow_init get_tariff date data l reaccural_date reaccural_sum
    (UNRECOGNIZED tag) w = (Raise ValueError, store_normalized l g w)
  ∧ ∀ date' data' l' reaccural_date' reaccural_sum' w0 r w',
      GvsReaccuralResultRow_init get_tariff date' data' l' reaccural_date' reaccural_sum'
        (UNRECOGNIZED tag) w0 ≠ (Ok r, w').
Proof.
  intros Hl Hprice. split.
  - apply GvsReaccuralResultRow_init_unrecognized; [done|]. by apply positive_ne_zero.
  - intros date' data' l' reaccural_date' reaccural_sum' w0 r w' H.
    apply GvsReaccuralResultRow_init_Ok in H as (g' & ind & _ & _ & Hind & _).
    discriminate Hind.
Qed.

(** X3: in a heating row the payment chapter (40-43) is empty when the
    payment sum of the ledger for the period is zero; otherwise it holds the
    date [20.MM.YYYY] twice, the sum and the label of a payment, whatever the
    sign of the sum.  Position 45 holds the closing balance of the ledger. *)
Theorem heating_payment_chapter date data accural odpu_file heating_average_file
    account_details r :
  HeatingResultRow_init get_tariff address_in_list date data accural odpu_file
    heating_average_file account_details = Ok r →
  ∃ payment_sum closing_balance,
    AccountDetailsFileSingleton.get_service_month_payment account_details date
      "Отопление" = Ok payment_sum
    ∧ AccountDetailsFileSingleton.get_service_month_closing_balance account_details date
        "Отопление" = Ok closing_balance
    ∧ get_field 45 r = Ok (VFloat closing_balance)
    ∧ if (payment_sum =? 0)%float then
        get_field 40 r = Ok VNone ∧ get_field 41 r = Ok VNone
        ∧ get_field 42 r = Ok VNone ∧ get_field 43 r = Ok VNone
      else
        get_field 40 r = Ok (VStr (payment_date date))
        ∧ get_field 41 r = Ok (VStr (payment_date date))
        ∧ get_field 42 r = Ok (VFloat payment_sum)
        ∧ get_field 43 r = Ok (VStr "Оплата").
Proof.
  intros H.
  apply HeatingResultRow_init_Ok in H as (p & cb & _ & Hp & Hcb & ->).
  exists p, cb. split; [done|]. split; [done|].
  unfold heating_row. split; [by row_field|].
  rewrite !get_field_set_field_ne by lia.
  destruct (p =? 0)%float eqn:Hzero.
  - rewrite payment_chapter_empty by (cbn [ne_zero]; by rewrite Hzero).
    repeat split; by row_field.
  - assert (ne_zero (VFloat p) = true) as Hne by (cbn [ne_zero]; by rewrite Hzero).
    rewrite payment_label by done.
    unfold chapter_payment. rewrite Hne. repeat split; by get_field_simpl.
Qed.

End Chapters_by_kind.

(** ** The positions of a constructed row, chapter by chapter *)

Section Positions.

Variable get_tariff : MonthYear.t → float.
Context {sheet : Type}.
Variable address_in_list : string → sheet → bool.



Implicit Types (self r : BaseResultRow) (g : GvsDetailsRecord.t) (w : world) (l : ref).
Implicit Types (c : RowCall (sheet := sheet)) (i j : nat).

(** What the base constructor leaves in the positions it assigns. *)
Lemma get_field_BaseResultRow_init_header date data :
  let self := BaseResultRow_init get_tariff date data in
  get_field 0 self = Ok (VInt (MonthYear.month date))
  ∧ get_field 1 self = Ok (VInt (MonthYear.year date))
  ∧ get_field 2 self = Ok (VStr (OsvAddressRecord.account data))
  ∧ get_field 3 self = Ok (VStr (OsvAddressRecord.address data))
  ∧ get_field 6 self = Ok (VInt (MonthYear.month date))
  ∧ get_field 7 self = Ok (VInt (MonthYear.year date))
  ∧ get_field 8 self = Ok (VFloat (get_tariff date)).
Proof.
  cbv zeta. unfold BaseResultRow_init.
  repeat split; get_field_simpl; try done;
    change (get_field ?j (set_price ?p ?self)) with (get_field j self);
    by get_field_simpl.
Qed.

Ltac header_field :=
  row_field;
  first [ apply get_field_BaseResultRow_init_header
        | done ].

(** X4: the heading of a constructed row.  Positions 0 and 1 hold the month
    and the year of the report period, 2 and 3 the account and the address,
    4 the name of the record type of the constructor, 5 the label of the
    service, 6 and 7 the month and the year of the period the amounts are
    for (the period reaccrued for in a reaccrual row, the report period
    again in the others) and 8 the price of the report period.  No
    constructor writes the record type [HEATING_REACCURAL]. *)
Theorem constructed_row_header c w r w' :
  construct get_tariff address_in_list c w = (Ok r, w') →
  get_field 0 r = Ok (VInt (MonthYear.month (date_of c)))
  ∧ get_field 1 r = Ok (VInt (MonthYear.year (date_of c)))
  ∧ get_field 2 r = Ok (VStr (OsvAddressRecord.account (data_of c)))
  ∧ get_field 3 r = Ok (VStr (OsvAddressRecord.address (data_of c)))
  ∧ get_field 4 r = Ok (VStr (ResultRecordType.name (record_type_of c)))
  ∧ get_field 5 r = Ok (VStr (service_label_of c))
  ∧ get_field 6 r = Ok (VInt (MonthYear.month (period_of c)))
  ∧ get_field 7 r = Ok (VInt (MonthYear.year (period_of c)))
  ∧ get_field 8 r = Ok (VFloat (get_tariff (date_of c)))
  ∧ record_type_of c ≠ ResultRecordType.HEATING_REACCURAL.
Proof.
  intros H. apply construct_Ok in H as [_ H].
  destruct c as [date data accural odpu_file heating_average_file account_details
                |date data accural account_details l
                |date data accural account_details l
                |date data accural account_details l
                |date data l reaccural_date reaccural_sum reaccural_type];
    cbn [date_of data_of record_type_of service_label_of period_of].
  - destruct H as (p & cb & -> & _). unfold heating_row.
    repeat split; try done; header_field.
  - destruct H as (g & p & cb & _ & -> & _). unfold single_row.
    repeat split; try done; header_field.
  - destruct H as (g & p & cb & _ & -> & _). unfold first_patch, single_row.
    repeat split; try done; header_field.
  - destruct H as (g & p & cb & _ & -> & _). unfold second_patch, single_row.
    repeat split; try done; header_field.
  - destruct H as (g & ind & _ & Hind & -> & _). unfold reaccural_row.
    apply chapter_of_kind_bound in Hind.
    repeat split; try done; destruct Hind as [->|[->| ->]]; header_field.
Qed.

(** X5: a heating row describes the area meter of the building in positions
    9 to 16 when the address is in the area-meter roster of the year of the
    period, and leaves them empty otherwise; positions 17 to 25 are empty in
    every heating row. *)
Theorem heating_area_meter_chapter date data accural odpu_file heating_average_file
    account_details r :
  HeatingResultRow_init get_tariff address_in_list date data accural odpu_file
    heating_average_file account_details = Ok r →
  (if address_in_list (OsvAddressRecord.address data)
        (AddressFile.get_sheet_data_formatted odpu_file (str_int (MonthYear.year date)))
   then
     get_field 9 r = Ok (VStr "Общедомовый")
     ∧ get_field 10 r = Ok (VStr "01.01.2018")
     ∧ get_field 11 r = Ok (VStr "Подвал")
     ∧ get_field 12 r = Ok (VInt 1)
     ∧ get_field 13 r = Ok (VStr "ВКТ-5")
     ∧ get_field 14 r = Ok (VInt 1)
     ∧ get_field 15 r = Ok (VInt 6)
     ∧ get_field 16 r = Ok (VInt 3)
   else ∀ i, (9 ≤ i ≤ 16)%nat → get_field i r = Ok VNone)
  ∧ ∀ i, (17 ≤ i ≤ 25)%nat → get_field i r = Ok VNone.
Proof.
  intros H. apply HeatingResultRow_init_Ok in H as (p & cb & _ & _ & _ & ->).
  unfold heating_row. split.
  - destruct (address_in_list _ (AddressFile.get_sheet_data_formatted odpu_file _)).
    + repeat split; by row_field.
    + intros i Hi. assert (i ∈ seq 9 8) as Hin by (apply elem_of_seq; lia).
      cbn [seq] in Hin. in_list Hin; by row_field.
  - intros i Hi. assert (i ∈ seq 17 9) as Hin by (apply elem_of_seq; lia).
    cbn [seq] in Hin. in_list Hin; by row_field.
Qed.

(** A GVS call that returns a row, the fact behind its reference known. *)
Lemma construct_Ok_gvs c w r w' l g :
  gvs_details_row_of c = Some l →
  objects w !! l = Some g →
  construct get_tariff address_in_list c w = (Ok r, w') →
  match c with
  | NewHeatingResultRow _ _ _ _ _ _ => False
  | NewGvsSingleResultRow date data accural _ _ =>
      ∃ payment_sum closing_balance,
        r = single_row get_tariff date data accural w g
              (OsvAccuralRecord.gvs accural / get_tariff date)%float
              payment_sum closing_balance
  | NewGvsMultipleResultFirstRow date data accural _ _ =>
      ∃ payment_sum closing_balance,
        r = first_patch g
              (single_row get_tariff date data accural w g
                 (OsvAccuralRecord.gvs accural / get_tariff date)%float
                 payment_sum closing_balance)
  | NewGvsMultipleResultSecondRow date data accural _ _ =>
      ∃ payment_sum closing_balance,
        r = second_patch g
              (single_row get_tariff date data accural w g
                 (OsvAccuralRecord.gvs accural / get_tariff date)%float
                 payment_sum closing_balance)
  | NewGvsReaccuralResultRow date data _ reaccural_date reaccural_sum reaccural_type =>
      ∃ ind,
        (ind = 23 ∨ ind = 26 ∨ ind = 31)
        ∧ r = reaccural_row get_tariff date data w g reaccural_date reaccural_sum ind
                (reaccural_sum / get_tariff date)%float
  end.
Proof.
  intros Hc Hl H. apply construct_Ok in H as [_ H].
  destruct c; cbn [gvs_details_row_of] in Hc; [done|..]; injection Hc as ->.
  - destruct H as (g' & p & cb & Hl' & -> & _).
    rewrite Hl in Hl'; injection Hl' as <-. eauto.
  - destruct H as (g' & p & cb & Hl' & -> & _).
    rewrite Hl in Hl'; injection Hl' as <-. eauto.
  - destruct H as (g' & p & cb & Hl' & -> & _).
    rewrite Hl in Hl'; injection Hl' as <-. eauto.
  - destruct H as (g' & ind & Hl' & Hind & -> & _).
    rewrite Hl in Hl'; injection Hl' as <-.
    apply chapter_of_kind_bound in Hind. eauto.
Qed.

Lemma get_field_single_meter_chapter_descriptor data w g self :
  (∀ i, (9 ≤ i ≤ 22)%nat → get_field i self = Ok VNone) →
  let r := single_meter_chapter data w g self in
  get_field 11 r = Ok VNone ∧ get_field 12 r = Ok VNone
  ∧ if has_counter g then
      get_field 9 r = Ok (VStr "Индивидуальный")
      ∧ get_field 13 r = Ok (VStr "СГВ-15")
      ∧ get_field 14 r = Ok (of_str (GvsDetailsRecord.counter_number (normalized g)))
      ∧ get_field 15 r = Ok (VInt 6)
      ∧ get_field 16 r = Ok (VInt 3)
    else ∀ i, (9 ≤ i ≤ 22)%nat → get_field i r = Ok VNone.
Proof.
  intros Hself r. subst r. unfold single_meter_chapter.
  destruct (has_counter g); [|by auto with lia].
  destruct (GvsDetailsRecord.metric_current g);
    repeat split; get_field_simpl; try done; apply Hself; lia.
Qed.

Lemma get_field_reaccural_meter_chapter_descriptor data w g self :
  (∀ i, (9 ≤ i ≤ 22)%nat → get_field i self = Ok VNone) →
  let r := reaccural_meter_chapter data w g self in
  get_field 11 r = Ok VNone ∧ get_field 12 r = Ok VNone
  ∧ if has_counter g then
      get_field 9 r = Ok (VStr "Индивидуальный")
      ∧ get_field 13 r = Ok (VStr "СГВ-15")
      ∧ get_field 14 r = Ok (of_str (GvsDetailsRecord.counter_number (normalized g)))
      ∧ get_field 15 r = Ok (VInt 6)
      ∧ get_field 16 r = Ok (VInt 3)
    else ∀ i, (9 ≤ i ≤ 22)%nat → get_field i r = Ok VNone.
Proof.
  intros Hself r. subst r. unfold reaccural_meter_chapter.
  destruct (has_counter g); [|by auto with lia].
  repeat split; get_field_simpl; try done; apply Hself; lia.
Qed.

(** The number position 14 gets: the number of the fact, or the one made
    from its id. *)
Lemma counter_number_normalized g :
  has_counter g = true →
  of_str (GvsDetailsRecord.counter_number (normalized g))
  = VStr (if truthy_str (GvsDetailsRecord.counter_number g)
          then format_str (GvsDetailsRecord.counter_number g)
          else _get_new_counter_number (GvsDetailsRecord.counter_id g)).
Proof.
  intros Hc. unfold normalized, synthesizes. rewrite Hc. cbn [andb].
  destruct (GvsDetailsRecord.counter_number g) as [s|] eqn:Hnum; cbn [truthy_str negb].
  - destruct (String.eqb s ""); cbn [negb]; [done|]. by rewrite Hnum.
  - done.
Qed.


Lemma get_field_single_row_meter date data accural w g q payment_sum closing_balance j :
  (9 ≤ j ≤ 22)%nat →
  get_field j (single_row get_tariff date data accural w g q payment_sum closing_balance)
  = get_field j
      (single_meter_chapter data w g
         (set_field 5 (VStr "Тепловая энергия ГВС")
            (set_field 4 (VStr (ResultRecordType.name ResultRecordType.GVS_ACCURAL))
               (BaseResultRow_init get_tariff date data)))).
Proof.
  intros Hj. unfold single_row.
  by rewrite get_field_set_field_ne, get_field_chapter_payment_ne, get_field_chapter_ne,
    get_field_consumption_chapters_ne by lia.
Qed.

Lemma get_field_reaccural_row_meter date data w g reaccural_date reaccural_sum ind q j :
  ind = 23 ∨ ind = 26 ∨ ind = 31 →
  (9 ≤ j ≤ 22)%nat →
  get_field j (reaccural_row get_tariff date data w g reaccural_date reaccural_sum ind q)
  = get_field j
      (reaccural_meter_chapter data w g
         (set_field 8 (VFloat (get_tariff date))
            (set_field 7 (VInt (MonthYear.year reaccural_date))
               (set_field 6 (VInt (MonthYear.month reaccural_date))
                  (set_field 5 (VStr "Тепловая энергия ГВС")
                     (set_field 4
                        (VStr (ResultRecordType.name ResultRecordType.GVS_REACCURAL))
                        (BaseResultRow_init get_tariff date data))))))).
Proof.
  intros Hind Hj. unfold reaccural_row. by rewrite !get_field_chapter_ne by lia.
Qed.

Lemma get_field_header_meter_None date data v4 v5 i :
  (9 ≤ i ≤ 22)%nat →
  get_field i (set_field 5 v5 (set_field 4 v4 (BaseResultRow_init get_tariff date data)))
  = Ok VNone.
Proof.
  intros Hi. rewrite !get_field_set_field_ne by lia.
  apply get_field_BaseResultRow_init_None; [unfold MAX_FIELDS; lia|not_in_list].
Qed.

Lemma get_field_reaccural_header_meter_None date data v4 v5 v6 v7 v8 i :
  (9 ≤ i ≤ 22)%nat →
  get_field i
    (set_field 8 v8 (set_field 7 v7 (set_field 6 v6
       (set_field 5 v5 (set_field 4 v4 (BaseResultRow_init get_tariff date data))))))
  = Ok VNone.
Proof.
  intros Hi. rewrite !get_field_set_field_ne by lia.
  apply get_field_BaseResultRow_init_None; [unfold MAX_FIELDS; lia|not_in_list].
Qed.

Lemma get_field_single_row_descriptor date data accural w g q payment_sum closing_balance :
  let r := single_row get_tariff date data accural w g q payment_sum closing_balance in
  get_field 11 r = Ok VNone ∧ get_field 12 r = Ok VNone
  ∧ if has_counter g then
      get_field 9 r = Ok (VStr "Индивидуальный")
      ∧ get_field 13 r = Ok (VStr "СГВ-15")
      ∧ get_field 14 r = Ok (of_str (GvsDetailsRecord.counter_number (normalized g)))
      ∧ get_field 15 r = Ok (VInt 6)
      ∧ get_field 16 r = Ok (VInt 3)
    else ∀ i, (9 ≤ i ≤ 22)%nat → get_field i r = Ok VNone.
Proof.
  cbv zeta.
  pose proof (get_field_single_meter_chapter_descriptor data w g
                (set_field 5 (VStr "Тепловая энергия ГВС")
                   (set_field 4 (VStr (ResultRecordType.name ResultRecordType.GVS_ACCURAL))
                      (BaseResultRow_init get_tariff date data)))
                (get_field_header_meter_None date data _ _)) as (H11 & H12 & Hd).
  rewrite !get_field_single_row_meter by lia.
  split; [done|]. split; [done|]. destruct (has_counter g); [done|].
  intros i Hi. rewrite get_field_single_row_meter by lia. by apply Hd.
Qed.

Lemma get_field_reaccural_row_descriptor date data w g reaccural_date reaccural_sum ind q :
  ind = 23 ∨ ind = 26 ∨ ind = 31 →
  let r := reaccural_row get_tariff date data w g reaccural_date reaccural_sum ind q in
  get_field 11 r = Ok VNone ∧ get_field 12 r = Ok VNone
  ∧ if has_counter g then
      get_field 9 r = Ok (VStr "Индивидуальный")
      ∧ get_field 13 r = Ok (VStr "СГВ-15")
      ∧ get_field 14 r = Ok (of_str (GvsDetailsRecord.counter_number (normalized g)))
      ∧ get_field 15 r = Ok (VInt 6)
      ∧ get_field 16 r = Ok (VInt 3)
    else ∀ i, (9 ≤ i ≤ 22)%nat → get_field i r = Ok VNone.
Proof.
  intros Hind. cbv zeta.
  pose proof (get_field_reaccural_meter_chapter_descriptor data w g
                (set_field 8 (VFloat (get_tariff date))
                   (set_field 7 (VInt (MonthYear.year reaccural_date))
                      (set_field 6 (VInt (MonthYear.month reaccural_date))
                         (set_field 5 (VStr "Тепловая энергия ГВС")
                            (set_field 4
                               (VStr (ResultRecordType.name ResultRecordType.GVS_REACCURAL))
                               (BaseResultRow_init get_tariff date data))))))
                (get_field_reaccural_header_meter_None date data _ _ _ _ _))
    as (H11 & H12 & Hd).
  rewrite !get_field_reaccural_row_meter by (done || lia).
  split; [done|]. split; [done|]. destruct (has_counter g); [done|].
  intros i Hi. rewrite get_field_reaccural_row_meter by (done || lia). by apply Hd.
Qed.

(** X6: a GVS row describes the meter of its metering fact when the fact has
    a counter id or a counter number: the kind, the model, the number (the
    number of the fact, or the one made from its id when it has none), 6
    and 3; positions 11 and 12 are always empty, and when the fact has
    neither an id nor a number positions 9 and 13 to 16 are empty too. *)
Theorem gvs_meter_descriptor c w r w' l g :
  gvs_details_row_of c = Some l →
  objects w !! l = Some g →
  construct get_tariff address_in_list c w = (Ok r, w') →
  get_field 11 r = Ok VNone ∧ get_field 12 r = Ok VNone
  ∧ if truthy_str (GvsDetailsRecord.counter_id g)
       || truthy_str (GvsDetailsRecord.counter_number g)
    then
      get_field 9 r = Ok (VStr "Индивидуальный")
      ∧ get_field 13 r = Ok (VStr "СГВ-15")
      ∧ get_field 14 r
        = Ok (VStr (if truthy_str (GvsDetailsRecord.counter_number g)
                    then format_str (GvsDetailsRecord.counter_number g)
                    else _get_new_counter_number (GvsDetailsRecord.counter_id g)))
      ∧ get_field 15 r = Ok (VInt 6)
      ∧ get_field 16 r = Ok (VInt 3)
    else
      get_field 9 r = Ok VNone ∧ get_field 13 r = Ok VNone ∧ get_field 14 r = Ok VNone
      ∧ get_field 15 r = Ok VNone ∧ get_field 16 r = Ok VNone.
Proof.
  intros Hc Hl H. pose proof (construct_Ok_gvs _ _ _ _ _ _ Hc Hl H) as Hrow.
  fold (has_counter g).
  assert (get_field 11 r = Ok VNone ∧ get_field 12 r = Ok VNone
          ∧ if has_counter g then
              get_field 9 r = Ok (VStr "Индивидуальный")
              ∧ get_field 13 r = Ok (VStr "СГВ-15")
              ∧ get_field 14 r
                = Ok (of_str (GvsDetailsRecord.counter_number (normalized g)))
              ∧ get_field 15 r = Ok (VInt 6)
              ∧ get_field 16 r = Ok (VInt 3)
            else ∀ i, (9 ≤ i ≤ 22)%nat → i ≠ 10 → i ≠ 20 → get_field i r = Ok VNone)
    as (H11 & H12 & Hrest).
  { destruct c; [done|..].
    - destruct Hrow as (p & cb & ->).
      destruct (get_field_single_row_descriptor date data accural w g
                  (OsvAccuralRecord.gvs accural / get_tariff date) p cb) as (? & ? & Hd).
      split; [done|]. split; [done|]. destruct (has_counter g); [done|]. auto.
    - destruct Hrow as (p & cb & ->).
      destruct (get_field_single_row_descriptor date data accural w g
                  (OsvAccuralRecord.gvs accural / get_tariff date) p cb) as (? & ? & Hd).
      rewrite !get_field_first_patch_ne by lia.
      split; [done|]. split; [done|]. destruct (has_counter g); [done|].
      intros i Hi _ H20. rewrite get_field_first_patch_ne by lia. by apply Hd.
    - destruct Hrow as (p & cb & ->).
      destruct (get_field_single_row_descriptor date data accural w g
                  (OsvAccuralRecord.gvs accural / get_tariff date) p cb) as (? & ? & Hd).
      rewrite !get_field_second_patch_ne by lia.
      split; [done|]. split; [done|]. destruct (has_counter g); [done|].
      intros i Hi H10 H20. rewrite get_field_second_patch_ne by lia. by apply Hd.
    - destruct Hrow as (ind & Hind & ->).
      destruct (get_field_reaccural_row_descriptor date data w g reaccural_date
                  reaccural_sum ind (reaccural_sum / get_tariff date) Hind)
        as (? & ? & Hd).
      split; [done|]. split; [done|]. destruct (has_counter g); [done|]. auto. }
  split; [done|]. split; [done|].
  destruct (has_counter g) eqn:Hcounter.
  - rewrite <-counter_number_normalized by done. exact Hrest.
  - repeat split; apply Hrest; lia.
Qed.


(** *** The reading chapter *)

Lemma get_field_single_row_reading date data accural w g q payment_sum closing_balance :
  let r := single_row get_tariff date data accural w g q payment_sum closing_balance in
  get_field 22 r
  = Ok (if has_counter g then of_float (GvsDetailsRecord.consumption_ipu g) else VNone)
  ∧ match GvsDetailsRecord.metric_current g with
    | Some metric_current =>
        get_field 19 r
        = Ok (if has_counter g then of_str (GvsDetailsRecord.metric_date_current g)
              else VNone)
        ∧ get_field 20 r
          = Ok (if has_counter g then VStr "От абонента (прочие)" else VNone)
        ∧ get_field 21 r = Ok (if has_counter g then VFloat metric_current else VNone)
    | None =>
        get_field 19 r = Ok VNone ∧ get_field 20 r = Ok VNone ∧ get_field 21 r = Ok VNone
    end.
Proof.
  cbv zeta. rewrite !get_field_single_row_meter by lia.
  pose proof (get_field_header_meter_None date data
                (VStr (ResultRecordType.name ResultRecordType.GVS_ACCURAL))
                (VStr "Тепловая энергия ГВС")) as Hnone.
  unfold single_meter_chapter.
  destruct (has_counter g), (GvsDetailsRecord.metric_current g);
    repeat split; get_field_simpl; try done; apply Hnone; lia.
Qed.

Lemma get_field_first_patch_20 g self :
  get_field 20 (first_patch g self)
  = if GvsDetailsRecord.metric_current g is Some _ then Ok (VStr "При снятии прибора")
    else get_field 20 self.
Proof.
  unfold first_patch. destruct (GvsDetailsRecord.metric_current g); by get_field_simpl.
Qed.

Lemma get_field_second_patch_20 g self :
  get_field 20 (second_patch g self)
  = if GvsDetailsRecord.metric_current g is Some _ then Ok (VStr "При установке")
    else get_field 20 self.
Proof.
  unfold second_patch.
  rewrite get_field_clear_fields_notin by (rewrite elem_of_seq; lia).
  destruct (GvsDetailsRecord.metric_current g); by get_field_simpl.
Qed.

(** X7: the reading chapter of a GVS accrual row.  When the fact has a
    counter, position 22 holds its metered consumption and, if it has a
    current reading, positions 19 to 21 hold the date of the reading, the
    label of its source (one per constructor) and the reading.  Without a
    counter the single-fact row leaves the chapter empty, whereas a row of a
    split still writes the label of the source in position 20 when the fact
    has a reading. *)
Theorem gvs_reading_chapter c w r w' l g :
  gvs_details_row_of c = Some l →
  is_reaccural_row c = false →
  objects w !! l = Some g →
  construct get_tariff address_in_list c w = (Ok r, w') →
  get_field 22 r
  = Ok (if has_counter g then of_float (GvsDetailsRecord.consumption_ipu g) else VNone)
  ∧ match GvsDetailsRecord.metric_current g with
    | Some metric_current =>
        get_field 19 r
        = Ok (if has_counter g then of_str (GvsDetailsRecord.metric_date_current g)
              else VNone)
        ∧ get_field 20 r
          = Ok (if has_counter g || is_split_row c then VStr (reading_source_of c)
                else VNone)
        ∧ get_field 21 r = Ok (if has_counter g then VFloat metric_current else VNone)
    | None =>
        get_field 19 r = Ok VNone ∧ get_field 20 r = Ok VNone
        ∧ get_field 21 r = Ok VNone
    end.
Proof.
  intros Hc Hreaccural Hl H. pose proof (construct_Ok_gvs _ _ _ _ _ _ Hc Hl H) as Hrow.
  destruct c; try done; cbn [is_split_row reading_source_of].
  - destruct Hrow as (p & cb & ->). rewrite orb_false_r.
    apply get_field_single_row_reading.
  - destruct Hrow as (p & cb & ->). rewrite orb_true_r.
    destruct (get_field_single_row_reading date data accural w g
                (OsvAccuralRecord.gvs accural / get_tariff date) p cb) as [H22 Hreading].
    rewrite get_field_first_patch_20, !get_field_first_patch_ne by lia.
    split; [done|].
    destruct (GvsDetailsRecord.metric_current g); [|done].
    destruct Hreading as (? & ? & ?). done.
  - destruct Hrow as (p & cb & ->). rewrite orb_true_r.
    destruct (get_field_single_row_reading date data accural w g
                (OsvAccuralRecord.gvs accural / get_tariff date) p cb) as [H22 Hreading].
    rewrite get_field_second_patch_20, !get_field_second_patch_ne by lia.
    split; [done|].
    destruct (GvsDetailsRecord.metric_current g); [|done].
    destruct Hreading as (? & ? & ?). done.
Qed.

(** X8: a reaccrual row has no reading, no payment and no balance:
    positions 17 to 22 and 38 to 46 are empty. *)
Theorem reaccural_row_has_no_reading_nor_payment date data l reaccural_date
    reaccural_sum reaccural_type w r w' :
  GvsReaccuralResultRow_init get_tariff date data l reaccural_date reaccural_sum
    reaccural_type w = (Ok r, w') →
  ∀ i, (17 ≤ i ≤ 22 ∨ 38 ≤ i ≤ 46)%nat → get_field i r = Ok VNone.
Proof.
  intros H i Hi.
  apply GvsReaccuralResultRow_init_Ok in H as (g & ind & _ & _ & Hind & -> & _).
  apply chapter_of_kind_bound in Hind. unfold reaccural_row.
  rewrite !get_field_chapter_ne, get_field_reaccural_meter_chapter_ne,
    !get_field_set_field_ne by lia.
  apply get_field_BaseResultRow_init_None; [unfold MAX_FIELDS; lia|].
  intros Hin. in_list Hin; lia.
Qed.

(** *** The install date *)

(** Position 10 of a GVS row that is not the second row of a split, for a
    fact with a counter. *)
Lemma get_field_10_from_memo c w r w' l g :
  gvs_details_row_of c = Some l →
  is_second_row c = false →
  objects w !! l = Some g →
  has_counter g = true →
  construct get_tariff address_in_list c w = (Ok r, w') →
  get_field 10 r
  = Ok (install_date_of (OsvAddressRecord.account (data_of c)) "01.01.2019" w).
Proof.
  intros Hc Hsecond Hl Hcounter H.
  pose proof (construct_Ok_gvs _ _ _ _ _ _ Hc Hl H) as Hrow.
  destruct c; try done; cbn [data_of].
  - destruct Hrow as (p & cb & ->). by rewrite get_field_single_row_10, Hcounter.
  - destruct Hrow as (p & cb & ->).
    by rewrite get_field_first_patch_ne, get_field_single_row_10, Hcounter by lia.
  - destruct Hrow as (ind & Hind & ->).
    by rewrite get_field_reaccural_row_10, Hcounter by done.
Qed.

(** X9: position 10 and the install-date dictionary.  The second row of a
    split writes the date of the current reading of its fact and stores it
    in the dictionary under the account of the fact.  Every other GVS row
    leaves the dictionary as it is; for a fact with a counter it writes what
    the dictionary holds for the account of the address fact, the default
    01.01.2019 when it holds nothing, and for a fact without a counter it
    leaves position 10 empty. *)
Theorem install_date_from_memo_or_default c w r w' l g :
  gvs_details_row_of c = Some l →
  objects w !! l = Some g →
  construct get_tariff address_in_list c w = (Ok r, w') →
  get_field 10 r
  = Ok (if is_second_row c then of_str (GvsDetailsRecord.metric_date_current g)
        else if has_counter g then
          match GvsIpuInstallDates w !! OsvAddressRecord.account (data_of c) with
          | Some install_date => of_str install_date
          | None => VStr "01.01.2019"
          end
        else VNone)
  ∧ GvsIpuInstallDates w'
    = if is_second_row c then
        <[GvsDetailsRecord.account g := GvsDetailsRecord.metric_date_current g]>
          (GvsIpuInstallDates w)
      else GvsIpuInstallDates w.
Proof.
  intros Hc Hl H. apply construct_Ok in H as [_ H].
  destruct c; cbn [gvs_details_row_of] in Hc; [done|..]; injection Hc as ->;
    cbn [is_second_row data_of].
  - destruct H as (g' & p & cb & Hl' & -> & ->).
    rewrite Hl in Hl'; injection Hl' as <-.
    rewrite get_field_single_row_10, install_dates_store_normalized.
    split; [|done]. unfold install_date_of. by destruct (has_counter g).
  - destruct H as (g' & p & cb & Hl' & -> & ->).
    rewrite Hl in Hl'; injection Hl' as <-.
    rewrite get_field_first_patch_ne, get_field_single_row_10,
      install_dates_store_normalized by lia.
    split; [|done]. unfold install_date_of. by destruct (has_counter g).
  - destruct H as (g' & p & cb & Hl' & -> & ->).
    rewrite Hl in Hl'; injection Hl' as <-.
    by rewrite get_field_second_patch_10.
  - destruct H as (g' & ind & Hl' & Hind & -> & ->).
    rewrite Hl in Hl'; injection Hl' as <-.
    apply chapter_of_kind_bound in Hind.
    rewrite get_field_reaccural_row_10, install_dates_store_normalized by done.
    split; [|done]. unfold install_date_of. by destruct (has_counter g).
Qed.



(** X10: what the second row of a split stored is what a later row reads.  A
    GVS row other than a second row, built right after for a fact with a
    counter, has in position 10 the reading date of that split when its
    address fact has the account of the metering fact of the split; for any
    other account it has what it would have had before the split. *)
Theorem install_date_memo_round_trip date data accural account_details l w g r w'
    c2 l2 g2 r2 w2 :
  objects w !! l = Some g →
  GvsMultipleResultSecondRow_init get_tariff date data accural account_details l w
  = (Ok r, w') →
  gvs_details_row_of c2 = Some l2 →
  is_second_row c2 = false →
  objects w' !! l2 = Some g2 →
  has_counter g2 = true →
  construct get_tariff address_in_list c2 w' = (Ok r2, w2) →
  get_field 10 r2
  = Ok (if decide (OsvAddressRecord.account (data_of c2) = GvsDetailsRecord.account g)
        then of_str (GvsDetailsRecord.metric_date_current g)
        else
          match GvsIpuInstallDates w !! OsvAddressRecord.account (data_of c2) with
          | Some install_date => of_str install_date
          | None => VStr "01.01.2019"
          end).
Proof.
  intros Hl H Hc2 Hsecond Hl2 Hcounter H2.
  apply GvsMultipleResultSecondRow_init_Ok in H as (g' & self & Hl' & _ & _ & ->).
  rewrite Hl in Hl'. injection Hl' as <-.
  rewrite (get_field_10_from_memo _ _ _ _ _ _ Hc2 Hsecond Hl2 Hcounter H2).
  unfold install_date_of. cbn [GvsIpuInstallDates].
  destruct (decide (OsvAddressRecord.account (data_of c2) = GvsDetailsRecord.account g))
    as [->|Hne].
  - by rewrite lookup_insert_eq.
  - by rewrite lookup_insert_ne.
Qed.

(** *** The consumption chapters of an accrual row *)

Lemma consumption_chapters_spec self g quantity amount :
  (∀ i, (23 ≤ i ≤ 33)%nat → get_field i self = Ok VNone) →
  let r := consumption_chapters g quantity amount self in
  (if truthy_opt_float (GvsDetailsRecord.consumption_ipu g)
   then chapter_filled 23 quantity amount r else chapter_empty 23 r)
  ∧ (if truthy_opt_float (GvsDetailsRecord.consumption_average g)
     then chapter_filled 26 quantity amount r else chapter_empty 26 r)
  ∧ (if truthy_opt_float (GvsDetailsRecord.consumption_normative g)
     then chapter_filled 31 quantity amount r
          ∧ get_field 30 r = Ok (of_int (GvsDetailsRecord.people_registered g))
     else chapter_empty 31 r ∧ get_field 30 r = Ok VNone).
Proof.
  intros Hself. cbv zeta. unfold consumption_chapters, chapter_filled, chapter_empty.
  cbn [Nat.add].
  destruct (truthy_opt_float (GvsDetailsRecord.consumption_ipu g)),
    (truthy_opt_float (GvsDetailsRecord.consumption_average g)),
    (truthy_opt_float (GvsDetailsRecord.consumption_normative g));
    repeat split;
    repeat first
      [ rewrite get_field_chapter_quantity
      | rewrite get_field_chapter_sum by lia
      | rewrite get_field_chapter_ne by lia
      | rewrite get_field_set_field_eq
      | rewrite get_field_set_field_ne by lia ];
    try done; apply Hself; lia.
Qed.

Lemma get_field_single_row_consumption date data accural w g q payment_sum
    closing_balance j :
  (23 ≤ j ≤ 33)%nat →
  get_field j (single_row get_tariff date data accural w g q payment_sum closing_balance)
  = get_field j
      (consumption_chapters g (format_4f q) (OsvAccuralRecord.gvs accural)
         (single_meter_chapter data w g
            (set_field 5 (VStr "Тепловая энергия ГВС")
               (set_field 4 (VStr (ResultRecordType.name ResultRecordType.GVS_ACCURAL))
                  (BaseResultRow_init get_tariff date data))))).
Proof.
  intros Hj. unfold single_row.
  by rewrite get_field_set_field_ne, get_field_chapter_payment_ne, get_field_chapter_ne
    by lia.
Qed.

Lemma single_row_consumption_chapters date data accural w g q payment_sum closing_balance :
  let r := single_row get_tariff date data accural w g q payment_sum closing_balance in
  let quantity := format_4f q in
  let amount := OsvAccuralRecord.gvs accural in
  (if truthy_opt_float (GvsDetailsRecord.consumption_ipu g)
   then chapter_filled 23 quantity amount r else chapter_empty 23 r)
  ∧ (if truthy_opt_float (GvsDetailsRecord.consumption_average g)
     then chapter_filled 26 quantity amount r else chapter_empty 26 r)
  ∧ (if truthy_opt_float (GvsDetailsRecord.consumption_normative g)
     then chapter_filled 31 quantity amount r
          ∧ get_field 30 r = Ok (of_int (GvsDetailsRecord.people_registered g))
     else chapter_empty 31 r ∧ get_field 30 r = Ok VNone).
Proof.
  cbv zeta. unfold chapter_filled, chapter_empty. cbn [Nat.add].
  rewrite !get_field_single_row_consumption by lia.
  apply consumption_chapters_spec. intros i Hi.
  rewrite get_field_single_meter_chapter_ne, !get_field_set_field_ne by lia.
  apply get_field_BaseResultRow_init_None; [unfold MAX_FIELDS; lia|not_in_list].
Qed.

(** X11: in a single-fact row and in the first row of a split each of the
    chapters 23-25 (meter), 26-28 (average) and 31-33 (normative) is filled
    with the quantity and, twice, the accrued amount exactly when the
    corresponding consumption of the metering fact is true as a Python
    value, that is neither [None] nor zero, independently of the other two;
    position 30 holds the registered people with the normative chapter and
    is empty without it. *)
Theorem gvs_consumption_chapters c w r w' l g :
  gvs_details_row_of c = Some l →
  is_second_row c = false →
  is_reaccural_row c = false →
  objects w !! l = Some g →
  construct get_tariff address_in_list c w = (Ok r, w') →
  let quantity := format_4f (amount_of c / get_tariff (date_of c)) in
  (if truthy_opt_float (GvsDetailsRecord.consumption_ipu g)
   then chapter_filled 23 quantity (amount_of c) r else chapter_empty 23 r)
  ∧ (if truthy_opt_float (GvsDetailsRecord.consumption_average g)
     then chapter_filled 26 quantity (amount_of c) r else chapter_empty 26 r)
  ∧ (if truthy_opt_float (GvsDetailsRecord.consumption_normative g)
     then chapter_filled 31 quantity (amount_of c) r
          ∧ get_field 30 r = Ok (of_int (GvsDetailsRecord.people_registered g))
     else chapter_empty 31 r ∧ get_field 30 r = Ok VNone).
Proof.
  intros Hc Hsecond Hreaccural Hl H.
  pose proof (construct_Ok_gvs _ _ _ _ _ _ Hc Hl H) as Hrow.
  destruct c; try done; cbn [amount_of date_of]; cbv zeta.
  - destruct Hrow as (p & cb & ->). apply single_row_consumption_chapters.
  - destruct Hrow as (p & cb & ->).
    unfold chapter_filled, chapter_empty. cbn [Nat.add].
    rewrite !get_field_first_patch_ne by lia.
    apply single_row_consumption_chapters.
Qed.


(** *** The payment chapter and the closing balance of an accrual row *)

Lemma chapter_payment_spec date payment_sum self :
  (∀ i, (40 ≤ i ≤ 43)%nat → get_field i self = Ok VNone) →
  let r := chapter_payment date payment_sum self in
  if ne_zero payment_sum then
    get_field 40 r = Ok (VStr (payment_date date))
    ∧ get_field 41 r = Ok (VStr (payment_date date))
    ∧ get_field 42 r = Ok payment_sum
    ∧ get_field 43 r
      = Ok (VStr (if truthy payment_sum then "Оплата" else "Возврат оплаты"))
  else
    get_field 40 r = Ok VNone ∧ get_field 41 r = Ok VNone
    ∧ get_field 42 r = Ok VNone ∧ get_field 43 r = Ok VNone.
Proof.
  intros Hself. cbv zeta. unfold chapter_payment.
  destruct (ne_zero payment_sum).
  - repeat split; by get_field_simpl.
  - repeat split; apply Hself; lia.
Qed.

Lemma single_row_payment_chapter date data accural w g q payment_sum closing_balance :
  let r := single_row get_tariff date data accural w g q payment_sum closing_balance in
  get_field 45 r = Ok closing_balance
  ∧ if ne_zero payment_sum then
      get_field 40 r = Ok (VStr (payment_date date))
      ∧ get_field 41 r = Ok (VStr (payment_date date))
      ∧ get_field 42 r = Ok payment_sum
      ∧ get_field 43 r
        = Ok (VStr (if truthy payment_sum then "Оплата" else "Возврат оплаты"))
    else
      get_field 40 r = Ok VNone ∧ get_field 41 r = Ok VNone
      ∧ get_field 42 r = Ok VNone ∧ get_field 43 r = Ok VNone.
Proof.
  cbv zeta. unfold single_row. split; [by get_field_simpl|].
  rewrite !(get_field_set_field_ne _ 45) by lia.
  apply chapter_payment_spec. intros i Hi.
  rewrite get_field_chapter_ne, get_field_consumption_chapters_ne,
    get_field_single_meter_chapter_ne, !get_field_set_field_ne by lia.
  apply get_field_BaseResultRow_init_None; [unfold MAX_FIELDS; lia|not_in_list].
Qed.

(** What the ledger gave when a single-fact row or the first row of a split
    was built. *)
Lemma accrual_row_Ok c w r w' account_details :
  account_details_of c = Some account_details →
  is_Some (gvs_details_row_of c) →
  is_second_row c = false →
  construct get_tariff address_in_list c w = (Ok r, w') →
  ∃ accural g q payment_sum closing_balance,
    except_NoServiceRow
      (AccountDetailsFileSingleton.get_service_month_payment account_details (date_of c)
         "Тепловая энергия для подогрева воды") (VInt 0) = Ok payment_sum
    ∧ except_NoServiceRow
        (AccountDetailsFileSingleton.get_service_month_closing_balance account_details
           (date_of c) "Тепловая энергия для подогрева воды") (VInt 0)
      = Ok closing_balance
    ∧ ∀ j, j ≠ 20 →
        get_field j r
        = get_field j (single_row get_tariff (date_of c) (data_of c) accural w g q
                         payment_sum closing_balance).
Proof.
  intros Hledger [l Hc] Hsecond H.
  destruct c as [|date data accural ad l'|date data accural ad l'| |];
    cbn [account_details_of gvs_details_row_of is_second_row] in *; try done.
  - injection Hledger as ->. cbn [construct] in H.
    apply GvsSingleResultRow_init_Ok in H as (g & _ & Hres & _).
    apply single_result_Ok in Hres as (p & cb & _ & Hp & Hcb & ->).
    exists accural, g, (OsvAccuralRecord.gvs accural / get_tariff date)%float, p, cb.
    cbn [date_of data_of]. split; [done|]. split; [done|]. done.
  - injection Hledger as ->. cbn [construct] in H.
    apply GvsMultipleResultFirstRow_init_Ok in H as (g & self & _ & Hres & -> & _).
    apply single_result_Ok in Hres as (p & cb & _ & Hp & Hcb & ->).
    exists accural, g, (OsvAccuralRecord.gvs accural / get_tariff date)%float, p, cb.
    cbn [date_of data_of]. split; [done|]. split; [done|].
    intros j Hj. by rewrite get_field_first_patch_ne.
Qed.

(** X12: the payment chapter and the closing balance of a single-fact row
    and of the first row of a split.  For a payment sum of the ledger that
    is not zero positions 40 to 43 hold the date [20.MM.YYYY] twice, the sum
    and the label of a payment; for a zero sum, and when the ledger has no
    row of the service, they are empty.  Position 45 holds the closing
    balance of the ledger, the integer 0 when the ledger has no row of the
    service.  A row is built for no other failure of the ledger. *)
Theorem gvs_payment_chapter c w r w' account_details :
  account_details_of c = Some account_details →
  is_Some (gvs_details_row_of c) →
  is_second_row c = false →
  construct get_tariff address_in_list c w = (Ok r, w') →
  match AccountDetailsFileSingleton.get_service_month_payment account_details (date_of c)
          "Тепловая энергия для подогрева воды" with
  | Ok payment_sum =>
      if (payment_sum =? 0)%float then
        get_field 40 r = Ok VNone ∧ get_field 41 r = Ok VNone
        ∧ get_field 42 r = Ok VNone ∧ get_field 43 r = Ok VNone
      else
        get_field 40 r = Ok (VStr (payment_date (date_of c)))
        ∧ get_field 41 r = Ok (VStr (payment_date (date_of c)))
        ∧ get_field 42 r = Ok (VFloat payment_sum)
        ∧ get_field 43 r = Ok (VStr "Оплата")
  | Raise e =>
      e = NoServiceRow
      ∧ get_field 40 r = Ok VNone ∧ get_field 41 r = Ok VNone
      ∧ get_field 42 r = Ok VNone ∧ get_field 43 r = Ok VNone
  end
  ∧ match AccountDetailsFileSingleton.get_service_month_closing_balance account_details
            (date_of c) "Тепловая энергия для подогрева воды" with
    | Ok closing_balance => get_field 45 r = Ok (VFloat closing_balance)
    | Raise e => e = NoServiceRow ∧ get_field 45 r = Ok (VInt 0)
    end.
Proof.
  intros Hledger Hgvs Hsecond H.
  destruct (accrual_row_Ok _ _ _ _ _ Hledger Hgvs Hsecond H)
    as (accural & g & q & p & cb & Hp & Hcb & Hr).
  rewrite !Hr by lia.
  destruct (single_row_payment_chapter (date_of c) (data_of c) accural w g q p cb)
    as [H45 Hpayment].
  split.
  - destruct (AccountDetailsFileSingleton.get_service_month_payment _ _ _) as [x|[]];
      cbn [except_NoServiceRow] in Hp; try done; injection Hp as <-.
    + cbn [ne_zero truthy] in Hpayment. unfold truthy_float in Hpayment.
      by destruct (x =? 0)%float.
    + done.
  - rewrite H45.
    destruct (AccountDetailsFileSingleton.get_service_month_closing_balance _ _ _)
      as [x|[]]; cbn [except_NoServiceRow] in Hcb; try done; by injection Hcb as <-.
Qed.


(** *** What a call does to the world, whatever it returns *)

Lemma construct_run c w :
  construct get_tariff address_in_list c w
  = match c with
    | NewHeatingResultRow date data accural odpu_file heating_average_file
        account_details =>
        (HeatingResultRow_init get_tariff address_in_list date data accural odpu_file
           heating_average_file account_details, w)
    | NewGvsSingleResultRow date data accural account_details l =>
        match objects w !! l with
        | Some g =>
            (single_result get_tariff date data accural account_details w g,
             store_normalized l g w)
        | None => (Raise InvalidReference, w)
        end
    | NewGvsMultipleResultFirstRow date data accural account_details l =>
        match objects w !! l with
        | Some g =>
            (self ← single_result get_tariff date data accural account_details w g;
             mret (first_patch g self),
             store_normalized l g w)
        | None => (Raise InvalidReference, w)
        end
    | NewGvsMultipleResultSecondRow date data accural account_details l =>
        match objects w !! l with
        | Some g =>
            match single_result get_tariff date data accural account_details w g with
            | Ok self =>
                (Ok (second_patch g self),
                 mkWorld (objects (store_normalized l g w))
                   (<[GvsDetailsRecord.account g
                      := GvsDetailsRecord.metric_date_current g]>
                      (GvsIpuInstallDates w)))
            | Raise e => (Raise e, store_normalized l g w)
            end
        | None => (Raise InvalidReference, w)
        end
    | NewGvsReaccuralResultRow date data l reaccural_date reaccural_sum reaccural_type =>
        match objects w !! l with
        | Some g =>
            (reaccural_result get_tariff date data w g reaccural_date reaccural_sum
               reaccural_type,
             store_normalized l g w)
        | None => (Raise InvalidReference, w)
        end
    end.
Proof.
  destruct c as [date data accural odpu_file heating_average_file account_details
                |date data accural account_details l
                |date data accural account_details l
                |date data accural account_details l
                |date data l reaccural_date reaccural_sum reaccural_type];
    cbn [construct]; [done|..]; destruct (objects w !! l) as [g|] eqn:Hl.
  - by apply GvsSingleResultRow_init_run.
  - unfold GvsSingleResultRow_init. cbv zeta. by rewrite deref_None.
  - by apply GvsMultipleResultFirstRow_init_run.
  - unfold GvsMultipleResultFirstRow_init, GvsSingleResultRow_init.
    unfold mbind at 1, M_bind, bind. cbv zeta. by rewrite deref_None.
  - by apply GvsMultipleResultSecondRow_init_run.
  - unfold GvsMultipleResultSecondRow_init, GvsSingleResultRow_init.
    unfold mbind at 1, M_bind, bind. cbv zeta. by rewrite deref_None.
  - by apply GvsReaccuralResultRow_init_run.
  - unfold GvsReaccuralResultRow_init. cbv zeta. by rewrite deref_None.
Qed.


(** *** Failures *)

Lemma single_result_raises date data accural account_details w g e :
  (get_tariff date =? 0)%float = false →
  AccountDetailsFileSingleton.get_service_month_payment account_details date
    "Тепловая энергия для подогрева воды" = Raise e
  ∨ (AccountDetailsFileSingleton.get_service_month_payment account_details date
       "Тепловая энергия для подогрева воды" = Raise NoServiceRow
     ∨ (∃ payment_sum,
          AccountDetailsFileSingleton.get_service_month_payment account_details date
            "Тепловая энергия для подогрева воды" = Ok payment_sum))
    ∧ AccountDetailsFileSingleton.get_service_month_closing_balance account_details date
        "Тепловая энергия для подогрева воды" = Raise e →
  e ≠ NoServiceRow →
  single_result get_tariff date data accural account_details w g = Raise e.
Proof.
  intros Hprice Hledger He. unfold single_result, truediv. rewrite Hprice.
  cbn [mbind result_bind rbind].
  destruct Hledger as [-> | [[-> | [p ->]] ->]]; by destruct e.
Qed.

Lemma single_result_zero_price date data accural account_details w g :
  (get_tariff date =? 0)%float = true →
  single_result get_tariff date data accural account_details w g
  = Raise ZeroDivisionError.
Proof. intros Hprice. unfold single_result, truediv. by rewrite Hprice. Qed.

(** X13: the heating constructor has no fallback for the ledger: whatever
    the payment lookup raises, or the closing-balance lookup after a payment
    sum was found, [NoServiceRow] included, is raised by the constructor. *)
Theorem heating_row_needs_the_ledger date data accural odpu_file heating_average_file
    account_details e :
  (get_tariff date =? 0)%float = false →
  AccountDetailsFileSingleton.get_service_month_payment account_details date "Отопление"
  = Raise e
  ∨ (∃ payment_sum,
       AccountDetailsFileSingleton.get_service_month_payment account_details date
         "Отопление" = Ok payment_sum)
    ∧ AccountDetailsFileSingleton.get_service_month_closing_balance account_details date
        "Отопление" = Raise e →
  HeatingResultRow_init get_tariff address_in_list date data accural odpu_file
    heating_average_file account_details = Raise e.
Proof.
  intros Hprice Hledger. rewrite HeatingResultRow_init_run.
  unfold truediv. rewrite Hprice. cbn [mbind result_bind rbind].
  by destruct Hledger as [-> | [[p ->] ->]].
Qed.

(** X14: a GVS accrual constructor catches [NoServiceRow] only: any other
    exception of the payment lookup, or of the closing-balance lookup after
    it, is raised by the constructor.  No row is returned and the
    install-date dictionary is not written, but the counter number made for
    a fact without one has been assigned already. *)
Theorem gvs_row_lets_other_ledger_errors_through c w l g account_details e :
  gvs_details_row_of c = Some l →
  account_details_of c = Some account_details →
  objects w !! l = Some g →
  (get_tariff (date_of c) =? 0)%float = false →
  AccountDetailsFileSingleton.get_service_month_payment account_details (date_of c)
    "Тепловая энергия для подогрева воды" = Raise e
  ∨ (AccountDetailsFileSingleton.get_service_month_payment account_details (date_of c)
       "Тепловая энергия для подогрева воды" = Raise NoServiceRow
     ∨ (∃ payment_sum,
          AccountDetailsFileSingleton.get_service_month_payment account_details
            (date_of c) "Тепловая энергия для подогрева воды" = Ok payment_sum))
    ∧ AccountDetailsFileSingleton.get_service_month_closing_balance account_details
        (date_of c) "Тепловая энергия для подогрева воды" = Raise e →
  e ≠ NoServiceRow →
  ∃ w',
    construct get_tariff address_in_list c w = (Raise e, w')
    ∧ GvsIpuInstallDates w' = GvsIpuInstallDates w
    ∧ objects w' !! l
      = Some (if has_counter g && negb (truthy_str (GvsDetailsRecord.counter_number g))
              then GvsDetailsRecord.set_counter_number
                     (Some (_get_new_counter_number (GvsDetailsRecord.counter_id g))) g
              else g).
Proof.
  intros Hc Hledger Hl Hprice Hraise He.
  exists (store_normalized l g w).
  split; [|split; [apply install_dates_store_normalized
                  |by apply objects_store_normalized]].
  rewrite construct_run.
  destruct c; cbn [gvs_details_row_of account_details_of date_of] in *; try done;
    injection Hc as ->; injection Hledger as ->; rewrite Hl;
    by rewrite (single_result_raises _ _ _ _ _ _ e Hprice Hraise He).
Qed.

(** X15: at a price of zero every constructor raises [ZeroDivisionError].
    The heating constructor leaves the world as it is; a GVS constructor
    has by then assigned the counter number made for a fact without one,
    and has not written the install-date dictionary. *)
Theorem zero_price_raises c w :
  (get_tariff (date_of c) =? 0)%float = true →
  match gvs_details_row_of c with
  | None => construct get_tariff address_in_list c w = (Raise ZeroDivisionError, w)
  | Some l =>
      ∀ g, objects w !! l = Some g →
        ∃ w',
          construct get_tariff address_in_list c w = (Raise ZeroDivisionError, w')
          ∧ GvsIpuInstallDates w' = GvsIpuInstallDates w
          ∧ objects w' !! l
            = Some (if has_counter g
                       && negb (truthy_str (GvsDetailsRecord.counter_number g))
                    then GvsDetailsRecord.set_counter_number
                           (Some (_get_new_counter_number
                                    (GvsDetailsRecord.counter_id g))) g
                    else g)
  end.
Proof.
  intros Hprice. rewrite construct_run.
  destruct c; cbn [gvs_details_row_of date_of] in *.
  - rewrite HeatingResultRow_init_run. unfold truediv. by rewrite Hprice.
  - intros g Hl. exists (store_normalized gvs_details_row g w).
    rewrite Hl, single_result_zero_price by done.
    split; [done|]. split; [apply install_dates_store_normalized
                           |by apply objects_store_normalized].
  - intros g Hl. exists (store_normalized gvs_details_row g w).
    rewrite Hl, single_result_zero_price by done.
    split; [done|]. split; [apply install_dates_store_normalized
                           |by apply objects_store_normalized].
  - intros g Hl. exists (store_normalized gvs_details_row g w).
    rewrite Hl, single_result_zero_price by done.
    split; [done|]. split; [apply install_dates_store_normalized
                           |by apply objects_store_normalized].
  - intros g Hl. exists (store_normalized gvs_details_row g w).
    rewrite Hl. unfold reaccural_result, truediv. rewrite Hprice.
    split; [done|]. split; [apply install_dates_store_normalized
                           |by apply objects_store_normalized].
Qed.

(** *** What a call leaves alone *)

(** X16: whatever a constructor call returns, the metering facts of other
    references are as before, no fact is added or removed, and the fact of
    the call differs at most in its counter number: it gets the number made
    from its id when it has a counter and no number, and stays as it is
    otherwise. *)
Theorem constructor_changes_only_its_counter_number c w res w' :
  construct get_tariff address_in_list c w = (res, w') →
  (∀ l', gvs_details_row_of c ≠ Some l' → objects w' !! l' = objects w !! l')
  ∧ (∀ l g, gvs_details_row_of c = Some l → objects w !! l = Some g →
       objects w' !! l
       = Some (if has_counter g && negb (truthy_str (GvsDetailsRecord.counter_number g))
               then GvsDetailsRecord.set_counter_number
                      (Some (_get_new_counter_number (GvsDetailsRecord.counter_id g))) g
               else g))
  ∧ dom (objects w') = dom (objects w).
Proof.
  rewrite construct_run. intros H.
  assert (∀ l g, objects w !! l = Some g →
            dom (objects (store_normalized l g w)) = dom (objects w)) as Hdom.
  { intros l g Hl. unfold store_normalized. destruct (synthesizes g); [|done].
    cbn [objects]. by apply dom_insert_lookup_L. }
  destruct c; cbn [gvs_details_row_of].
  - injection H as _ <-. done.
  - destruct (objects w !! gvs_details_row) as [g|] eqn:Hl; injection H as _ <-.
    + split; [|split].
      * intros l' Hne. apply objects_store_normalized_ne. congruence.
      * intros l g' [= <-]. rewrite Hl. intros [= <-].
        by apply objects_store_normalized.
      * by apply Hdom.
    + split; [done|]. split; [|done]. intros l g [= <-]. by rewrite Hl.
  - destruct (objects w !! gvs_details_row) as [g|] eqn:Hl; injection H as _ <-.
    + split; [|split].
      * intros l' Hne. apply objects_store_normalized_ne. congruence.
      * intros l g' [= <-]. rewrite Hl. intros [= <-].
        by apply objects_store_normalized.
      * by apply Hdom.
    + split; [done|]. split; [|done]. intros l g [= <-]. by rewrite Hl.
  - destruct (objects w !! gvs_details_row) as [g|] eqn:Hl.
    + assert (objects w' = objects (store_normalized gvs_details_row g w)) as ->.
      { destruct (single_result _ _ _ _ _ _ _); by injection H as _ <-. }
      split; [|split].
      * intros l' Hne. apply objects_store_normalized_ne. congruence.
      * intros l g' [= <-]. rewrite Hl. intros [= <-].
        by apply objects_store_normalized.
      * by apply Hdom.
    + injection H as _ <-.
      split; [done|]. split; [|done]. intros l g [= <-]. by rewrite Hl.
  - destruct (objects w !! gvs_details_row) as [g|] eqn:Hl; injection H as _ <-.
    + split; [|split].
      * intros l' Hne. apply objects_store_normalized_ne. congruence.
      * intros l g' [= <-]. rewrite Hl. intros [= <-].
        by apply objects_store_normalized.
      * by apply Hdom.
    + split; [done|]. split; [|done]. intros l g [= <-]. by rewrite Hl.
Qed.

(** X17: the install-date dictionary is written by the second row of a
    split only, when it returns a row, and at the account of its metering
    fact only; after any other call, and after a call that raises, it is as
    before. *)
Theorem only_the_second_row_writes_the_memo c w res w' :
  construct get_tariff address_in_list c w = (res, w') →
  GvsIpuInstallDates w' = GvsIpuInstallDates w
  ∨ ∃ r l g,
      is_second_row c = true ∧ res = Ok r
      ∧ gvs_details_row_of c = Some l ∧ objects w !! l = Some g
      ∧ GvsIpuInstallDates w'
        = <[GvsDetailsRecord.account g := GvsDetailsRecord.metric_date_current g]>
            (GvsIpuInstallDates w).
Proof.
  rewrite construct_run. intros H.
  destruct c; cbn [gvs_details_row_of is_second_row].
  - injection H as _ <-. by left.
  - left. destruct (objects w !! gvs_details_row);
      injection H as _ <-; [apply install_dates_store_normalized|done].
  - left. destruct (objects w !! gvs_details_row);
      injection H as _ <-; [apply install_dates_store_normalized|done].
  - destruct (objects w !! gvs_details_row) as [g|] eqn:Hl.
    + destruct (single_result _ _ _ _ _ _ _) as [self|e]; injection H as <- <-.
      * right. by exists (second_patch g self), gvs_details_row, g.
      * left. apply install_dates_store_normalized.
    + injection H as _ <-. by left.
  - left. destruct (objects w !! gvs_details_row);
      injection H as _ <-; [apply install_dates_store_normalized|done].
Qed.

End Positions.

(** ** Rows of a split, and rows built again *)

Section Built_again.

Variable get_tariff : MonthYear.t → float.
Context {sheet : Type}.
Variable address_in_list : string → sheet → bool.



Implicit Types (self r a b : BaseResultRow) (g : GvsDetailsRecord.t) (w : world) (l : ref).
Implicit Types (c : RowCall (sheet := sheet)) (i j k : nat).

(** *** The split rows and the single-fact row *)

(** X18: the rows of a split are the single-fact row of the same arguments,
    amended.  When the single-fact constructor returns a row, so do the two
    others: the first row differs from it in position 20 at most and leaves
    the same world; the second row agrees with it below position 23 and in
    position 46, positions 10 and 20 apart, and leaves the same metering
    facts.  When the single-fact constructor raises, the two others raise
    the same exception and leave the same world. *)
Theorem split_rows_extend_the_single_row date data accural account_details l w res w' :
  GvsSingleResultRow_init get_tariff date data accural account_details l w = (res, w') →
  match res with
  | Ok r =>
      ∃ r1 r2 w2,
        GvsMultipleResultFirstRow_init get_tariff date data accural account_details l w
        = (Ok r1, w')
        ∧ (∀ j, j ≠ 20 → get_field j r1 = get_field j r)
        ∧ GvsMultipleResultSecondRow_init get_tariff date data accural account_details l w
          = (Ok r2, w2)
        ∧ objects w2 = objects w'
        ∧ (∀ j, j < 23 ∨ j = 46 → j ≠ 10 → j ≠ 20 → get_field j r2 = get_field j r)
  | Raise e =>
      GvsMultipleResultFirstRow_init get_tariff date data accural account_details l w
      = (Raise e, w')
      ∧ GvsMultipleResultSecondRow_init get_tariff date data accural account_details l w
        = (Raise e, w')
  end.
Proof.
  pose proof (construct_run get_tariff address_in_list
                (NewGvsSingleResultRow date data accural account_details l) w) as Hsingle.
  pose proof (construct_run get_tariff address_in_list
                (NewGvsMultipleResultFirstRow date data accural account_details l) w)
    as Hfirst.
  pose proof (construct_run get_tariff address_in_list
                (NewGvsMultipleResultSecondRow date data accural account_details l) w)
    as Hsecond.
  cbn [construct] in Hsingle, Hfirst, Hsecond. rewrite Hsingle, Hfirst, Hsecond.
  destruct (objects w !! l) as [g|].
  - destruct (single_result _ _ _ _ _ _ _) as [self|e]; intros [= <- <-].
    + eexists _, _, _. split; [reflexivity|].
      split; [intros j Hj; by apply get_field_first_patch_ne|].
      split; [reflexivity|]. split; [reflexivity|].
      intros j Hj H10 H20. apply get_field_second_patch_ne; [lia|done..].
    + done.
  - by intros [= <- <-].
Qed.

(** *** Building a row again *)

Lemma row_eq a b :
  price a = price b → (∀ i, get_field i a = get_field i b) → a = b.
Proof.
  destruct a as [fa pa], b as [fb pb]. cbn [price]. intros -> Hget. f_equal.
  apply map_eq. intros i. specialize (Hget i). unfold get_field in Hget. cbn [fields] in Hget.
  destruct (fa !! i), (fb !! i); congruence.
Qed.

Lemma get_field_set_field_cong k v a b i :
  get_field i a = get_field i b →
  get_field i (set_field k v a) = get_field i (set_field k v b).
Proof.
  intros Hab. destruct (decide (k = i)) as [->|Hne].
  - by rewrite !get_field_set_field_eq.
  - by rewrite !get_field_set_field_ne.
Qed.

Lemma get_field_clear_fields_cong inds a b i :
  get_field i a = get_field i b →
  get_field i (clear_fields inds a) = get_field i (clear_fields inds b).
Proof.
  revert a b. induction inds as [|k inds IH]; intros a b Hab; [done|].
  rewrite !clear_fields_cons. by apply IH, get_field_set_field_cong.
Qed.

Lemma get_field_chapter_cong ind quantity amount a b i :
  get_field i a = get_field i b →
  get_field i (chapter ind quantity amount a) = get_field i (chapter ind quantity amount b).
Proof. intros Hab. unfold chapter. by do 3 apply get_field_set_field_cong. Qed.

Lemma get_field_chapter_payment_cong date payment_sum a b i :
  get_field i a = get_field i b →
  get_field i (chapter_payment date payment_sum a)
  = get_field i (chapter_payment date payment_sum b).
Proof.
  intros Hab. unfold chapter_payment. destruct (ne_zero payment_sum); [|done].
  by do 4 apply get_field_set_field_cong.
Qed.

Lemma get_field_consumption_chapters_cong g quantity amount a b i :
  get_field i a = get_field i b →
  get_field i (consumption_chapters g quantity amount a)
  = get_field i (consumption_chapters g quantity amount b).
Proof.
  intros Hab. unfold consumption_chapters.
  destruct (truthy_opt_float (GvsDetailsRecord.consumption_ipu g)),
    (truthy_opt_float (GvsDetailsRecord.consumption_average g)),
    (truthy_opt_float (GvsDetailsRecord.consumption_normative g));
    repeat first [apply get_field_chapter_cong | apply get_field_set_field_cong];
    done.
Qed.

(** A single-fact row depends on the install dates in position 10 only. *)
Lemma get_field_single_row_world date data accural w w2 g q payment_sum closing_balance i :
  i ≠ 10 →
  get_field i (single_row get_tariff date data accural w g q payment_sum closing_balance)
  = get_field i
      (single_row get_tariff date data accural w2 g q payment_sum closing_balance).
Proof.
  intros Hi. unfold single_row.
  apply get_field_set_field_cong, get_field_chapter_payment_cong, get_field_chapter_cong,
    get_field_consumption_chapters_cong.
  unfold single_meter_chapter. destruct (has_counter g); [|done].
  destruct (GvsDetailsRecord.metric_current g);
    repeat (apply get_field_set_field_cong; try done);
    by rewrite !(get_field_set_field_ne _ 10) by done.
Qed.


Lemma price_chapter ind quantity amount a : price (chapter ind quantity amount a) = price a.
Proof. reflexivity. Qed.

Lemma price_chapter_payment date payment_sum a :
  price (chapter_payment date payment_sum a) = price a.
Proof. unfold chapter_payment. by destruct (ne_zero payment_sum). Qed.

Lemma price_consumption_chapters g quantity amount a :
  price (consumption_chapters g quantity amount a) = price a.
Proof.
  unfold consumption_chapters.
  by destruct (truthy_opt_float (GvsDetailsRecord.consumption_ipu g)),
    (truthy_opt_float (GvsDetailsRecord.consumption_average g)),
    (truthy_opt_float (GvsDetailsRecord.consumption_normative g)).
Qed.

Lemma price_single_meter_chapter data w g a :
  price (single_meter_chapter data w g a) = price a.
Proof.
  unfold single_meter_chapter.
  by destruct (has_counter g), (GvsDetailsRecord.metric_current g).
Qed.

Lemma price_single_row date data accural w g q payment_sum closing_balance :
  price (single_row get_tariff date data accural w g q payment_sum closing_balance)
  = Some (get_tariff date).
Proof.
  unfold single_row.
  by rewrite price_set_field, price_chapter_payment, price_chapter,
    price_consumption_chapters, price_single_meter_chapter.
Qed.

Lemma price_second_patch g a : price (second_patch g a) = price a.
Proof.
  unfold second_patch. rewrite price_clear_fields.
  by destruct (GvsDetailsRecord.metric_current g).
Qed.

(** The second row of a split does not depend on the install dates. *)
Lemma second_patch_single_row_world date data accural w w2 g q payment_sum
    closing_balance :
  second_patch g
    (single_row get_tariff date data accural w g q payment_sum closing_balance)
  = second_patch g
      (single_row get_tariff date data accural w2 g q payment_sum closing_balance).
Proof.
  apply row_eq; [by rewrite !price_second_patch, !price_single_row|].
  intros i. unfold second_patch. apply get_field_clear_fields_cong.
  assert (get_field i
            (set_field 10 (of_str (GvsDetailsRecord.metric_date_current g))
               (single_row get_tariff date data accural w g q payment_sum
                  closing_balance))
          = get_field i
              (set_field 10 (of_str (GvsDetailsRecord.metric_date_current g))
                 (single_row get_tariff date data accural w2 g q payment_sum
                    closing_balance))) as H10.
  { destruct (decide (i = 10)) as [->|Hne].
    - by rewrite !get_field_set_field_eq.
    - rewrite !get_field_set_field_ne by done. by apply get_field_single_row_world. }
  destruct (GvsDetailsRecord.metric_current g); [|done].
  by apply get_field_set_field_cong.
Qed.

(** A fact whose number was made is a fact that has a number. *)
Lemma synthesizes_normalized g : synthesizes (normalized g) = false.
Proof.
  unfold normalized. destruct (synthesizes g) eqn:Hs; [|done].
  unfold synthesizes.
  cbn [GvsDetailsRecord.counter_number GvsDetailsRecord.set_counter_number truthy_str].
  unfold _get_new_counter_number.
  destruct (format_str (GvsDetailsRecord.counter_id g)); cbn; by rewrite andb_false_r.
Qed.

Lemma has_counter_normalized g : has_counter (normalized g) = has_counter g.
Proof.
  unfold normalized, synthesizes. destruct (has_counter g) eqn:Hc; cbn [andb]; [|done].
  destruct (truthy_str (GvsDetailsRecord.counter_number g)) eqn:Hn; cbn [negb]; [done|].
  unfold has_counter.
  cbn [GvsDetailsRecord.counter_number GvsDetailsRecord.counter_id
         GvsDetailsRecord.set_counter_number truthy_str].
  unfold _get_new_counter_number.
  destruct (format_str (GvsDetailsRecord.counter_id g)); cbn; by rewrite orb_true_r.
Qed.

Lemma normalized_idemp g : normalized (normalized g) = normalized g.
Proof. unfold normalized at 1. by rewrite synthesizes_normalized. Qed.

Lemma store_normalized_normalized l g w : store_normalized l (normalized g) w = w.
Proof. unfold store_normalized. by rewrite synthesizes_normalized. Qed.

Lemma single_row_normalized date data accural w w2 g q payment_sum closing_balance :
  GvsIpuInstallDates w2 = GvsIpuInstallDates w →
  single_row get_tariff date data accural w2 (normalized g) q payment_sum closing_balance
  = single_row get_tariff date data accural w g q payment_sum closing_balance.
Proof.
  intros Hdates.
  unfold single_row, single_meter_chapter, consumption_chapters, install_date_of.
  rewrite has_counter_normalized, normalized_idemp, Hdates.
  by destruct (normalized_frame g) as (_ & _ & -> & -> & -> & -> & -> & ->).
Qed.

Lemma single_result_normalized date data accural account_details w w2 g :
  GvsIpuInstallDates w2 = GvsIpuInstallDates w →
  single_result get_tariff date data accural account_details w2 (normalized g)
  = single_result get_tariff date data accural account_details w g.
Proof.
  intros Hdates. unfold single_result, mbind, result_bind, rbind, mret, result_ret.
  destruct (truediv _ _) as [q|]; [|done].
  destruct (except_NoServiceRow
              (AccountDetailsFileSingleton.get_service_month_payment _ _ _) _)
    as [p|]; [|done].
  destruct (except_NoServiceRow
              (AccountDetailsFileSingleton.get_service_month_closing_balance _ _ _) _)
    as [cb|]; [|done].
  by rewrite (single_row_normalized _ _ _ w w2).
Qed.

Lemma reaccural_result_normalized date data w w2 g reaccural_date reaccural_sum
    reaccural_type :
  GvsIpuInstallDates w2 = GvsIpuInstallDates w →
  reaccural_result get_tariff date data w2 (normalized g) reaccural_date reaccural_sum
    reaccural_type
  = reaccural_result get_tariff date data w g reaccural_date reaccural_sum reaccural_type.
Proof.
  intros Hdates.
  unfold reaccural_result, reaccural_row, reaccural_meter_chapter, install_date_of.
  by rewrite has_counter_normalized, normalized_idemp, Hdates.
Qed.

Lemma second_patch_normalized g a : second_patch (normalized g) a = second_patch g a.
Proof.
  unfold second_patch. by destruct (normalized_frame g) as (_ & _ & -> & -> & _).
Qed.

Lemma first_patch_normalized g a : first_patch (normalized g) a = first_patch g a.
Proof.
  unfold first_patch. by destruct (normalized_frame g) as (_ & _ & -> & _).
Qed.

(** X19: a constructor call that returned a row, made again in the world it
    left, returns the same row and changes nothing. *)
Theorem construct_again_returns_the_same_row c w r w' :
  construct get_tariff address_in_list c w = (Ok r, w') →
  construct get_tariff address_in_list c w' = (Ok r, w').
Proof.
  rewrite !construct_run.
  destruct c as [date data accural odpu_file heating_average_file account_details
                |date data accural account_details l
                |date data accural account_details l
                |date data accural account_details l
                |date data l reaccural_date reaccural_sum reaccural_type].
  - by intros [= -> <-].
  - destruct (objects w !! l) as [g|] eqn:Hl; [|done]. intros [= Hres <-].
    rewrite (objects_store_normalized _ _ _ Hl), store_normalized_normalized.
    by rewrite (single_result_normalized _ _ _ _ w), Hres
      by apply install_dates_store_normalized.
  - destruct (objects w !! l) as [g|] eqn:Hl; [|done]. intros [= Hres <-].
    rewrite (objects_store_normalized _ _ _ Hl), store_normalized_normalized.
    rewrite (single_result_normalized _ _ _ _ w) by apply install_dates_store_normalized.
    destruct (single_result _ _ _ _ _ _ _) as [self|]; [|done].
    unfold mbind, result_bind, rbind, mret, result_ret in *.
    injection Hres as <-. by rewrite first_patch_normalized.
  - destruct (objects w !! l) as [g|] eqn:Hl; [|done].
    destruct (single_result _ _ _ _ _ _ _) as [self|] eqn:Hres; [|done].
    intros [= <- <-]. cbn [objects GvsIpuInstallDates].
    rewrite (objects_store_normalized _ _ _ Hl).
    apply single_result_Ok in Hres as (p & cb & Hprice & Hp & Hcb & ->).
    unfold single_result, truediv, mbind, result_bind, rbind, mret, result_ret.
    rewrite Hprice, Hp, Hcb.
    destruct (normalized_frame g) as (Hacc & _ & _ & Hdate & _).
    rewrite Hacc, Hdate, insert_insert_eq.
    rewrite (second_patch_single_row_world date data accural _ w (normalized g)).
    rewrite (single_row_normalized date data accural w w g) by reflexivity.
    rewrite second_patch_normalized.
    unfold store_normalized at 1. by rewrite synthesizes_normalized.
  - destruct (objects w !! l) as [g|] eqn:Hl; [|done]. intros [= Hres <-].
    rewrite (objects_store_normalized _ _ _ Hl), store_normalized_normalized.
    by rewrite (reaccural_result_normalized _ _ w), Hres
      by apply install_dates_store_normalized.
Qed.

End Built_again.

(** ** Attribute names *)

Section Names_of_attributes.


(** A positive number does not print with a leading zero. *)
Lemma pretty_N_go_no_leading_zero (x : N) s t :
  (0 < x)%N → pretty_N_go x s ≠ String "0" t.
Proof.
  revert s. induction (N.lt_wf_0 x) as [x _ IH]; intros s Hx.
  rewrite pretty_N_go_step by done.
  destruct (N.eq_0_gt_0_cases (x `div` 10)) as [Hzero|Hpos].
  - rewrite Hzero, pretty_N_go_0.
    assert (x < 10)%N as Hlt by (apply N.div_small_iff in Hzero; lia).
    rewrite N.mod_small by done.
    assert (x = 1 ∨ x = 2 ∨ x = 3 ∨ x = 4 ∨ x = 5 ∨ x = 6 ∨ x = 7 ∨ x = 8 ∨ x = 9)%N
      as Hcases by lia.
    repeat (destruct Hcases as [->|Hcases]; [discriminate|]). by subst.
  - apply IH; [|done]. apply N.div_lt; lia.
Qed.

Lemma format_02d_padded (n m : Z) :
  (0 ≤ n ≤ 9)%Z → ¬ (0 ≤ m ≤ 9)%Z → "0" +:+ pretty n ≠ pretty m.
Proof.
  intros Hn Hm H. destruct m as [|p|p]; [lia|..].
  - symmetry in H. revert H. unfold pretty at 1, pretty_Z, pretty, pretty_positive.
    unfold pretty, pretty_N. rewrite decide_False by done.
    cbn [String.append]. by apply pretty_N_go_no_leading_zero.
  - discriminate H.
Qed.

(** X20: two positions have the same attribute name [f"f{ind:02d}"] only
    when they are the same position: [set_field] and [get_field] never
    confuse two positions. *)
Theorem attr_name_inj (i j : Z) : attr_name i = attr_name j ↔ i = j.
Proof.
  split; [|by intros ->].
  unfold attr_name, format_02d. intros [= H].
  destruct (bool_decide_reflect (0 ≤ i ≤ 9)%Z) as [Hi|Hi],
    (bool_decide_reflect (0 ≤ j ≤ 9)%Z) as [Hj|Hj].
  - injection H as H. by apply (inj pretty).
  - by destruct (format_02d_padded i j).
  - symmetry in H. by destruct (format_02d_padded j i).
  - by apply (inj pretty).
Qed.

End Names_of_attributes.

(** ** Rows as lists, and the sheet *)

Section Serialising.

Variable get_tariff : MonthYear.t → float.
Context {sheet : Type}.
Variable address_in_list : string → sheet → bool.



Implicit Types (self r a b : BaseResultRow) (i j k : nat) (v : pyval).
Implicit Types (c : RowCall (sheet := sheet)).

(** [as_list] reads the positions below [MAX_FIELDS] and nothing else. *)
Lemma as_list_ext a b :
  (∀ k, k < MAX_FIELDS → get_field k a = get_field k b) → as_list a = as_list b.
Proof.
  intros Hab. unfold as_list.
  assert (∀ inds (acc : result (list pyval)),
            Forall (λ k, k < MAX_FIELDS) inds →
            foldl (λ (acc : result (list pyval)) ind,
                     items ← acc; v ← get_field ind a; mret (items ++ [v])%list)
                  acc inds
            = foldl (λ (acc : result (list pyval)) ind,
                       items ← acc; v ← get_field ind b; mret (items ++ [v])%list)
                    acc inds) as Hfold.
  { induction inds as [|k inds IH]; intros acc Hall; [done|].
    apply Forall_cons in Hall as [Hk Hall]. cbn [foldl].
    rewrite (Hab k Hk). by apply IH. }
  apply Hfold, Forall_forall. intros k Hk. apply elem_of_seq in Hk. lia.
Qed.

Lemma as_list_set_field self i v items :
  full self → as_list self = Ok items →
  if decide (i < MAX_FIELDS) then as_list (set_field i v self) = Ok (<[i := v]> items)
  else as_list (set_field i v self) = Ok items.
Proof.
  intros Hfull Hitems.
  destruct (as_list_full self Hfull) as (items' & Hitems' & Hlen & Hlook).
  rewrite Hitems in Hitems'. injection Hitems' as <-.
  destruct (decide (i < MAX_FIELDS)) as [Hi|Hi].
  - destruct (as_list_full (set_field i v self) (full_set_field _ _ _ Hi Hfull))
      as (items2 & Hitems2 & Hlen2 & Hlook2).
    rewrite Hitems2. f_equal. apply list_eq. intros k. rewrite Hlook2.
    unfold set_field; cbn [fields].
    destruct (decide (i = k)) as [->|Hne].
    + rewrite lookup_insert_eq, list_lookup_insert_eq by lia. done.
    + rewrite lookup_insert_ne, list_lookup_insert_ne by done. by rewrite Hlook.
  - rewrite <-Hitems. apply as_list_ext. intros k Hk.
    apply get_field_set_field_ne. lia.
Qed.

(** X21: writing a position of a constructed row and reading it back gives
    the value written.  Below 47 the write replaces the value at that index
    of the list [as_list] returns; from 47 on the position did not exist
    before ([get_field] raised [AttributeError]), the write creates it and
    [as_list] returns the same list as before. *)
Theorem set_field_and_as_list c w r w' i v :
  construct get_tariff address_in_list c w = (Ok r, w') →
  ∃ items,
    as_list r = Ok items
    ∧ get_field i (set_field i v r) = Ok v
    ∧ if decide (i < 47) then
        as_list (set_field i v r) = Ok (<[i := v]> items)
      else
        get_field i r = Raise AttributeError
        ∧ as_list (set_field i v r) = Ok items.
Proof.
  intros H. pose proof (full_construct _ _ _ _ _ _ H) as Hfull.
  destruct (as_list_full r Hfull) as (items & Hitems & _).
  exists items. split; [done|]. split; [apply get_field_set_field_eq|].
  pose proof (as_list_set_field r i v items Hfull Hitems) as Hset.
  change MAX_FIELDS with 47 in Hset.
  destruct (decide (i < 47)) as [Hi|Hi]; [done|]. split; [|done].
  unfold get_field. rewrite full_lookup_None; [done..|unfold MAX_FIELDS; lia].
Qed.


End Serialising.

(** ** The date of a payment *)

Section Dates.


Lemma pretty_N_four_digits (n : N) :
  (1000 ≤ n ≤ 9999)%N →
  pretty n
  = String (pretty_N_char (n `div` 1000))
      (String (pretty_N_char ((n `div` 100) `mod` 10))
         (String (pretty_N_char ((n `div` 10) `mod` 10))
            (String (pretty_N_char (n `mod` 10)) ""))).
Proof.
  intros Hn. unfold pretty, pretty_N. rewrite decide_False by lia.
  assert ((n `div` 10) `div` 10 = n `div` 100)%N as H100 by apply N.Div0.div_div.
  assert ((n `div` 100) `div` 10 = n `div` 1000)%N as H1000 by apply N.Div0.div_div.
  assert (0 < n `div` 10)%N by (apply N.div_str_pos; lia).
  assert (0 < n `div` 100)%N by (apply N.div_str_pos; lia).
  assert (0 < n `div` 1000)%N by (apply N.div_str_pos; lia).
  assert (n `div` 1000 < 10)%N by (apply N.Div0.div_lt_upper_bound; lia).
  rewrite (pretty_N_go_step n) by lia.
  rewrite (pretty_N_go_step (n `div` 10)), H100 by done.
  rewrite (pretty_N_go_step (n `div` 100)), H1000 by done.
  rewrite (pretty_N_go_step (n `div` 1000)) by done.
  rewrite (N.div_small (n `div` 1000) 10), pretty_N_go_0 by done.
  by rewrite (N.mod_small (n `div` 1000) 10) by done.
Qed.

(** X23: for a month from 1 to 12 and a year of four digits the date of a
    payment has the form [DD.MM.YYYY] and its day is 20. *)
Theorem payment_date_is_a_date (date : MonthYear.t) :
  (1 ≤ MonthYear.month date ≤ 12)%Z →
  (1000 ≤ MonthYear.year date ≤ 9999)%Z →
  is_dd_mm_yyyy (payment_date date) = true
  ∧ ∃ rest, payment_date date = "20." +:+ rest.
Proof.
  intros Hmonth Hyear. split; [|by eexists].
  unfold payment_date, str_int.
  destruct date as [month year]. cbn [MonthYear.month MonthYear.year] in *.
  destruct year as [|y|y]; try lia.
  change (pretty (Z.pos y)) with (pretty (N.pos y)).
  rewrite (pretty_N_four_digits (N.pos y)) by lia.
  assert (month = 1 ∨ month = 2 ∨ month = 3 ∨ month = 4 ∨ month = 5 ∨ month = 6
          ∨ month = 7 ∨ month = 8 ∨ month = 9 ∨ month = 10 ∨ month = 11
          ∨ month = 12)%Z as Hcases by lia.
  repeat (destruct Hcases as [->|Hcases]); [..|subst month];
    match goal with
    | |- context [format_02d ?m] =>
        let s := eval vm_compute in (format_02d m) in change (format_02d m) with s
    end;
    unfold is_dd_mm_yyyy; cbv beta iota fix delta [String.append];
    rewrite !is_digit_pretty_N_char; vm_compute; reflexivity.
Qed.

End Dates.

(** ** The names in the configuration *)

Section Result_file.


Import ResultFile.

Lemma cut_None sep s : cut sep s = None ↔ count sep s = 0.
Proof.
  induction s as [|ch s IH]; cbn [cut count]; [done|].
  destruct (Ascii.eqb ch sep); [done|].
  destruct (cut sep s) as [[a b]|]; cbn [Nat.add]; rewrite <-IH; done.
Qed.

Lemma cut_Some sep s a b :
  cut sep s = Some (a, b) ↔ s = a +:+ String sep b ∧ count sep a = 0.
Proof.
  revert a. induction s as [|ch s IH]; intros a; cbn [cut].
  - split; [done|]. intros [H _]. by destruct a.
  - destruct (Ascii.eqb ch sep) eqn:Heq.
    + apply Ascii.eqb_eq in Heq as ->. split.
      * by intros [= <- <-].
      * intros [H Hcount]. destruct a as [|ch' a]; cbn [String.append] in H.
        -- by injection H as ->.
        -- injection H as <- _. cbn [count] in Hcount.
           rewrite Ascii.eqb_refl in Hcount. done.
    + split.
      * destruct (cut sep s) as [[a' b']|] eqn:Hcut; [|done]. intros [= <- <-].
        destruct (proj1 (IH a') eq_refl) as [-> Hcount].
        cbn [count String.append]. by rewrite Heq.
      * intros [H Hcount]. destruct a as [|ch' a]; cbn [String.append] in H.
        -- injection H as -> _. by rewrite Ascii.eqb_refl in Heq.
        -- injection H as <- ->. cbn [count] in Hcount. rewrite Heq in Hcount.
           cbn [Nat.add] in Hcount.
           assert (cut sep (a +:+ String sep b) = Some (a, b)) as -> by by apply IH.
           done.
Qed.

Lemma count_app sep a b : count sep (a +:+ b) = count sep a + count sep b.
Proof.
  induction a as [|ch a IH]; [done|].
  change (count sep (String ch a +:+ b))
    with ((if Ascii.eqb ch sep then 1 else 0) + count sep (a +:+ b)).
  rewrite IH. cbn [count]. lia.
Qed.

Lemma count_app_sep sep a b :
  count sep (a +:+ String sep b) = S (count sep a + count sep b).
Proof. rewrite count_app. cbn [count]. rewrite Ascii.eqb_refl. lia. Qed.

(** X24: the configuration entry [result_file] yields a file name and a
    sheet name exactly when it is the one followed by [@] and the other and
    neither contains an [@]; a missing entry raises [KeyError] and an entry
    with no [@] or with more than one raises [ValueError]. *)
Theorem names_succeeds_for_exactly_one_separator (conf : gmap string string) :
  (∀ file_name sheet_name,
     names conf = Done (file_name, sheet_name)
     ↔ conf !! "result_file" = Some (file_name +:+ "@" +:+ sheet_name)
       ∧ count "@" file_name = 0 ∧ count "@" sheet_name = 0)
  ∧ (conf !! "result_file" = None → names conf = Fail (KeyError "result_file"))
  ∧ (∀ s, conf !! "result_file" = Some s → count "@" s ≠ 1 → names conf = Fail ValueError).
Proof.
  unfold names. destruct (conf !! "result_file") as [s|]; cbn [split].
  - split; [|split; [done|]].
    + intros file_name sheet_name.
      change ("@" +:+ sheet_name) with (String "@" sheet_name).
      destruct (cut "@" s) as [[a b]|] eqn:Hcut.
      * apply cut_Some in Hcut as [-> Ha].
        destruct (cut "@" b) as [[a' b']|] eqn:Hcut'.
        -- split; [done|]. intros ([= H] & Hf & Hs). exfalso.
           apply cut_Some in Hcut' as [-> _].
           assert (count "@" (a +:+ String "@" (a' +:+ String "@" b'))
                   = count "@" (file_name +:+ String "@" sheet_name)) as Hcount
             by by rewrite H.
           rewrite !count_app_sep in Hcount. lia.
        -- apply cut_None in Hcut'. split.
           ++ by intros [= <- <-].
           ++ intros ([= H] & Hf & Hs).
              assert (cut "@" (a +:+ String "@" b) = Some (a, b)) as Hab
                by by apply cut_Some.
              rewrite H in Hab.
              assert (cut "@" (file_name +:+ String "@" sheet_name)
                      = Some (file_name, sheet_name)) as Hfs by by apply cut_Some.
              rewrite Hfs in Hab. by injection Hab as -> ->.
      * apply cut_None in Hcut. split; [done|]. intros ([= ->] & Hf & Hs).
        rewrite count_app_sep in Hcut. lia.
    + intros s' [= <-] Hcount.
      destruct (cut "@" s) as [[a b]|] eqn:Hcut; [|done].
      apply cut_Some in Hcut as [-> Ha].
      destruct (cut "@" b) as [[a' b']|] eqn:Hcut'; [done|].
      apply cut_None in Hcut'. exfalso. apply Hcount.
      rewrite count_app_sep. lia.
  - split; [|split; [done|]]; [|done].
    intros file_name sheet_name. split; [done|]. by intros [? _].
Qed.

End Result_file.

(** ** The worked report period *)

Import Worked.

(** C1: the reaccrual constructor called with the normative kind for a
    metering fact with three registered people fills the normative chapter
    (31-33) and leaves position 30 empty, whereas the single-fact constructor
    writes the three registered people there for the same fact. *)
Lemma reaccural_normative_leaves_registered_count_empty :
  run reaccural_call world0
  = (Ok (row_of (run reaccural_call world0)), world_of (run reaccural_call world0))
  ∧ get_field 31 (row_of (run reaccural_call world0)) = Ok (VStr "1.5000")
  ∧ get_field 32 (row_of (run reaccural_call world0)) = Ok (VFloat 75)
  ∧ get_field 33 (row_of (run reaccural_call world0)) = Ok (VFloat 75)
  ∧ get_field 30 (row_of (run reaccural_call world0)) = Ok VNone
  ∧ get_field 30 (row_of (run single_call world0)) = Ok (VInt 3).
Proof. repeat split; vm_compute; reflexivity. Qed.

(** C8: a heating row and a single-fact GVS row built for a payment sum of
    -100 have the payment chapter filled with the dates, the sum and the
    label of a payment, not the label of a refund. *)
Lemma refund_labelled_as_payment :
  run heating_call world0
  = (Ok (row_of (run heating_call world0)), world_of (run heating_call world0))
  ∧ get_field 40 (row_of (run heating_call world0)) = Ok (VStr "20.05.2023")
  ∧ get_field 41 (row_of (run heating_call world0)) = Ok (VStr "20.05.2023")
  ∧ get_field 42 (row_of (run heating_call world0)) = Ok (VFloat (-100))
  ∧ get_field 43 (row_of (run heating_call world0)) = Ok (VStr "Оплата")
  ∧ get_field 42 (row_of (run single_refund_call world0)) = Ok (VFloat (-100))
  ∧ get_field 43 (row_of (run single_refund_call world0)) = Ok (VStr "Оплата").
Proof. repeat split; vm_compute; reflexivity. Qed.

(** C5, counterexample: the second row of a split, successfully built for an
    accrued amount of 150 at the price 50, has an empty consolidated
    chapter. *)
Lemma second_row_consolidated_chapter_empty :
  run second_call world0
  = (Ok (row_of (run second_call world0)), world_of (run second_call world0))
  ∧ chapter_empty 35 (row_of (run second_call world0))
  ∧ ¬ chapter_filled 35 "3.0000" 150 (row_of (run second_call world0)).
Proof.
  split; [vm_compute; reflexivity|]. split; [repeat split; vm_compute; reflexivity|].
  intros [H _]. vm_compute in H. discriminate H.
Qed.

(** C6, counterexample: at the positive price 0.5 the amount 2^1023 gives
    a quotient that overflows; the quantity written is [inf], which has no
    fractional digit. *)
Lemma quantity_of_overflowing_quotient :
  (0 <? half_tariff may)%float = true
  ∧ construct half_tariff in_roster huge_single_call world0
    = (Ok (row_of (construct half_tariff in_roster huge_single_call world0)),
       world_of (construct half_tariff in_roster huge_single_call world0))
  ∧ get_field 35 (row_of (construct half_tariff in_roster huge_single_call world0))
    = Ok (VStr "inf")
  ∧ four_fraction_digits "inf" = false.
Proof. repeat split; vm_compute; reflexivity. Qed.

(** C10, counterexample: after the second row of a split was built from a
    fact without a date, the dictionary holds [None] for the account; the
    second row of a later split for the same account has its own date in
    position 10, not an empty one. *)
Lemma later_second_row_has_install_date :
  run second_call_without_date world0
  = (Ok (row_of (run second_call_without_date world0)),
     world_of (run second_call_without_date world0))
  ∧ GvsIpuInstallDates (world_of (run second_call_without_date world0)) !! "100"
    = Some None
  ∧ run second_call (world_of (run second_call_without_date world0))
    = (Ok (row_of (run second_call (world_of (run second_call_without_date world0)))),
       world_of (run second_call (world_of (run second_call_without_date world0))))
  ∧ get_field 10
      (row_of (run second_call (world_of (run second_call_without_date world0))))
    = Ok (VStr "15.06.2023").
Proof. repeat split; vm_compute; reflexivity. Qed.

(** The theorems at the worked period. *)

Lemma row_has_47_fields_witness :
  run single_call world0
  = (Ok (row_of (run single_call world0)), world_of (run single_call world0))
  ∧ size (fields (row_of (run single_call world0))) = 47
  ∧ ∃ items, as_list (row_of (run single_call world0)) = Ok items ∧ length items = 47.
Proof.
  split; [vm_compute; reflexivity|].
  destruct (row_has_47_fields tariff in_roster single_call world0
              (row_of (run single_call world0)) (world_of (run single_call world0)))
    as (_ & _ & _ & Hsize & _ & items & Hitems & Hlen & _); [vm_compute; reflexivity|].
  split; [exact Hsize|]. exists items. split; [exact Hitems|exact Hlen].
Defined.

Lemma second_row_install_date_witness :
  objects world0 !! 1 = Some fact_new
  ∧ run second_call world0
    = (Ok (row_of (run second_call world0)), world_of (run second_call world0))
  ∧ get_field 10 (row_of (run second_call world0)) = Ok (VStr "15.06.2023")
  ∧ GvsIpuInstallDates (world_of (run second_call world0)) !! "100"
    = Some (Some "15.06.2023")
  ∧ get_field 35 (row_of (run second_call world0)) = Ok VNone.
Proof.
  split; [vm_compute; reflexivity|]. split; [vm_compute; reflexivity|].
  destruct (second_row_install_date_and_cleared_chapters tariff may data accural
              ledger_empty 1 world0 fact_new (row_of (run second_call world0))
              (world_of (run second_call world0)))
    as (H10 & Hmemo & _ & Hcleared);
    [vm_compute; reflexivity|vm_compute; reflexivity|].
  split; [exact H10|]. split; [exact Hmemo|]. apply Hcleared. lia.
Defined.

Lemma heating_average_xor_normative_witness :
  HeatingResultRow_init tariff in_roster may data accural odpu_file heating_average_file
    ledger_refund = Ok (row_of (run heating_call world0))
  ∧ chapter_empty 26 (row_of (run heating_call world0))
  ∧ chapter_filled 31 "4.0000" 200 (row_of (run heating_call world0))
  ∧ get_field 30 (row_of (run heating_call world0)) = Ok (VInt 3).
Proof.
  split; [vm_compute; reflexivity|].
  destruct (heating_average_xor_normative tariff in_roster may data accural
              odpu_file heating_average_file ledger_refund
              (row_of (run heating_call world0)))
    as (_ & _ & Hnormative); [vm_compute; reflexivity|].
  apply Hnormative. intros [_ Haverage]. vm_compute in Haverage. discriminate Haverage.
Defined.

Lemma single_row_tolerates_NoServiceRow_witness :
  (0 <? tariff may)%float = true
  ∧ objects world0 !! 0 = Some fact_a1
  ∧ ∃ r w',
      GvsSingleResultRow_init tariff may data accural ledger_empty 0 world0 = (Ok r, w')
      ∧ get_field 40 r = Ok VNone ∧ get_field 41 r = Ok VNone
      ∧ get_field 42 r = Ok VNone ∧ get_field 43 r = Ok VNone
      ∧ get_field 45 r = Ok (VInt 0).
Proof.
  split; [vm_compute; reflexivity|]. split; [vm_compute; reflexivity|].
  apply (single_row_tolerates_NoServiceRow tariff may data accural ledger_empty 0 world0
           fact_a1); vm_compute; reflexivity.
Defined.

Lemma consolidated_chapter_by_kind_witness :
  run single_call world0
  = (Ok (row_of (run single_call world0)), world_of (run single_call world0))
  ∧ chapter_filled 35 "3.0000" 150 (row_of (run single_call world0)).
Proof.
  split; [vm_compute; reflexivity|].
  apply (consolidated_chapter_by_kind tariff in_roster single_call world0
           (row_of (run single_call world0)) (world_of (run single_call world0))).
  vm_compute; reflexivity.
Defined.

Lemma quantity_fields_share_formatted_quotient_witness :
  run single_call world0
  = (Ok (row_of (run single_call world0)), world_of (run single_call world0))
  ∧ (get_field 31 (row_of (run single_call world0)) = Ok VNone
     ∨ get_field 31 (row_of (run single_call world0)) = Ok (VStr "3.0000"))
  ∧ four_fraction_digits "3.0000" = true.
Proof.
  split; [vm_compute; reflexivity|].
  destruct (quantity_fields_share_formatted_quotient tariff in_roster
              single_call world0 (row_of (run single_call world0))
              (world_of (run single_call world0)))
    as (Hfields & Hnumber & _); [vm_compute; reflexivity|].
  split.
  - apply (Hfields 31). do 2 (apply elem_of_cons; right). apply elem_of_cons. by left.
  - apply Hnumber. vm_compute; reflexivity.
Defined.

Lemma counter_number_synthesized_in_place_witness :
  gvs_details_row_of single_call = Some 0
  ∧ objects world0 !! 0 = Some fact_a1
  ∧ GvsDetailsRecord.counter_id fact_a1 = Some "A1"
  ∧ truthy_str (GvsDetailsRecord.counter_number fact_a1) = false
  ∧ run single_call world0
    = (Ok (row_of (run single_call world0)), world_of (run single_call world0))
  ∧ get_field 14 (row_of (run single_call world0)) = Ok (VStr "A1_2")
  ∧ objects (world_of (run single_call world0)) !! 0
    = Some (GvsDetailsRecord.set_counter_number (Some "A1_2") fact_a1).
Proof.
  do 5 (split; [vm_compute; reflexivity|]).
  destruct (counter_number_synthesized_in_place tariff in_roster single_call
              world0 (row_of (run single_call world0)) (world_of (run single_call world0))
              0 fact_a1 "A1")
    as (H14 & Hobject & _); try (vm_compute; reflexivity); [discriminate|].
  split; [exact H14|exact Hobject].
Defined.

Lemma absent_install_date_reaches_later_rows_witness :
  objects world0 !! 0 = Some fact_a1
  ∧ GvsDetailsRecord.metric_date_current fact_a1 = None
  ∧ run second_call_without_date world0
    = (Ok (row_of (run second_call_without_date world0)),
       world_of (run second_call_without_date world0))
  ∧ GvsIpuInstallDates (world_of (run second_call_without_date world0)) !! "100"
    = Some None
  ∧ get_field 10
      (row_of (run single_call (world_of (run second_call_without_date world0))))
    = Ok VNone.
Proof.
  do 3 (split; [vm_compute; reflexivity|]).
  destruct (absent_install_date_reaches_later_rows tariff in_roster may data
              accural ledger_empty 0 world0 fact_a1
              (row_of (run second_call_without_date world0))
              (world_of (run second_call_without_date world0)))
    as (Hmemo & Hlater); try (vm_compute; reflexivity).
  split; [exact Hmemo|].
  apply (Hlater single_call (world_of (run second_call_without_date world0))
           (row_of (run single_call (world_of (run second_call_without_date world0))))
           (world_of (run single_call (world_of (run second_call_without_date world0)))));
    try (vm_compute; reflexivity).
  by exists 0.
Defined.

(** The single-fact row for May 2023, an accrued amount of 150 at the
    price 50 and a metering fact with the id X9, no number and a metered
    consumption of 3: quantity 3.0000, the meter chapter and the consolidated
    chapter hold (3.0000, 150, 150), position 14 holds X9_2. *)
Lemma metered_row_of_may :
  run metered_call world0
  = (Ok (row_of (run metered_call world0)), world_of (run metered_call world0))
  ∧ chapter_filled 23 "3.0000" 150 (row_of (run metered_call world0))
  ∧ chapter_filled 35 "3.0000" 150 (row_of (run metered_call world0))
  ∧ get_field 14 (row_of (run metered_call world0)) = Ok (VStr "X9_2")
  ∧ get_field 0 (row_of (run metered_call world0)) = Ok (VInt 5)
  ∧ get_field 1 (row_of (run metered_call world0)) = Ok (VInt 2023)
  ∧ get_field 8 (row_of (run metered_call world0)) = Ok (VFloat 50).
Proof. repeat split; vm_compute; reflexivity. Qed.

Lemma reaccural_row_fills_the_chapter_of_its_kind_witness :
  run reaccural_call world0
  = (Ok (row_of (run reaccural_call world0)), world_of (run reaccural_call world0))
  ∧ chapter_filled 31 "1.5000" 75 (row_of (run reaccural_call world0))
  ∧ chapter_empty 23 (row_of (run reaccural_call world0)).
Proof.
  split; [vm_compute; reflexivity|].
  destruct (reaccural_row_fills_the_chapter_of_its_kind tariff may data 0 march 75
              NORMATIVE world0 (row_of (run reaccural_call world0))
              (world_of (run reaccural_call world0)))
    as (ind & Hind & Hfilled & Hempty & _); [vm_compute; reflexivity|].
  injection Hind as <-. split; [exact Hfilled|].
  apply Hempty; [apply elem_of_cons; by left|discriminate].
Defined.

Lemma reaccural_unrecognized_kind_raises_witness :
  objects world0 !! 0 = Some fact_a1
  ∧ (0 <? tariff may)%float = true
  ∧ GvsReaccuralResultRow_init tariff may data 0 march 75 (UNRECOGNIZED "OTHER") world0
    = (Raise ValueError, store_normalized 0 fact_a1 world0).
Proof.
  split; [vm_compute; reflexivity|]. split; [vm_compute; reflexivity|].
  apply (reaccural_unrecognized_kind_raises tariff may data 0 march 75 "OTHER" world0
           fact_a1); vm_compute; reflexivity.
Defined.

Lemma heating_payment_chapter_witness :
  HeatingResultRow_init tariff in_roster may data accural odpu_file heating_average_file
    ledger_refund = Ok (row_of (run heating_call world0))
  ∧ ∃ payment_sum closing_balance,
      AccountDetailsFileSingleton.get_service_month_payment ledger_refund may "Отопление"
        = Ok payment_sum
      ∧ AccountDetailsFileSingleton.get_service_month_closing_balance ledger_refund may
          "Отопление" = Ok closing_balance
      ∧ get_field 45 (row_of (run heating_call world0)) = Ok (VFloat closing_balance).
Proof.
  split; [vm_compute; reflexivity|].
  destruct (heating_payment_chapter tariff in_roster may data accural odpu_file
              heating_average_file ledger_refund (row_of (run heating_call world0)))
    as (payment_sum & closing_balance & Hp & Hcb & H45 & _); [vm_compute; reflexivity|].
  exists payment_sum, closing_balance. split; [exact Hp|]. split; [exact Hcb|exact H45].
Defined.

Lemma constructed_row_header_witness :
  run reaccural_call world0
  = (Ok (row_of (run reaccural_call world0)), world_of (run reaccural_call world0))
  ∧ get_field 0 (row_of (run reaccural_call world0)) = Ok (VInt 5)
  ∧ get_field 4 (row_of (run reaccural_call world0)) = Ok (VStr "GVS_REACCURAL")
  ∧ get_field 6 (row_of (run reaccural_call world0)) = Ok (VInt 3).
Proof.
  split; [vm_compute; reflexivity|].
  destruct (constructed_row_header tariff in_roster reaccural_call world0
              (row_of (run reaccural_call world0)) (world_of (run reaccural_call world0)))
    as (H0 & _ & _ & _ & H4 & _ & H6 & _); [vm_compute; reflexivity|].
  split; [exact H0|]. split; [exact H4|exact H6].
Defined.

Lemma heating_area_meter_chapter_witness :
  HeatingResultRow_init tariff in_roster may data accural odpu_file heating_average_file
    ledger_refund = Ok (row_of (run heating_call world0))
  ∧ get_field 9 (row_of (run heating_call world0)) = Ok (VStr "Общедомовый")
  ∧ get_field 17 (row_of (run heating_call world0)) = Ok VNone.
Proof.
  split; [vm_compute; reflexivity|].
  destruct (heating_area_meter_chapter tariff in_roster may data accural odpu_file
              heating_average_file ledger_refund (row_of (run heating_call world0)))
    as [Hmeter Hempty]; [vm_compute; reflexivity|].
  split; [exact (proj1 Hmeter)|apply Hempty; lia].
Defined.

Lemma gvs_meter_descriptor_witness :
  gvs_details_row_of single_call = Some 0
  ∧ objects world0 !! 0 = Some fact_a1
  ∧ run single_call world0
    = (Ok (row_of (run single_call world0)), world_of (run single_call world0))
  ∧ get_field 11 (row_of (run single_call world0)) = Ok VNone
  ∧ get_field 13 (row_of (run single_call world0)) = Ok (VStr "СГВ-15")
  ∧ get_field 14 (row_of (run single_call world0)) = Ok (VStr "A1_2").
Proof.
  do 3 (split; [vm_compute; reflexivity|]).
  destruct (gvs_meter_descriptor tariff in_roster single_call world0
              (row_of (run single_call world0)) (world_of (run single_call world0))
              0 fact_a1)
    as (H11 & _ & Hmeter); try (vm_compute; reflexivity).
  destruct Hmeter as (_ & H13 & H14 & _).
  split; [exact H11|]. split; [exact H13|exact H14].
Defined.

Lemma gvs_reading_chapter_witness :
  gvs_details_row_of first_call = Some 1
  ∧ objects world0 !! 1 = Some fact_new
  ∧ run first_call world0
    = (Ok (row_of (run first_call world0)), world_of (run first_call world0))
  ∧ get_field 22 (row_of (run first_call world0)) = Ok (VFloat 3)
  ∧ get_field 20 (row_of (run first_call world0)) = Ok (VStr "При снятии прибора").
Proof.
  do 3 (split; [vm_compute; reflexivity|]).
  destruct (gvs_reading_chapter tariff in_roster first_call world0
              (row_of (run first_call world0)) (world_of (run first_call world0))
              1 fact_new)
    as (H22 & Hreading); try (vm_compute; reflexivity).
  destruct Hreading as (_ & H20 & _).
  split; [exact H22|exact H20].
Defined.

Lemma reaccural_row_has_no_reading_nor_payment_witness :
  run reaccural_call world0
  = (Ok (row_of (run reaccural_call world0)), world_of (run reaccural_call world0))
  ∧ get_field 42 (row_of (run reaccural_call world0)) = Ok VNone.
Proof.
  split; [vm_compute; reflexivity|].
  apply (reaccural_row_has_no_reading_nor_payment tariff may data 0 march 75 NORMATIVE
           world0 (row_of (run reaccural_call world0))
           (world_of (run reaccural_call world0))); [vm_compute; reflexivity|lia].
Defined.

Lemma install_date_from_memo_or_default_witness :
  gvs_details_row_of single_call = Some 0
  ∧ objects world0 !! 0 = Some fact_a1
  ∧ run single_call world0
    = (Ok (row_of (run single_call world0)), world_of (run single_call world0))
  ∧ get_field 10 (row_of (run single_call world0)) = Ok (VStr "01.01.2019")
  ∧ GvsIpuInstallDates (world_of (run single_call world0)) = GvsIpuInstallDates world0.
Proof.
  do 3 (split; [vm_compute; reflexivity|]).
  destruct (install_date_from_memo_or_default tariff in_roster single_call world0
              (row_of (run single_call world0)) (world_of (run single_call world0))
              0 fact_a1)
    as (H10 & Hmemo); try (vm_compute; reflexivity).
  split; [exact H10|exact Hmemo].
Defined.

Lemma install_date_memo_round_trip_witness :
  objects world0 !! 1 = Some fact_new
  ∧ run second_call world0
    = (Ok (row_of (run second_call world0)), world_of (run second_call world0))
  ∧ objects (world_of (run second_call world0)) !! 0 = Some fact_a1
  ∧ has_counter fact_a1 = true
  ∧ run single_call (world_of (run second_call world0))
    = (Ok (row_of (run single_call (world_of (run second_call world0)))),
       world_of (run single_call (world_of (run second_call world0))))
  ∧ get_field 10 (row_of (run single_call (world_of (run second_call world0))))
    = Ok (VStr "15.06.2023").
Proof.
  do 5 (split; [vm_compute; reflexivity|]).
  apply (install_date_memo_round_trip tariff in_roster may data accural ledger_empty 1
           world0 fact_new (row_of (run second_call world0))
           (world_of (run second_call world0)) single_call 0 fact_a1
           (row_of (run single_call (world_of (run second_call world0))))
           (world_of (run single_call (world_of (run second_call world0)))));
    vm_compute; reflexivity.
Defined.

Lemma gvs_consumption_chapters_witness :
  gvs_details_row_of single_call = Some 0
  ∧ objects world0 !! 0 = Some fact_a1
  ∧ run single_call world0
    = (Ok (row_of (run single_call world0)), world_of (run single_call world0))
  ∧ chapter_empty 23 (row_of (run single_call world0))
  ∧ chapter_filled 31 "3.0000" 150 (row_of (run single_call world0))
  ∧ get_field 30 (row_of (run single_call world0)) = Ok (VInt 3).
Proof.
  do 3 (split; [vm_compute; reflexivity|]).
  destruct (gvs_consumption_chapters tariff in_roster single_call world0
              (row_of (run single_call world0)) (world_of (run single_call world0))
              0 fact_a1)
    as (Hmeter & _ & Hnormative); try (vm_compute; reflexivity).
  destruct Hnormative as [Hfilled H30].
  split; [exact Hmeter|]. split; [exact Hfilled|exact H30].
Defined.

Lemma gvs_payment_chapter_witness :
  account_details_of single_refund_call = Some ledger_refund
  ∧ run single_refund_call world0
    = (Ok (row_of (run single_refund_call world0)),
       world_of (run single_refund_call world0))
  ∧ get_field 42 (row_of (run single_refund_call world0)) = Ok (VFloat (-100))
  ∧ get_field 43 (row_of (run single_refund_call world0)) = Ok (VStr "Оплата")
  ∧ get_field 45 (row_of (run single_refund_call world0)) = Ok (VFloat 12.5).
Proof.
  do 2 (split; [vm_compute; reflexivity|]).
  destruct (gvs_payment_chapter tariff in_roster single_refund_call world0
              (row_of (run single_refund_call world0))
              (world_of (run single_refund_call world0)) ledger_refund)
    as [Hpayment H45]; try (vm_compute; reflexivity); [by exists 0|].
  destruct Hpayment as (_ & _ & H42 & H43).
  split; [exact H42|]. split; [exact H43|exact H45].
Defined.

Lemma heating_row_needs_the_ledger_witness :
  (tariff may =? 0)%float = false
  ∧ AccountDetailsFileSingleton.get_service_month_payment ledger_empty may "Отопление"
    = Raise NoServiceRow
  ∧ HeatingResultRow_init tariff in_roster may data accural odpu_file heating_average_file
      ledger_empty = Raise NoServiceRow.
Proof.
  do 2 (split; [vm_compute; reflexivity|]).
  apply (heating_row_needs_the_ledger tariff in_roster may data accural odpu_file
           heating_average_file ledger_empty NoServiceRow); [vm_compute; reflexivity|].
  left. reflexivity.
Defined.

Lemma gvs_row_lets_other_ledger_errors_through_witness :
  objects world0 !! 0 = Some fact_a1
  ∧ (tariff may =? 0)%float = false
  ∧ ∃ w',
      construct tariff in_roster single_broken_call world0 = (Raise ValueError, w')
      ∧ GvsIpuInstallDates w' = GvsIpuInstallDates world0
      ∧ objects w' !! 0
        = Some (GvsDetailsRecord.set_counter_number (Some "A1_2") fact_a1).
Proof.
  do 2 (split; [vm_compute; reflexivity|]).
  destruct (gvs_row_lets_other_ledger_errors_through tariff in_roster single_broken_call
              world0 0 fact_a1 ledger_broken ValueError)
    as (w' & Hrun & Hmemo & Hobject); try (vm_compute; reflexivity).
  - left. reflexivity.
  - discriminate.
  - exists w'. split; [exact Hrun|]. split; [exact Hmemo|exact Hobject].
Defined.

Lemma zero_price_raises_witness :
  (zero_tariff (date_of single_call) =? 0)%float = true
  ∧ objects world0 !! 0 = Some fact_a1
  ∧ ∃ w',
      construct zero_tariff in_roster single_call world0 = (Raise ZeroDivisionError, w')
      ∧ objects w' !! 0
        = Some (GvsDetailsRecord.set_counter_number (Some "A1_2") fact_a1).
Proof.
  do 2 (split; [vm_compute; reflexivity|]).
  pose proof (zero_price_raises zero_tariff in_roster single_call world0) as Hraises.
  hnf in Hraises.
  destruct (Hraises ltac:(vm_compute; reflexivity) fact_a1 ltac:(vm_compute; reflexivity))
    as (w' & Hrun & _ & Hobject).
  exists w'. split; [exact Hrun|exact Hobject].
Defined.

Lemma constructor_changes_only_its_counter_number_witness :
  run single_call world0
  = (Ok (row_of (run single_call world0)), world_of (run single_call world0))
  ∧ objects (world_of (run single_call world0)) !! 1 = objects world0 !! 1
  ∧ objects (world_of (run single_call world0)) !! 0
    = Some (GvsDetailsRecord.set_counter_number (Some "A1_2") fact_a1)
  ∧ dom (objects (world_of (run single_call world0))) = dom (objects world0).
Proof.
  split; [vm_compute; reflexivity|].
  destruct (constructor_changes_only_its_counter_number tariff in_roster single_call
              world0 (Ok (row_of (run single_call world0)))
              (world_of (run single_call world0)))
    as (Hothers & Hown & Hdom); [vm_compute; reflexivity|].
  split; [apply Hothers; discriminate|].
  split; [apply (Hown 0 fact_a1); vm_compute; reflexivity|exact Hdom].
Defined.

Lemma only_the_second_row_writes_the_memo_witness :
  run single_call world0
  = (Ok (row_of (run single_call world0)), world_of (run single_call world0))
  ∧ (GvsIpuInstallDates (world_of (run single_call world0)) = GvsIpuInstallDates world0
     ∨ is_second_row single_call = true).
Proof.
  split; [vm_compute; reflexivity|].
  destruct (only_the_second_row_writes_the_memo tariff in_roster single_call world0
              (Ok (row_of (run single_call world0))) (world_of (run single_call world0)))
    as [Hsame|(r & l & g & Hsecond & _)]; [vm_compute; reflexivity|..].
  - left. exact Hsame.
  - right. exact Hsecond.
Defined.

Lemma split_rows_extend_the_single_row_witness :
  GvsSingleResultRow_init tariff may data accural ledger_empty 1 world0
  = (Ok (row_of (run single_new_call world0)), world0)
  ∧ ∃ r1 r2 w2,
      GvsMultipleResultFirstRow_init tariff may data accural ledger_empty 1 world0
      = (Ok r1, world0)
      ∧ get_field 14 r1 = get_field 14 (row_of (run single_new_call world0))
      ∧ GvsMultipleResultSecondRow_init tariff may data accural ledger_empty 1 world0
        = (Ok r2, w2)
      ∧ objects w2 = objects world0.
Proof.
  split; [vm_compute; reflexivity|].
  destruct (split_rows_extend_the_single_row tariff in_roster may data accural
              ledger_empty 1
              world0 (Ok (row_of (run single_new_call world0))) world0)
    as (r1 & r2 & w2 & Hfirst & Hsame & Hsecond & Hobjects & _);
    [vm_compute; reflexivity|].
  exists r1, r2, w2. split; [exact Hfirst|]. split; [apply Hsame; lia|].
  split; [exact Hsecond|exact Hobjects].
Defined.

Lemma construct_again_returns_the_same_row_witness :
  run single_call world0
  = (Ok (row_of (run single_call world0)), world_of (run single_call world0))
  ∧ run single_call (world_of (run single_call world0))
    = (Ok (row_of (run single_call world0)), world_of (run single_call world0)).
Proof.
  split; [vm_compute; reflexivity|].
  apply (construct_again_returns_the_same_row tariff in_roster single_call world0
           (row_of (run single_call world0)) (world_of (run single_call world0))).
  vm_compute; reflexivity.
Defined.

Lemma set_field_and_as_list_witness :
  run single_call world0
  = (Ok (row_of (run single_call world0)), world_of (run single_call world0))
  ∧ ∃ items,
      as_list (row_of (run single_call world0)) = Ok items
      ∧ get_field 47 (row_of (run single_call world0)) = Raise AttributeError
      ∧ as_list (set_field 47 (VInt 1) (row_of (run single_call world0))) = Ok items.
Proof.
  split; [vm_compute; reflexivity|].
  destruct (set_field_and_as_list tariff in_roster single_call world0
              (row_of (run single_call world0)) (world_of (run single_call world0))
              47 (VInt 1))
    as (items & Hitems & _ & Hbeyond); [vm_compute; reflexivity|].
  destruct (decide (47 < 47)) as [Hlt|_]; [lia|].
  destruct Hbeyond as [Hget Hlist].
  exists items. split; [exact Hitems|]. split; [exact Hget|exact Hlist].
Defined.


Lemma payment_date_is_a_date_witness :
  (1 ≤ MonthYear.month may ≤ 12)%Z
  ∧ (1000 ≤ MonthYear.year may ≤ 9999)%Z
  ∧ is_dd_mm_yyyy (payment_date may) = true.
Proof.
  assert (1 ≤ MonthYear.month may ≤ 12)%Z as Hmonth by (cbn; lia).
  assert (1000 ≤ MonthYear.year may ≤ 9999)%Z as Hyear by (cbn; lia).
  split; [exact Hmonth|]. split; [exact Hyear|].
  exact (proj1 (payment_date_is_a_date may Hmonth Hyear)).
Defined.
